(** * Clinic dashboard: the domain state store and its derived views

    A shallow embedding of the client-side state container
    (src/components/context/ClinicContext.tsx), of the record types
    (components/types/clinic), of the seed data
    (src/components/constants/clinic.ts) and of the derived-view
    computations of the pages (payments, analytics, patients, home),
    followed by the properties the specification states about them.

    Conventions of the embedding.
    - A JavaScript [number] that holds an amount, an age or a time value is
      an integer of [Z]; amounts are counted in whole currency units.
    - A JavaScript string is a [string]: a sequence of 8-bit code units.
    - An optional property [f?: T] read from an object is an [option]; where
      the code spreads an object over another one, the difference between a
      missing key and a key holding [undefined] matters and is kept ([prop]).
    - [new Date()], [crypto.randomUUID()] and [localStorage] are effects:
      operations run in the state monad [Eff] over a [World]. *)

From Stdlib Require Import ZArith Lia List String Ascii Bool DecimalString.
From Stdlib Require Import Sorted.
From stdpp Require Import gmap strings list.
Import ListNotations.

Local Open Scope string_scope.
Local Open Scope Z_scope.

(* ===================================================================== *)
(** ** JavaScript strings *)
(* ===================================================================== *)

Module JSString.

(** The code units [String.prototype.trim] strips, in the 8-bit range:
    TAB, LF, VT, FF, CR, SPACE and NBSP. *)
Definition isWhiteSpace (c : ascii) : bool :=
  let n := nat_of_ascii c in
  ((9 <=? n)%nat && (n <=? 13)%nat) || (n =? 32)%nat || (n =? 160)%nat.

Definition isEmpty (s : string) : bool :=
  match s with EmptyString => true | String _ _ => false end.

(** Truthiness of a string value: every string but the empty one. *)
Definition truthy (s : string) : bool := negb (isEmpty s).

Fixpoint trimStart (s : string) : string :=
  match s with
  | EmptyString => EmptyString
  | String c r => if isWhiteSpace c then trimStart r else s
  end.

Fixpoint trimEnd (s : string) : string :=
  match s with
  | EmptyString => EmptyString
  | String c r =>
      let r' := trimEnd r in
      if isWhiteSpace c && isEmpty r' then EmptyString else String c r'
  end.

Definition trim (s : string) : string := trimEnd (trimStart s).

(** A string made of white space only (the empty string included). *)
Fixpoint isBlank (s : string) : bool :=
  match s with
  | EmptyString => true
  | String c r => isWhiteSpace c && isBlank r
  end.

(** Truthiness of an optional string: [undefined] and [""] are falsy. *)
Definition truthyOpt (o : option string) : bool :=
  match o with Some s => truthy s | None => false end.

(** [`${n}`] for an integer. *)
Definition ofNumber (n : Z) : string := NilZero.string_of_int (Z.to_int n).

(** [String.prototype.toLowerCase] on the 8-bit code units: the letters
    A to Z and the accented capitals U+00C0 to U+00DE (the multiplication
    sign U+00D7 apart) move 32 up. *)
Definition lowerCaseUnit (c : ascii) : ascii :=
  let n := nat_of_ascii c in
  if (((65 <=? n) && (n <=? 90))
      || ((192 <=? n) && (n <=? 222) && negb (n =? 215)))%nat
  then ascii_of_nat (n + 32) else c.

Fixpoint toLowerCase (s : string) : string :=
  match s with
  | EmptyString => EmptyString
  | String c r => String (lowerCaseUnit c) (toLowerCase r)
  end.

(** [s.includes(sub)]: [sub] occurs in [s]. *)
Fixpoint includes (s sub : string) : bool :=
  String.prefix sub s
  || match s with
     | EmptyString => false
     | String _ r => includes r sub
     end.

(** [s?.trim() || undefined] *)
Definition trimmedOrUndefined (o : option string) : option string :=
  match o with
  | Some s => if truthy (trim s) then Some (trim s) else None
  | None => None
  end.

End JSString.

(* ===================================================================== *)
(** ** Own properties of an object that is spread over another one *)
(* ===================================================================== *)

(** A key of an object literal: missing, or there with a value that may be
    [undefined].  [{...a, ...b}] takes the key from [b] when [b] has it. *)
Inductive prop (A : Type) : Type :=
  | Absent
  | Present (v : option A).
Arguments Absent {A}.
Arguments Present {A} v.

(** The value of key [k] in [{...old, ...patch}]. *)
Definition spread {A} (old : option A) (patch : prop A) : option A :=
  match patch with
  | Absent => old
  | Present v => v
  end.

(** [a ?? b] *)
Definition nullish {A} (a : option A) (b : A) : A :=
  match a with Some v => v | None => b end.

(* ===================================================================== *)
(** ** Dates: time values and the calendar *)
(* ===================================================================== *)

Module JSDate.

Definition msPerDay : Z := 1000 * 60 * 60 * 24.

(** [Day(t)]: the day number of a time value (days since 1970-01-01). *)
Definition Day (t : Z) : Z := t / msPerDay.

(** Year, month (1..12) and day of the month of a day number, in the
    proleptic Gregorian calendar. *)
Definition civilFromDays (days : Z) : Z * Z * Z :=
  let z := days + 719468 in
  let era := z / 146097 in
  let doe := z - era * 146097 in
  let yoe := (doe - doe / 1460 + doe / 36524 - doe / 146096) / 365 in
  let y := yoe + era * 400 in
  let doy := doe - (365 * yoe + yoe / 4 - yoe / 100) in
  let mp := (5 * doy + 2) / 153 in
  let d := doy - (153 * mp + 2) / 5 + 1 in
  let m := if mp <? 10 then mp + 3 else mp - 9 in
  (if m <=? 2 then y + 1 else y, m, d).

(** The day number of a calendar date. *)
Definition daysFromCivil (y m d : Z) : Z :=
  let y' := if m <=? 2 then y - 1 else y in
  let era := y' / 400 in
  let yoe := y' - era * 400 in
  let doy := (153 * (if 2 <? m then m - 3 else m + 9) + 2) / 5 + d - 1 in
  let doe := yoe * 365 + yoe / 4 - yoe / 100 + doy in
  era * 146097 + doe - 719468.

Definition YearFromTime (t : Z) : Z := fst (fst (civilFromDays (Day t))).
(** Months are numbered from 0, as [getMonth] does. *)
Definition MonthFromTime (t : Z) : Z := snd (fst (civilFromDays (Day t))) - 1.
Definition DateFromTime (t : Z) : Z := snd (civilFromDays (Day t)).

(** [Math.round (n / m)] for integers [n] and [m > 0]: the nearest integer,
    a half rounded up. *)
Definition roundDiv (n m : Z) : Z := (2 * n + m) / (2 * m).

End JSDate.

(** What the JavaScript engine and the browser provide. *)
Class JSRuntime : Type := {
  (** the time value of [new Date(s)], for a string that denotes a date
      (an Invalid Date has no time value and is not modelled) *)
  dateParse : string -> Z;
  (** [LocalTZA(t, isUTC)]: the offset of local time in milliseconds, at the
      UTC time value [t] ([true]) or at the local time value [t] ([false]) *)
  localTZA : Z -> bool -> Z;
  (** [Date.prototype.toISOString] *)
  toISOString : Z -> string;
  (** the successive readings of the system clock *)
  clock : nat -> Z;
  (** the successive random tokens of [createId] *)
  randomToken : nat -> string;
}.

Section DateMethods.
Context {rt : JSRuntime}.

Definition LocalTime (t : Z) : Z := t + localTZA t true.
Definition UTC (t : Z) : Z := t - localTZA t false.

Definition getFullYear (t : Z) : Z := JSDate.YearFromTime (LocalTime t).
Definition getMonth (t : Z) : Z := JSDate.MonthFromTime (LocalTime t).
Definition getDate (t : Z) : Z := JSDate.DateFromTime (LocalTime t).

(** [d.setHours(0, 0, 0, 0)]: local midnight of the local day of [t]. *)
Definition setHoursZero (t : Z) : Z :=
  UTC (JSDate.Day (LocalTime t) * JSDate.msPerDay).

(** The local day number of a time value. *)
Definition localDay (t : Z) : Z := JSDate.Day (LocalTime t).

End DateMethods.

(* ===================================================================== *)
(** ** The record types (components/types/clinic) *)
(* ===================================================================== *)

Inductive Gender : Type := male | female.

Inductive PaymentMethod : Type := cash | card | insurance | transfer.

Definition genderString (g : Gender) : string :=
  match g with male => "male" | female => "female" end.

Definition methodString (m : PaymentMethod) : string :=
  match m with
  | cash => "cash" | card => "card"
  | insurance => "insurance" | transfer => "transfer"
  end.

Module PatientContact.
Record t : Type := mk {
  phone : string;
  email : option string;
  address : option string;
  emergencyContactName : option string;
  emergencyContactPhone : option string;
}.
End PatientContact.

Module Patient.
Record t : Type := mk {
  id : string;
  firstName : string;
  lastName : string;
  gender : Gender;
  birthDate : string;
  age : Z;
  contact : PatientContact.t;
  chronicConditions : list string;
  allergies : list string;
  notes : option string;
  createdAt : string;
  updatedAt : string;
}.
End Patient.

Module VisitVitals.
Record t : Type := mk {
  bloodPressure : option string;
  heartRate : option string;
  temperature : option string;
  oxygenSaturation : option string;
}.
(** [{}] *)
Definition empty : t := mk None None None None.
End VisitVitals.

Module Visit.
Record t : Type := mk {
  id : string;
  patientId : string;
  visitDate : string;
  reason : string;
  complaints : list string;
  diagnoses : list string;
  notes : option string;
  treatmentPlan : option string;
  followUpDate : option string;
  vitals : VisitVitals.t;
  attendingPhysician : option string;
  createdAt : string;
  updatedAt : string;
}.
End Visit.

Module Payment.
Record t : Type := mk {
  id : string;
  patientId : string;
  visitId : option string;
  amountDue : Z;
  amountPaid : Z;
  method : PaymentMethod;
  invoiceNumber : option string;
  recordedAt : string;
  updatedAt : string;
  notes : option string;
}.
End Payment.

Module ClinicState.
Record t : Type := mk {
  patients : list Patient.t;
  visits : list Visit.t;
  payments : list Payment.t;
}.
End ClinicState.

(** [Omit<Patient, "id" | "createdAt" | "updatedAt" | "age">] *)
Module NewPatientInput.
Record t : Type := mk {
  firstName : string;
  lastName : string;
  gender : Gender;
  birthDate : string;
  contact : PatientContact.t;
  chronicConditions : list string;
  allergies : list string;
  notes : option string;
}.
End NewPatientInput.

(** A [PatientContact] object given in an update: it is spread over the
    existing contact, so its optional keys are kept as own properties. *)
Module ContactPatch.
Record t : Type := mk {
  phone : string;
  email : prop string;
  address : prop string;
  emergencyContactName : prop string;
  emergencyContactPhone : prop string;
}.
End ContactPatch.

(** [Partial<NewPatientInput>].  A required key is missing ([None]) or holds
    a value; the optional [notes] is an own property of the spread. *)
Module UpdatePatientInput.
Record t : Type := mk {
  firstName : option string;
  lastName : option string;
  gender : option Gender;
  birthDate : option string;
  contact : option ContactPatch.t;
  chronicConditions : option (list string);
  allergies : option (list string);
  notes : prop string;
}.
(** [{}] *)
Definition empty : t := mk None None None None None None None Absent.
End UpdatePatientInput.

(** [Omit<Visit, "id" | "createdAt" | "updatedAt">]; [vitals] may be
    missing at run time ([data.vitals ?? {}]). *)
Module NewVisitInput.
Record t : Type := mk {
  patientId : string;
  visitDate : string;
  reason : string;
  complaints : list string;
  diagnoses : list string;
  notes : option string;
  treatmentPlan : option string;
  followUpDate : option string;
  vitals : option VisitVitals.t;
  attendingPhysician : option string;
}.
End NewVisitInput.

Module VitalsPatch.
Record t : Type := mk {
  bloodPressure : prop string;
  heartRate : prop string;
  temperature : prop string;
  oxygenSaturation : prop string;
}.
End VitalsPatch.

(** [Partial<Omit<Visit, "id" | "patientId" | "createdAt" | "updatedAt">>] *)
Module UpdateVisitInput.
Record t : Type := mk {
  visitDate : option string;
  reason : option string;
  complaints : option (list string);
  diagnoses : option (list string);
  notes : prop string;
  treatmentPlan : prop string;
  followUpDate : prop string;
  vitals : option VitalsPatch.t;
  attendingPhysician : prop string;
}.
End UpdateVisitInput.

(** [Omit<Payment, "id" | "recordedAt" | "updatedAt">] *)
Module NewPaymentInput.
Record t : Type := mk {
  patientId : string;
  visitId : option string;
  amountDue : Z;
  amountPaid : Z;
  method : PaymentMethod;
  invoiceNumber : option string;
  notes : option string;
}.
End NewPaymentInput.

(** [Partial<Omit<Payment, "id" | "patientId" | "recordedAt">>] *)
Module UpdatePaymentInput.
Record t : Type := mk {
  visitId : prop string;
  amountDue : option Z;
  amountPaid : option Z;
  method : option PaymentMethod;
  invoiceNumber : option string;
  updatedAt : option string;
  notes : option string;
}.
End UpdatePaymentInput.

(* ===================================================================== *)
(** ** The persisted JSON layout *)
(* ===================================================================== *)

(** The local-storage entry is a JSON document.  [JSON.stringify] and
    [JSON.parse] are inverse on documents, so the entry is kept as the
    document itself. *)
Local Unset Elimination Schemes.
Inductive json : Type :=
  | JNull
  | JNum (n : Z)
  | JStr (s : string)
  | JArr (items : list json)
  | JObj (fields : list (string * json)).
Local Set Elimination Schemes.

Module JSON.

(** A key whose value is [undefined] is left out by [JSON.stringify]. *)
Definition optField (k : string) (o : option string) : list (string * json) :=
  match o with Some s => [(k, JStr s)] | None => [] end.

Definition strings (l : list string) : json := JArr (map JStr l).

Definition ofContact (c : PatientContact.t) : json :=
  JObj ([("phone", JStr (PatientContact.phone c))]
        ++ optField "email" (PatientContact.email c)
        ++ optField "address" (PatientContact.address c)
        ++ optField "emergencyContactName" (PatientContact.emergencyContactName c)
        ++ optField "emergencyContactPhone" (PatientContact.emergencyContactPhone c)).

Definition ofPatient (p : Patient.t) : json :=
  JObj ([("id", JStr (Patient.id p));
         ("firstName", JStr (Patient.firstName p));
         ("lastName", JStr (Patient.lastName p));
         ("gender", JStr (genderString (Patient.gender p)));
         ("birthDate", JStr (Patient.birthDate p));
         ("age", JNum (Patient.age p));
         ("contact", ofContact (Patient.contact p));
         ("chronicConditions", strings (Patient.chronicConditions p));
         ("allergies", strings (Patient.allergies p))]
        ++ optField "notes" (Patient.notes p)
        ++ [("createdAt", JStr (Patient.createdAt p));
            ("updatedAt", JStr (Patient.updatedAt p))]).

Definition ofVitals (v : VisitVitals.t) : json :=
  JObj (optField "bloodPressure" (VisitVitals.bloodPressure v)
        ++ optField "heartRate" (VisitVitals.heartRate v)
        ++ optField "temperature" (VisitVitals.temperature v)
        ++ optField "oxygenSaturation" (VisitVitals.oxygenSaturation v)).

Definition ofVisit (v : Visit.t) : json :=
  JObj ([("id", JStr (Visit.id v));
         ("patientId", JStr (Visit.patientId v));
         ("visitDate", JStr (Visit.visitDate v));
         ("reason", JStr (Visit.reason v));
         ("complaints", strings (Visit.complaints v));
         ("diagnoses", strings (Visit.diagnoses v))]
        ++ optField "notes" (Visit.notes v)
        ++ optField "treatmentPlan" (Visit.treatmentPlan v)
        ++ optField "followUpDate" (Visit.followUpDate v)
        ++ [("vitals", ofVitals (Visit.vitals v))]
        ++ optField "attendingPhysician" (Visit.attendingPhysician v)
        ++ [("createdAt", JStr (Visit.createdAt v));
            ("updatedAt", JStr (Visit.updatedAt v))]).

Definition ofPayment (p : Payment.t) : json :=
  JObj ([("id", JStr (Payment.id p));
         ("patientId", JStr (Payment.patientId p))]
        ++ optField "visitId" (Payment.visitId p)
        ++ [("amountDue", JNum (Payment.amountDue p));
            ("amountPaid", JNum (Payment.amountPaid p));
            ("method", JStr (methodString (Payment.method p)))]
        ++ optField "invoiceNumber" (Payment.invoiceNumber p)
        ++ [("recordedAt", JStr (Payment.recordedAt p));
            ("updatedAt", JStr (Payment.updatedAt p))]
        ++ optField "notes" (Payment.notes p)).

(** [JSON.stringify(state)]: exactly three top-level arrays. *)
Definition stringify (s : ClinicState.t) : json :=
  JObj [("patients", JArr (map ofPatient (ClinicState.patients s)));
        ("visits", JArr (map ofVisit (ClinicState.visits s)));
        ("payments", JArr (map ofPayment (ClinicState.payments s)))].

(** Reading a parsed document as the record types ([as ClinicState]).
    [None] stands for a document that does not have the shape of the
    types. *)
Fixpoint get (k : string) (fields : list (string * json)) : option json :=
  match fields with
  | [] => None
  | (k', v) :: rest => if String.eqb k k' then Some v else get k rest
  end.

Definition field (k : string) (j : json) : option json :=
  match j with JObj fs => get k fs | _ => None end.

Definition asString (j : json) : option string :=
  match j with JStr s => Some s | _ => None end.

Definition asNumber (j : json) : option Z :=
  match j with JNum n => Some n | _ => None end.

Definition asArray (j : json) : option (list json) :=
  match j with JArr l => Some l | _ => None end.

Fixpoint traverse {A B} (f : A -> option B) (l : list A) : option (list B) :=
  match l with
  | [] => Some []
  | x :: r =>
      match f x, traverse f r with
      | Some y, Some ys => Some (y :: ys)
      | _, _ => None
      end
  end.

Definition str (k : string) (j : json) : option string :=
  field k j ≫= asString.

Definition num (k : string) (j : json) : option Z :=
  field k j ≫= asNumber.

(** An optional string: a missing key reads as [undefined]. *)
Definition optStr (k : string) (j : json) : option (option string) :=
  match field k j with
  | None => Some None
  | Some (JStr s) => Some (Some s)
  | Some _ => None
  end.

Definition strs (k : string) (j : json) : option (list string) :=
  a ← field k j; l ← asArray a; traverse asString l.

Definition toGender (s : string) : option Gender :=
  if String.eqb s "male" then Some male
  else if String.eqb s "female" then Some female
  else None.

Definition toMethod (s : string) : option PaymentMethod :=
  if String.eqb s "cash" then Some cash
  else if String.eqb s "card" then Some card
  else if String.eqb s "insurance" then Some insurance
  else if String.eqb s "transfer" then Some transfer
  else None.

Definition toContact (j : json) : option PatientContact.t :=
  phone ← str "phone" j;
  email ← optStr "email" j;
  address ← optStr "address" j;
  ecn ← optStr "emergencyContactName" j;
  ecp ← optStr "emergencyContactPhone" j;
  Some (PatientContact.mk phone email address ecn ecp).

Definition toPatient (j : json) : option Patient.t :=
  id ← str "id" j;
  firstName ← str "firstName" j;
  lastName ← str "lastName" j;
  g ← str "gender" j; gender ← toGender g;
  birthDate ← str "birthDate" j;
  age ← num "age" j;
  c ← field "contact" j; contact ← toContact c;
  chronicConditions ← strs "chronicConditions" j;
  allergies ← strs "allergies" j;
  notes ← optStr "notes" j;
  createdAt ← str "createdAt" j;
  updatedAt ← str "updatedAt" j;
  Some (Patient.mk id firstName lastName gender birthDate age contact
          chronicConditions allergies notes createdAt updatedAt).

Definition toVitals (j : json) : option VisitVitals.t :=
  bp ← optStr "bloodPressure" j;
  hr ← optStr "heartRate" j;
  temp ← optStr "temperature" j;
  ox ← optStr "oxygenSaturation" j;
  Some (VisitVitals.mk bp hr temp ox).

Definition toVisit (j : json) : option Visit.t :=
  id ← str "id" j;
  patientId ← str "patientId" j;
  visitDate ← str "visitDate" j;
  reason ← str "reason" j;
  complaints ← strs "complaints" j;
  diagnoses ← strs "diagnoses" j;
  notes ← optStr "notes" j;
  treatmentPlan ← optStr "treatmentPlan" j;
  followUpDate ← optStr "followUpDate" j;
  vs ← field "vitals" j; vitals ← toVitals vs;
  attendingPhysician ← optStr "attendingPhysician" j;
  createdAt ← str "createdAt" j;
  updatedAt ← str "updatedAt" j;
  Some (Visit.mk id patientId visitDate reason complaints diagnoses notes
          treatmentPlan followUpDate vitals attendingPhysician createdAt
          updatedAt).

Definition toPayment (j : json) : option Payment.t :=
  id ← str "id" j;
  patientId ← str "patientId" j;
  visitId ← optStr "visitId" j;
  amountDue ← num "amountDue" j;
  amountPaid ← num "amountPaid" j;
  m ← str "method" j; method ← toMethod m;
  invoiceNumber ← optStr "invoiceNumber" j;
  recordedAt ← str "recordedAt" j;
  updatedAt ← str "updatedAt" j;
  notes ← optStr "notes" j;
  Some (Payment.mk id patientId visitId amountDue amountPaid method
          invoiceNumber recordedAt updatedAt notes).

(** [JSON.parse(stored) as ClinicState] *)
Definition parse (j : json) : option ClinicState.t :=
  ps ← field "patients" j; pl ← asArray ps; patients ← traverse toPatient pl;
  vs ← field "visits" j; vl ← asArray vs; visits ← traverse toVisit vl;
  ys ← field "payments" j; yl ← asArray ys; payments ← traverse toPayment yl;
  Some (ClinicState.mk patients visits payments).

End JSON.

(* ===================================================================== *)
(** ** The world the store runs in *)
(* ===================================================================== *)

(** The reducer state held by [ClinicProvider], the local-storage entry
    under [STORAGE_KEY] and how much of the clock and of the random source
    has been consumed. *)
Record World : Type := mkWorld {
  state : ClinicState.t;
  storage : option json;
  clockReads : nat;
  tokensDrawn : nat;
}.

Definition Eff (A : Type) : Type := World -> A * World.

Definition ret {A} (a : A) : Eff A := fun w => (a, w).

Definition bind {A B} (m : Eff A) (k : A -> Eff B) : Eff B :=
  fun w => let (a, w') := m w in k a w'.

Notation "x <- m ;; k" := (bind m (fun x => k))
  (at level 100, m at next level, right associativity).

Fixpoint mapM {A B} (f : A -> Eff B) (l : list A) : Eff (list B) :=
  match l with
  | [] => ret []
  | x :: r => y <- f x ;; ys <- mapM f r ;; ret (y :: ys)
  end.

(** [array.filter] with a callback that has effects. *)
Fixpoint filterM {A} (f : A -> Eff bool) (l : list A) : Eff (list A) :=
  match l with
  | [] => ret []
  | x :: r => b <- f x ;; ys <- filterM f r ;; ret (if b then x :: ys else ys)
  end.

Definition getState : Eff ClinicState.t := fun w => (state w, w).

Section Store.
Context {rt : JSRuntime}.

(** [new Date()]: the next reading of the clock. *)
Definition newDate : Eff Z := fun w =>
  (clock (clockReads w),
   mkWorld (state w) (storage w) (S (clockReads w)) (tokensDrawn w)).

(** [new Date().toISOString()] *)
Definition nowIso : Eff string := t <- newDate ;; ret (toISOString t).

Definition STORAGE_KEY : string := "clinic-state-v1".

Definition calculateAge (birthDate : string) : Eff Z :=
  today <- newDate ;;
  let birth := dateParse birthDate in
  let age := getFullYear today - getFullYear birth in
  let monthDiff := getMonth today - getMonth birth in
  ret (if (monthDiff <? 0)
          || ((monthDiff =? 0) && (getDate today <? getDate birth))
       then age - 1 else age).

(** [field?.trim() ? field : undefined] *)
Definition keepIfNotBlank (o : option string) : option string :=
  match o with
  | Some s => if JSString.truthy (JSString.trim s) then Some s else None
  | None => None
  end.

Definition sanitizeContact (contact : PatientContact.t) : PatientContact.t :=
  PatientContact.mk
    (PatientContact.phone contact)
    (keepIfNotBlank (PatientContact.email contact))
    (keepIfNotBlank (PatientContact.address contact))
    (keepIfNotBlank (PatientContact.emergencyContactName contact))
    (keepIfNotBlank (PatientContact.emergencyContactPhone contact)).

(** [`${prefix}-${token}`], the token drawn from [crypto.randomUUID] or
    from [Math.random]. *)
Definition createId (prefix : string) : Eff string := fun w =>
  ((prefix ++ "-" ++ randomToken (tokensDrawn w))%string,
   mkWorld (state w) (storage w) (clockReads w) (S (tokensDrawn w))).

Inductive ClinicAction : Type :=
  | ADD_PATIENT (payload : Patient.t)
  | UPDATE_PATIENT (payload : Patient.t)
  | ADD_VISIT (payload : Visit.t)
  | UPDATE_VISIT (payload : Visit.t)
  | ADD_PAYMENT (payload : Payment.t)
  | UPDATE_PAYMENT (payload : Payment.t).

Definition clinicReducer (st : ClinicState.t) (action : ClinicAction)
  : ClinicState.t :=
  match action with
  | ADD_PATIENT payload =>
      ClinicState.mk (ClinicState.patients st ++ [payload])
        (ClinicState.visits st) (ClinicState.payments st)
  | UPDATE_PATIENT payload =>
      ClinicState.mk
        (map (fun patient =>
                if String.eqb (Patient.id patient) (Patient.id payload)
                then payload else patient)
           (ClinicState.patients st))
        (ClinicState.visits st) (ClinicState.payments st)
  | ADD_VISIT payload =>
      ClinicState.mk (ClinicState.patients st)
        (ClinicState.visits st ++ [payload]) (ClinicState.payments st)
  | UPDATE_VISIT payload =>
      ClinicState.mk (ClinicState.patients st)
        (map (fun visit =>
                if String.eqb (Visit.id visit) (Visit.id payload)
                then payload else visit)
           (ClinicState.visits st))
        (ClinicState.payments st)
  | ADD_PAYMENT payload =>
      ClinicState.mk (ClinicState.patients st) (ClinicState.visits st)
        (ClinicState.payments st ++ [payload])
  | UPDATE_PAYMENT payload =>
      ClinicState.mk (ClinicState.patients st) (ClinicState.visits st)
        (map (fun payment =>
                if String.eqb (Payment.id payment) (Payment.id payload)
                then payload else payment)
           (ClinicState.payments st))
  end.

(** [dispatch(action)], followed by the effect that mirrors the new state
    to local storage: [localStorage.setItem(STORAGE_KEY,
    JSON.stringify(state))]. *)
Definition dispatch (action : ClinicAction) : Eff unit := fun w =>
  let st := clinicReducer (state w) action in
  (tt, mkWorld st (Some (JSON.stringify st)) (clockReads w) (tokensDrawn w)).

(** The seed data, built when the module of the constants is loaded. *)
Definition patientsSeed : Eff (list Patient.t) :=
  age1 <- calculateAge "1988-02-14" ;;
  c1 <- nowIso ;; u1 <- nowIso ;;
  age2 <- calculateAge "1975-07-03" ;;
  c2 <- nowIso ;; u2 <- nowIso ;;
  age3 <- calculateAge "1994-11-22" ;;
  c3 <- nowIso ;; u3 <- nowIso ;;
  ret [ Patient.mk "pat-amani-youssef" "Amani" "Youssef" female "1988-02-14"
          age1
          (PatientContact.mk "0771234567" (Some "amani.youssef@example.com")
             (Some "Khalda, Amman") (Some "Karim Youssef") (Some "0771234567"))
          ["Hypertension"; "Asthma"] ["Penicillin"]
          (Some "Prefers evening appointments and follows DASH diet.") c1 u1;
        Patient.mk "pat-omar-salem" "Omar" "Salem" male "1975-07-03"
          age2
          (PatientContact.mk "0798765432" (Some "omar.salem@example.com")
             (Some "8th circle, Amman") (Some "Mona Salem") (Some "0798765432"))
          ["Diabetes"; "Heart Disease"] ["Sulfa Drugs"]
          (Some "Uses insulin pump and monitors glucose twice daily.") c2 u2;
        Patient.mk "pat-laila-hassan" "Laila" "Hassan" female "1994-11-22"
          age3
          (PatientContact.mk "0798765432" (Some "laila.hassan@example.com")
             (Some "Marj al hmam, Amman") (Some "Hassan Abdelrahman")
             (Some "0798765432"))
          ["Thyroid Disorders"] []
          (Some "On thyroid hormone replacement therapy.") c3 u3 ].

Definition visitsSeed : Eff (list Visit.t) :=
  c1 <- nowIso ;; u1 <- nowIso ;;
  c2 <- nowIso ;; u2 <- nowIso ;;
  c3 <- nowIso ;; u3 <- nowIso ;;
  ret [ Visit.mk "visit-amani-1" "pat-amani-youssef" "2025-10-12"
          "Routine follow-up" ["Headache"; "Shortness of Breath"]
          ["Hypertension"]
          (Some "Blood pressure elevated, adjust medication.")
          (Some "Increase beta blocker dosage and schedule pulmonary function test.")
          (Some "2025-11-10")
          (VisitVitals.mk (Some "150/95") (Some "92 bpm") None (Some "96%"))
          (Some "Dr. Nour El Din") c1 u1;
        Visit.mk "visit-omar-1" "pat-omar-salem" "2025-09-28"
          "Post surgery review" ["General Fatigue"] ["Heart Failure"]
          (Some "Recovery progressing, monitor cardiac rehab adherence.")
          (Some "Continue medication, start light exercise with supervision.")
          (Some "2025-12-01")
          (VisitVitals.mk (Some "130/85") (Some "78 bpm") None None)
          (Some "Dr. Karim Awad") c2 u2;
        Visit.mk "visit-laila-1" "pat-laila-hassan" "2025-11-05"
          "New symptoms" ["Dizziness"; "Fatigue"] ["Thyroid Disorders"]
          (Some "Adjust hormone replacement dosage.")
          (Some "Update lab tests in 6 weeks and adjust medication.")
          (Some "2025-12-20")
          (VisitVitals.mk (Some "118/76") (Some "72 bpm") None None)
          (Some "Dr. Hala Ibrahim") c3 u3 ].

Definition paymentsSeed : list Payment.t :=
  [ Payment.mk "pay-amani-1" "pat-amani-youssef" (Some "visit-amani-1")
      1200 800 card (Some "INV-2025-1001")
      "2025-10-12T14:10:00.000Z" "2025-10-30T09:00:00.000Z"
      (Some "Insurance pending for remaining balance.");
    Payment.mk "pay-omar-1" "pat-omar-salem" (Some "visit-omar-1")
      3500 3500 insurance (Some "INV-2025-1022")
      "2025-09-28T11:20:00.000Z" "2025-09-28T11:20:00.000Z"
      (Some "Covered under premium plan.");
    Payment.mk "pay-laila-1" "pat-laila-hassan" (Some "visit-laila-1")
      650 400 cash (Some "INV-2025-1102")
      "2025-11-05T16:45:00.000Z" "2025-11-05T16:45:00.000Z"
      (Some "Patient will settle the rest next visit.") ].

Definition INITIAL_CLINIC_STATE : Eff ClinicState.t :=
  ps <- patientsSeed ;;
  vs <- visitsSeed ;;
  ret (ClinicState.mk ps vs paymentsSeed).

(** What [loadInitialState] ends with.  [JSON.parse(stored) as ClinicState]
    is a cast without a check: of an entry that is not the document of a
    clinic state the source keeps whatever the mapping over
    [parsed.patients] makes of it, and takes the seed state only if that
    throws.  Neither the value kept there nor whether the load throws is a
    matter of the record types; such an entry is reported as
    [NotAClinicState] and followed no further. *)
Inductive LoadResult : Type :=
  | Loaded (st : ClinicState.t) (w : World)
  | NotAClinicState (parsed : json).

(** [loadInitialState], given the seed state.  No entry under the key
    ([!stored], or no [window]) gives the seed state; the document of a
    clinic state gives that state with the age of every patient computed
    anew and every contact block sanitized. *)
Definition loadInitialState (seed : ClinicState.t) (w : World) : LoadResult :=
  match storage w with
  | None => Loaded seed w
  | Some stored =>
      match JSON.parse stored with
      | None => NotAClinicState stored
      | Some parsed =>
          let (st, w') :=
            (ps <- mapM (fun patient =>
                     age <- calculateAge (Patient.birthDate patient) ;;
                     ret (Patient.mk
                            (Patient.id patient)
                            (Patient.firstName patient)
                            (Patient.lastName patient)
                            (Patient.gender patient)
                            (Patient.birthDate patient)
                            age
                            (sanitizeContact (Patient.contact patient))
                            (Patient.chronicConditions patient)
                            (Patient.allergies patient)
                            (Patient.notes patient)
                            (Patient.createdAt patient)
                            (Patient.updatedAt patient)))
                   (ClinicState.patients parsed) ;;
             ret (ClinicState.mk ps (ClinicState.visits parsed)
                    (ClinicState.payments parsed))) w in
          Loaded st w'
      end
  end.

(** Mounting [ClinicProvider]: the reducer starts from [loadInitialState]
    and the first run of the effect writes the state back to storage.  There
    is no world to go on from ([None]) when the load ends outside the record
    types. *)
Definition ClinicProvider (seed : ClinicState.t) (w : World) : option World :=
  match loadInitialState seed w with
  | Loaded st w' =>
      Some (mkWorld st (Some (JSON.stringify st)) (clockReads w')
              (tokensDrawn w'))
  | NotAClinicState _ => None
  end.

End Store.

(* ===================================================================== *)
(** ** The operations of the store (ClinicProvider) *)
(* ===================================================================== *)

Section Operations.
Context {rt : JSRuntime}.

Definition addPatient (data : NewPatientInput.t) : Eff Patient.t :=
  timestamp <- nowIso ;;
  id <- createId "pat" ;;
  age <- calculateAge (NewPatientInput.birthDate data) ;;
  let patient :=
    Patient.mk id
      (NewPatientInput.firstName data)
      (NewPatientInput.lastName data)
      (NewPatientInput.gender data)
      (NewPatientInput.birthDate data)
      age
      (sanitizeContact (NewPatientInput.contact data))
      (NewPatientInput.chronicConditions data)
      (NewPatientInput.allergies data)
      (NewPatientInput.notes data)
      timestamp
      timestamp in
  _ <- dispatch (ADD_PATIENT patient) ;;
  ret patient.

(** [{ ...existing.contact, ...data.contact }] *)
Definition mergeContact (existing : PatientContact.t) (patch : ContactPatch.t)
  : PatientContact.t :=
  PatientContact.mk
    (ContactPatch.phone patch)
    (spread (PatientContact.email existing) (ContactPatch.email patch))
    (spread (PatientContact.address existing) (ContactPatch.address patch))
    (spread (PatientContact.emergencyContactName existing)
       (ContactPatch.emergencyContactName patch))
    (spread (PatientContact.emergencyContactPhone existing)
       (ContactPatch.emergencyContactPhone patch)).

Definition updatePatient (id : string) (data : UpdatePatientInput.t)
  : Eff (option Patient.t) :=
  st <- getState ;;
  match List.find (fun patient => String.eqb (Patient.id patient) id)
          (ClinicState.patients st) with
  | None => ret None
  | Some existing =>
      timestamp <- nowIso ;;
      let mergedContact :=
        match UpdatePatientInput.contact data with
        | Some c => sanitizeContact (mergeContact (Patient.contact existing) c)
        | None => Patient.contact existing
        end in
      age <- match UpdatePatientInput.birthDate data with
             | Some b =>
                 if JSString.truthy b then calculateAge b
                 else ret (Patient.age existing)
             | None => ret (Patient.age existing)
             end ;;
      let updatedPatient :=
        Patient.mk
          (Patient.id existing)
          (nullish (UpdatePatientInput.firstName data)
             (Patient.firstName existing))
          (nullish (UpdatePatientInput.lastName data)
             (Patient.lastName existing))
          (nullish (UpdatePatientInput.gender data) (Patient.gender existing))
          (nullish (UpdatePatientInput.birthDate data)
             (Patient.birthDate existing))
          age
          mergedContact
          (match UpdatePatientInput.chronicConditions data with
           | Some l => l
           | None => Patient.chronicConditions existing
           end)
          (match UpdatePatientInput.allergies data with
           | Some l => l
           | None => Patient.allergies existing
           end)
          (spread (Patient.notes existing) (UpdatePatientInput.notes data))
          (Patient.createdAt existing)
          timestamp in
      _ <- dispatch (UPDATE_PATIENT updatedPatient) ;;
      ret (Some updatedPatient)
  end.

Definition addVisit (data : NewVisitInput.t) : Eff Visit.t :=
  timestamp <- nowIso ;;
  id <- createId "visit" ;;
  let visit :=
    Visit.mk id
      (NewVisitInput.patientId data)
      (NewVisitInput.visitDate data)
      (NewVisitInput.reason data)
      (NewVisitInput.complaints data)
      (NewVisitInput.diagnoses data)
      (NewVisitInput.notes data)
      (NewVisitInput.treatmentPlan data)
      (NewVisitInput.followUpDate data)
      (nullish (NewVisitInput.vitals data) VisitVitals.empty)
      (NewVisitInput.attendingPhysician data)
      timestamp
      timestamp in
  _ <- dispatch (ADD_VISIT visit) ;;
  ret visit.

(** [{ ...existing.vitals, ...data.vitals }] *)
Definition mergeVitals (existing : VisitVitals.t) (patch : VitalsPatch.t)
  : VisitVitals.t :=
  VisitVitals.mk
    (spread (VisitVitals.bloodPressure existing)
       (VitalsPatch.bloodPressure patch))
    (spread (VisitVitals.heartRate existing) (VitalsPatch.heartRate patch))
    (spread (VisitVitals.temperature existing)
       (VitalsPatch.temperature patch))
    (spread (VisitVitals.oxygenSaturation existing)
       (VitalsPatch.oxygenSaturation patch)).

Definition updateVisit (id : string) (data : UpdateVisitInput.t)
  : Eff (option Visit.t) :=
  st <- getState ;;
  match List.find (fun visit => String.eqb (Visit.id visit) id)
          (ClinicState.visits st) with
  | None => ret None
  | Some existing =>
      timestamp <- nowIso ;;
      let updatedVisit :=
        Visit.mk
          (Visit.id existing)
          (Visit.patientId existing)
          (nullish (UpdateVisitInput.visitDate data)
             (Visit.visitDate existing))
          (nullish (UpdateVisitInput.reason data) (Visit.reason existing))
          (match UpdateVisitInput.complaints data with
           | Some l => l
           | None => Visit.complaints existing
           end)
          (match UpdateVisitInput.diagnoses data with
           | Some l => l
           | None => Visit.diagnoses existing
           end)
          (spread (Visit.notes existing) (UpdateVisitInput.notes data))
          (spread (Visit.treatmentPlan existing)
             (UpdateVisitInput.treatmentPlan data))
          (spread (Visit.followUpDate existing)
             (UpdateVisitInput.followUpDate data))
          (match UpdateVisitInput.vitals data with
           | Some v => mergeVitals (Visit.vitals existing) v
           | None => Visit.vitals existing
           end)
          (spread (Visit.attendingPhysician existing)
             (UpdateVisitInput.attendingPhysician data))
          (Visit.createdAt existing)
          timestamp in
      _ <- dispatch (UPDATE_VISIT updatedVisit) ;;
      ret (Some updatedVisit)
  end.

Definition addPayment (data : NewPaymentInput.t) : Eff Payment.t :=
  timestamp <- nowIso ;;
  id <- createId "pay" ;;
  let payment :=
    Payment.mk id
      (NewPaymentInput.patientId data)
      (NewPaymentInput.visitId data)
      (NewPaymentInput.amountDue data)
      (NewPaymentInput.amountPaid data)
      (NewPaymentInput.method data)
      (NewPaymentInput.invoiceNumber data)
      timestamp
      timestamp
      (NewPaymentInput.notes data) in
  _ <- dispatch (ADD_PAYMENT payment) ;;
  ret payment.

Definition updatePayment (id : string) (data : UpdatePaymentInput.t)
  : Eff (option Payment.t) :=
  st <- getState ;;
  match List.find (fun payment => String.eqb (Payment.id payment) id)
          (ClinicState.payments st) with
  | None => ret None
  | Some existing =>
      timestamp <- nowIso ;;
      let updatedPayment :=
        Payment.mk
          (Payment.id existing)
          (Payment.patientId existing)
          (spread (Payment.visitId existing) (UpdatePaymentInput.visitId data))
          (nullish (UpdatePaymentInput.amountDue data)
             (Payment.amountDue existing))
          (nullish (UpdatePaymentInput.amountPaid data)
             (Payment.amountPaid existing))
          (nullish (UpdatePaymentInput.method data) (Payment.method existing))
          (match UpdatePaymentInput.invoiceNumber data with
           | Some s => Some s
           | None => Payment.invoiceNumber existing
           end)
          (Payment.recordedAt existing)
          timestamp
          (match UpdatePaymentInput.notes data with
           | Some s => Some s
           | None => Payment.notes existing
           end) in
      _ <- dispatch (UPDATE_PAYMENT updatedPayment) ;;
      ret (Some updatedPayment)
  end.

End Operations.

(* ===================================================================== *)
(** ** Derived views of the pages *)
(* ===================================================================== *)

(** [array.includes(x)] on strings. *)
Definition includes (l : list string) (x : string) : bool :=
  existsb (String.eqb x) l.

(** [array.length] as a condition. *)
Definition nonEmpty {A} (l : list A) : bool :=
  match l with [] => false | _ :: _ => true end.

(** [Array.prototype.sort] with a comparator: a stable sort, here by
    insertion.  [compareFn a b <= 0] keeps [a] before [b]. *)
Fixpoint insertSorted {A} (compareFn : A -> A -> Z) (x : A) (l : list A)
  : list A :=
  match l with
  | [] => [x]
  | y :: r =>
      if compareFn x y <=? 0 then x :: y :: r
      else y :: insertSorted compareFn x r
  end.

Definition sortBy {A} (compareFn : A -> A -> Z) (l : list A) : list A :=
  fold_right (insertSorted compareFn) [] l.

Inductive PaymentStatus : Type := paid | partial | pending.

Definition statusString (s : PaymentStatus) : string :=
  match s with paid => "paid" | partial => "partial" | pending => "pending" end.

(** The payments page. *)
Module PaymentsPage.
Section Page.
Context {rt : JSRuntime}.

Definition getPaymentStatus (payment : Payment.t) : PaymentStatus :=
  let balance := Payment.amountDue payment - Payment.amountPaid payment in
  if balance <=? 0 then paid
  else if Payment.amountPaid payment =? 0 then pending
  else partial.

Record Row : Type := mkRow {
  payment : Payment.t;
  patient : option Patient.t;
  visit : option Visit.t;
  balance : Z;
  status : PaymentStatus;
}.

Definition toRow (patients : list Patient.t) (visits : list Visit.t)
  (p : Payment.t) : Row :=
  mkRow p
    (List.find (fun entry => String.eqb (Patient.id entry) (Payment.patientId p))
       patients)
    (match Payment.visitId p with
     | Some vid => List.find (fun entry => String.eqb (Visit.id entry) vid) visits
     | None => None
     end)
    (Z.max (Payment.amountDue p - Payment.amountPaid p) 0)
    (getPaymentStatus p).

Definition paymentRows (patients : list Patient.t) (visits : list Visit.t)
  (payments : list Payment.t) : list Row :=
  sortBy (fun a b =>
            dateParse (Payment.recordedAt (payment b))
            - dateParse (Payment.recordedAt (payment a)))
    (map (toRow patients visits) payments).

Definition matchesSearch (normalized : string) (row : Row) : bool :=
  if JSString.truthy normalized then
    existsb
      (fun value => JSString.includes (JSString.toLowerCase value) normalized)
      (List.filter JSString.truthy
         [ nullish (Payment.invoiceNumber (payment row)) "";
           methodString (Payment.method (payment row));
           nullish (Payment.notes (payment row)) "";
           match patient row with
           | Some p => (Patient.firstName p ++ " " ++ Patient.lastName p)%string
           | None => ""
           end ])
  else true.

Definition filteredPayments (paymentRows : list Row)
  (searchTerm methodFilter statusFilter startDate endDate : string)
  : list Row :=
  List.filter
    (fun row =>
       let normalized := JSString.toLowerCase (JSString.trim searchTerm) in
       let matchesSearch := matchesSearch normalized row in
       let matchesMethod :=
         if JSString.truthy methodFilter
         then String.eqb (methodString (Payment.method (payment row)))
                methodFilter
         else true in
       let matchesStatus :=
         if JSString.truthy statusFilter
         then String.eqb (statusString (status row)) statusFilter
         else true in
       let paymentDate :=
         setHoursZero (dateParse (Payment.recordedAt (payment row))) in
       let isAfterStart :=
         if JSString.truthy startDate
         then paymentDate >=? setHoursZero (dateParse startDate)
         else true in
       let isBeforeEnd :=
         if JSString.truthy endDate
         then paymentDate <=? setHoursZero (dateParse endDate)
         else true in
       matchesSearch && matchesMethod && matchesStatus && isAfterStart
       && isBeforeEnd)
    paymentRows.



(** The values of the payment form. *)
Record PaymentFormValues : Type := mkForm {
  f_patientId : string;
  f_visitId : option string;
  f_amountDue : Z;
  f_amountPaid : Z;
  f_method : PaymentMethod;
  f_invoiceNumber : option string;
  f_notes : option string;
}.

(** [openDialogForEdit]: the id under edit and the values the form is reset
    to. *)
Definition openDialogForEdit (entry : Payment.t)
  : option string * PaymentFormValues :=
  (Some (Payment.id entry),
   mkForm (Payment.patientId entry)
     (Some (nullish (Payment.visitId entry) ""))
     (Payment.amountDue entry) (Payment.amountPaid entry)
     (Payment.method entry)
     (Some (nullish (Payment.invoiceNumber entry) ""))
     (Some (nullish (Payment.notes entry) ""))).

(** [handleSubmit], called with the values that passed the validation of
    the form; the result is the message of the toast. *)
Definition handleSubmit (editingPaymentId : option string)
  (values : PaymentFormValues) : Eff string :=
  if JSString.truthyOpt editingPaymentId then
    _ <- updatePayment (nullish editingPaymentId "")
           (UpdatePaymentInput.mk
              (Present (keepIfNotBlank (f_visitId values)))
              (Some (f_amountDue values))
              (Some (f_amountPaid values))
              (Some (f_method values))
              (JSString.trimmedOrUndefined (f_invoiceNumber values))
              None
              (JSString.trimmedOrUndefined (f_notes values))) ;;
    ret "Payment updated successfully."
  else
    _ <- addPayment
           (NewPaymentInput.mk (f_patientId values)
              (keepIfNotBlank (f_visitId values))
              (f_amountDue values) (f_amountPaid values) (f_method values)
              (JSString.trimmedOrUndefined (f_invoiceNumber values))
              (JSString.trimmedOrUndefined (f_notes values))) ;;
    ret "Payment recorded successfully.".

End Page.
End PaymentsPage.

(** The analytics page. *)
Module AnalyticsPage.

Definition getPaymentStatus (amountDue amountPaid : Z) : PaymentStatus :=
  let balance := amountDue - amountPaid in
  if balance <=? 0 then paid
  else if amountPaid =? 0 then pending
  else partial.

(** The callback of [visits.forEach]: [if (!grouped.has(id))
    grouped.set(id, [])], then [grouped.get(id)!.push(visit)]. *)
Definition groupVisit (grouped : gmap string (list Visit.t))
  (visit : Visit.t) : gmap string (list Visit.t) :=
  let pid := Visit.patientId visit in
  let grouped1 :=
    match grouped !! pid with
    | Some _ => grouped
    | None => <[pid := []]> grouped
    end in
  match grouped1 !! pid with
  | Some l => <[pid := (l ++ [visit])%list]> grouped1
  | None => grouped1
  end.

(** The [Map] from a patient id to the visits of that patient, filled by
    one pass over the visits. *)
Definition visitsGroupedByPatient (visits : list Visit.t)
  : gmap string (list Visit.t) :=
  fold_left groupVisit visits ∅.

Definition keepPatient (grouped : gmap string (list Visit.t))
  (selectedGenders : list string) (safeMin safeMax : Z)
  (selectedChronicConditions selectedDiseases : list string)
  (patient : Patient.t) : bool :=
  if nonEmpty selectedGenders
     && negb (includes selectedGenders (genderString (Patient.gender patient)))
  then false
  else if (Patient.age patient <? safeMin) || (Patient.age patient >? safeMax)
  then false
  else if nonEmpty selectedChronicConditions
          && negb (forallb
                     (fun condition =>
                        includes (Patient.chronicConditions patient) condition)
                     selectedChronicConditions)
  then false
  else if nonEmpty selectedDiseases then
    let patientVisits := default [] (grouped !! Patient.id patient) in
    let hasDiseaseMatch :=
      existsb (fun visit =>
                 existsb (fun diagnosis => includes selectedDiseases diagnosis)
                   (Visit.diagnoses visit))
        patientVisits in
    if negb hasDiseaseMatch then false else true
  else true.

Definition filteredPatients (patients : list Patient.t)
  (visits : list Visit.t) (selectedGenders : list string) (ageMin ageMax : Z)
  (selectedChronicConditions selectedDiseases : list string)
  : list Patient.t :=
  let safeMin := Z.max 0 ageMin in
  let safeMax := Z.max safeMin ageMax in
  List.filter
    (keepPatient (visitsGroupedByPatient visits) selectedGenders safeMin
       safeMax selectedChronicConditions selectedDiseases)
    patients.

(** [new Set(filteredPatients.map((patient) => patient.id))] *)
Definition filteredPatientIds (filteredPatients : list Patient.t)
  : gset string :=
  list_to_set (map Patient.id filteredPatients).


Definition filteredPayments (payments : list Payment.t)
  (filteredPatientIds : gset string) : list Payment.t :=
  List.filter
    (fun payment => bool_decide (Payment.patientId payment ∈ filteredPatientIds))
    payments.

Definition outstandingBalance (filteredPayments : list Payment.t) : Z :=
  fold_left
    (fun acc payment =>
       acc + Z.max (Payment.amountDue payment - Payment.amountPaid payment) 0)
    filteredPayments 0.


(** [Math.round(sum / length)] of the ages, 0 for no patient. *)
Definition averageAge (filteredPatients : list Patient.t) : Z :=
  if nonEmpty filteredPatients then
    JSDate.roundDiv
      (fold_left (fun acc patient => acc + Patient.age patient)
         filteredPatients 0)
      (Z.of_nat (length filteredPatients))
  else 0.

Record AgeBounds : Type := mkBounds {
  min : Z;
  max : Z;
}.

Definition ageBounds (filteredPatients : list Patient.t) : AgeBounds :=
  let first :=
    match filteredPatients with
    | p :: _ => Patient.age p
    | [] => 0
    end in
  fold_left
    (fun acc patient =>
       mkBounds (Z.min (min acc) (Patient.age patient))
         (Z.max (max acc) (Patient.age patient)))
    filteredPatients (mkBounds first first).

Definition minAge (filteredPatients : list Patient.t) : Z :=
  if nonEmpty filteredPatients then min (ageBounds filteredPatients) else 0.

Definition maxAge (filteredPatients : list Patient.t) : Z :=
  if nonEmpty filteredPatients then max (ageBounds filteredPatients) else 0.

(** The counts by gender, an object keyed by the gender. *)
Definition genderDistribution (filteredPatients : list Patient.t)
  : gmap string Z :=
  fold_left
    (fun (acc : gmap string Z) patient =>
       let g := genderString (Patient.gender patient) in
       <[g := default 0 (acc !! g) + 1]> acc)
    filteredPatients ∅.

(** The counts by status, an object that starts as
    [{ paid: 0, partial: 0, pending: 0 }]. *)
Record StatusCounts : Type := mkCounts {
  paidCount : Z;
  partialCount : Z;
  pendingCount : Z;
}.

Definition paymentStatusCounts (filteredPayments : list Payment.t)
  : StatusCounts :=
  fold_left
    (fun acc payment =>
       match getPaymentStatus (Payment.amountDue payment)
               (Payment.amountPaid payment) with
       | paid =>
           mkCounts (paidCount acc + 1) (partialCount acc) (pendingCount acc)
       | partial =>
           mkCounts (paidCount acc) (partialCount acc + 1) (pendingCount acc)
       | pending =>
           mkCounts (paidCount acc) (partialCount acc) (pendingCount acc + 1)
       end)
    filteredPayments (mkCounts 0 0 0).

End AnalyticsPage.

Inductive Tone : Type := muted | destructive | warning | accent.

Record FollowUpStatus : Type := mkStatus {
  label : string;
  tone : Tone;
}.

(** A notification shown to the user. *)
Inductive Toast : Type :=
  | ToastSuccess (message : string)
  | ToastError (message : string).

(** The patients page. *)
Module PatientsPage.
Section Page.
Context {rt : JSRuntime}.

Definition msInDay : Z := 1000 * 60 * 60 * 24.

(** [Math.round((target.getTime() - today.getTime()) / msInDay)] of the two
    dates, each after [setHours(0, 0, 0, 0)]. *)
Definition diffDays (today target : Z) : Z :=
  JSDate.roundDiv (setHoursZero target - setHoursZero today) msInDay.

Definition getFollowUpStatus (isoDate : option string) : Eff FollowUpStatus :=
  match isoDate with
  | None => ret (mkStatus "No date set" muted)
  | Some iso =>
      if negb (JSString.truthy iso) then ret (mkStatus "No date set" muted)
      else
        today <- newDate ;;
        let diffDays := diffDays today (dateParse iso) in
        ret (if diffDays <? 0 then
               mkStatus
                 (JSString.ofNumber (Z.abs diffDays) ++ " day"
                  ++ (if (diffDays =? -1)%Z then "" else "s") ++ " overdue")%string
                 destructive
             else if diffDays =? 0 then mkStatus "Due today" warning
             else if diffDays <=? 3 then mkStatus "Due soon" warning
             else if diffDays <=? 7 then mkStatus "Next 7 days" accent
             else
               mkStatus ("In " ++ JSString.ofNumber diffDays ++ " days")%string
                 muted)
  end.

Record UpcomingFollowUp : Type := mkUpcoming {
  visit : Visit.t;
  patient : option Patient.t;
  followUpDate : string;
}.

Definition upcomingFollowUps (patients : list Patient.t)
  (visits : list Visit.t) : Eff (list UpcomingFollowUp) :=
  now <- newDate ;;
  let today := setHoursZero now in
  ret (sortBy
         (fun a b => dateParse (followUpDate a) - dateParse (followUpDate b))
         (List.filter
            (fun item =>
               match patient item with
               | None => false
               | Some _ => setHoursZero (dateParse (followUpDate item)) >=? today
               end)
            (map
               (fun visit =>
                  mkUpcoming visit
                    (List.find
                       (fun entry =>
                          String.eqb (Patient.id entry) (Visit.patientId visit))
                       patients)
                    (nullish (Visit.followUpDate visit) ""))
               (List.filter
                  (fun visit => JSString.truthyOpt (Visit.followUpDate visit))
                  visits)))).

(** The entries of [upcomingFollowUps] with the status shown for each. *)
Definition followUpStatuses (entries : list UpcomingFollowUp)
  : Eff (list (UpcomingFollowUp * FollowUpStatus)) :=
  mapM (fun entry =>
          status <- getFollowUpStatus (Some (followUpDate entry)) ;;
          ret (entry, status))
    entries.

Definition followUpsNextSevenDays (entries : list UpcomingFollowUp) : Eff nat :=
  kept <- filterM
            (fun entry =>
               status <- getFollowUpStatus (Some (followUpDate entry)) ;;
               ret (match tone status with
                    | warning | accent => true
                    | _ => false
                    end))
            entries ;;
  ret (length kept).

Definition overdueFollowUps (entries : list UpcomingFollowUp) : Eff nat :=
  kept <- filterM
            (fun entry =>
               status <- getFollowUpStatus (Some (followUpDate entry)) ;;
               ret (match tone status with
                    | destructive => true
                    | _ => false
                    end))
            entries ;;
  ret (length kept).

(** [saveFollowUpDate]: the toast shown, if any.  The state of the dialog,
    reset at the end, is local to the page and is left out. *)
Definition saveFollowUpDate (editingFollowUpId : option string)
  (editingFollowUpDate : string) : Eff (option Toast) :=
  if negb (JSString.truthyOpt editingFollowUpId) then ret None
  else
    let trimmedDate := JSString.trim editingFollowUpDate in
    if negb (JSString.truthy trimmedDate) then
      ret (Some (ToastError "Select a follow-up date before saving."))
    else
      updated <- updateVisit (nullish editingFollowUpId "")
                   (UpdateVisitInput.mk None None None None Absent Absent
                      (Present (Some trimmedDate)) None Absent) ;;
      ret (Some (match updated with
                 | Some _ => ToastSuccess "Follow-up date updated."
                 | None => ToastError "Unable to update follow-up date."
                 end)).

(** The average age of all patients, [Math.round(totalAge / length)]. *)
Definition averageAge (patients : list Patient.t) : Z :=
  if negb (nonEmpty patients) then 0
  else
    JSDate.roundDiv
      (fold_left (fun acc patient => acc + Patient.age patient) patients 0)
      (Z.of_nat (length patients)).

(** The number of distinct chronic conditions: the size of a [Set]. *)
Definition conditionsTracked (patients : list Patient.t) : nat :=
  size
    (fold_left
       (fun (set : gset string) patient =>
          fold_left (fun (set : gset string) condition => {[condition]} ∪ set)
            (Patient.chronicConditions patient) set)
       patients ∅).

End Page.
End PatientsPage.

(** The home page. *)
Module HomePage.
Section Page.
Context {rt : JSRuntime}.

(** The sort key of a visit: the time of its follow-up date, [Infinity]
    ([None]) without one. *)
Definition followUpTime (v : Visit.t) : option Z :=
  match Visit.followUpDate v with
  | Some d => if JSString.truthy d then Some (dateParse d) else None
  | None => None
  end.

(** The sign of [aDate - bDate]; [Infinity - Infinity] is [NaN], which a
    sort takes as [0]. *)
Definition compareFollowUp (a b : Visit.t) : Z :=
  match followUpTime a, followUpTime b with
  | Some x, Some y => x - y
  | None, Some _ => 1
  | Some _, None => -1
  | None, None => 0
  end.

Definition upcomingFollowUps (visits : list Visit.t) : Eff (list Visit.t) :=
  kept <- filterM
            (fun visit =>
               match Visit.followUpDate visit with
               | Some d =>
                   if JSString.truthy d then
                     now <- newDate ;; ret (dateParse d >=? now)
                   else ret false
               | None => ret false
               end)
            visits ;;
  ret (firstn 4 (sortBy compareFollowUp kept)).



(** The five patients updated last, the latest first. *)
Definition recentPatients (patients : list Patient.t) : list Patient.t :=
  firstn 5
    (sortBy
       (fun a b =>
          dateParse (Patient.updatedAt b) - dateParse (Patient.updatedAt a))
       patients).

End Page.
End HomePage.

(** The page of one patient; it has its own copy of [getFollowUpStatus],
    the same function as on the patients page. *)
Module PatientDetailPage.
Section Page.
Context {rt : JSRuntime}.

Definition patientVisits (visits : list Visit.t) (patientId : string)
  : list Visit.t :=
  sortBy
    (fun a b => dateParse (Visit.visitDate b) - dateParse (Visit.visitDate a))
    (List.filter (fun visit => String.eqb (Visit.patientId visit) patientId)
       visits).

Record Entry : Type := mkEntry {
  visit : Visit.t;
  followUpDate : string;
}.

(** [entries[0]]: the nearest follow-up that is not in the past. *)
Definition upcomingFollowUp (patientVisits : list Visit.t)
  : Eff (option Entry) :=
  now <- newDate ;;
  let today := setHoursZero now in
  let entries :=
    sortBy
      (fun a b => dateParse (followUpDate a) - dateParse (followUpDate b))
      (List.filter
         (fun entry => setHoursZero (dateParse (followUpDate entry)) >=? today)
         (map
            (fun visit =>
               mkEntry visit (nullish (Visit.followUpDate visit) ""))
            (List.filter
               (fun visit => JSString.truthyOpt (Visit.followUpDate visit))
               patientVisits))) in
  ret (hd_error entries).

Definition upcomingFollowUpStatus (upcomingFollowUp : option Entry)
  : Eff (option FollowUpStatus) :=
  match upcomingFollowUp with
  | Some entry =>
      status <- PatientsPage.getFollowUpStatus (Some (followUpDate entry)) ;;
      ret (Some status)
  | None => ret None
  end.

Definition patientPayments (payments : list Payment.t) (patientId : string)
  : list Payment.t :=
  sortBy
    (fun a b =>
       dateParse (Payment.recordedAt b) - dateParse (Payment.recordedAt a))
    (List.filter
       (fun payment => String.eqb (Payment.patientId payment) patientId)
       payments).



Definition outstandingBalance (patientPayments : list Payment.t) : Z :=
  fold_left
    (fun acc payment =>
       acc + Z.max (Payment.amountDue payment - Payment.amountPaid payment) 0)
    patientPayments 0.

End Page.
End PatientDetailPage.

(** The patients page, the tab of the patients. *)
Module PatientSummaries.
Section Page.
Context {rt : JSRuntime}.

Record PatientSummary : Type := mkSummary {
  patient : Patient.t;
  outstandingBalance : Z;
  lastVisitDate : option string;
  lastVisitReason : option string;
}.

Definition patientSummaries (patients : list Patient.t)
  (visits : list Visit.t) (payments : list Payment.t)
  : list PatientSummary :=
  map
    (fun patient =>
       let patientVisits :=
         sortBy
           (fun a b =>
              dateParse (Visit.visitDate b) - dateParse (Visit.visitDate a))
           (List.filter
              (fun visit =>
                 String.eqb (Visit.patientId visit) (Patient.id patient))
              visits) in
       let lastVisit := hd_error patientVisits in
       let patientPayments :=
         List.filter
           (fun payment =>
              String.eqb (Payment.patientId payment) (Patient.id patient))
           payments in
       let outstandingBalance :=
         fold_left
           (fun total payment =>
              total + (Payment.amountDue payment - Payment.amountPaid payment))
           patientPayments 0 in
       mkSummary patient outstandingBalance
         (Visit.visitDate <$> lastVisit) (Visit.reason <$> lastVisit))
    patients.

Definition filteredPatients (patientSummaries : list PatientSummary)
  (searchTerm genderFilter : string) (conditionFilter : list string)
  : list PatientSummary :=
  let normalizedSearch := JSString.toLowerCase (JSString.trim searchTerm) in
  List.filter
    (fun summary =>
       let patient := patient summary in
       let matchesSearch :=
         if JSString.truthy normalizedSearch then
           existsb
             (fun value =>
                JSString.includes (JSString.toLowerCase value) normalizedSearch)
             (List.filter JSString.truthy
                [ (Patient.firstName patient ++ " "
                   ++ Patient.lastName patient)%string;
                  PatientContact.phone (Patient.contact patient);
                  nullish (PatientContact.email (Patient.contact patient)) "" ])
         else true in
       let matchesGender :=
         if JSString.truthy genderFilter
         then String.eqb (genderString (Patient.gender patient)) genderFilter
         else true in
       let matchesConditions :=
         if nonEmpty conditionFilter
         then forallb
                (fun condition =>
                   includes (Patient.chronicConditions patient) condition)
                conditionFilter
         else true in
       matchesSearch && matchesGender && matchesConditions)
    patientSummaries.

Definition outstandingBalanceTotal (filteredPatients : list PatientSummary)
  : Z :=
  fold_left (fun acc summary => acc + outstandingBalance summary)
    filteredPatients 0.

End Page.
End PatientSummaries.

(** The multi-select of the filters (components/ui/multi-select.tsx). *)
Module MultiSelect.

Record MultiSelectOption : Type := mkOption {
  label : string;
  value : string;
}.

(** [toggleOption]: the selection handed to [onChange]. *)
Definition toggleOption (value : list string) (optionValue : string)
  : list string :=
  if includes value optionValue
  then List.filter (fun item => negb (String.eqb item optionValue)) value
  else (value ++ [optionValue])%list.

Definition clearSelection : list string := [].

Definition filteredOptions (options : list MultiSelectOption)
  (searchTerm : string) : list MultiSelectOption :=
  if negb (JSString.truthy (JSString.trim searchTerm)) then options
  else
    List.filter
      (fun option =>
         JSString.includes (JSString.toLowerCase (label option))
           (JSString.toLowerCase (JSString.trim searchTerm)))
      options.

Definition selectedLabels (options : list MultiSelectOption)
  (value : list string) : list string :=
  map label
    (List.filter (fun option => includes value (MultiSelect.value option))
       options).

End MultiSelect.

(* ===================================================================== *)
(** ** A runtime to evaluate the operations on *)
(* ===================================================================== *)

Module ExampleRuntime.

Definition digit (c : ascii) : Z := Z.of_nat (nat_of_ascii c) - 48.

Fixpoint number (acc : Z) (s : string) : Z :=
  match s with
  | EmptyString => acc
  | String c r => number (10 * acc + digit c) r
  end.

(** The time value of a date-only ISO string [YYYY-MM-DD]: midnight UTC of
    that day.  Other strings are not dates; they are given the epoch. *)
Definition parseIsoDate (s : string) : Z :=
  if (String.length s =? 10)%nat then
    JSDate.daysFromCivil
      (number 0 (substring 0 4 s))
      (number 0 (substring 5 2 s))
      (number 0 (substring 8 2 s))
    * JSDate.msPerDay
  else 0.

(** The zone of the clinic, three hours east of UTC all year. *)
Definition offset : Z := 3 * 60 * 60 * 1000.

(** 2025-11-01, 09:00 local time. *)
Definition referenceInstant : Z :=
  JSDate.daysFromCivil 2025 11 1 * JSDate.msPerDay + 9 * 60 * 60 * 1000 - offset.

(** The clock stands at the reference instant; tokens are numbered. *)
Definition amman : JSRuntime := {|
  dateParse := parseIsoDate;
  localTZA := fun _ _ => offset;
  toISOString := fun t => ("T" ++ JSString.ofNumber t)%string;
  clock := fun _ => referenceInstant;
  randomToken := fun n => JSString.ofNumber (Z.of_nat n);
|}.

Definition emptyState : ClinicState.t := ClinicState.mk [] [] [].

Definition emptyWorld : World := mkWorld emptyState None 0 0.

(** The world after the seed data was built and the provider mounted. *)
Definition seedWorld : World :=
  let (seed, w) := INITIAL_CLINIC_STATE (rt := amman) emptyWorld in
  default w (ClinicProvider (rt := amman) seed w).


(** A patient and a visit of that patient with a follow-up on 2025-11-01,
    the day of the reference instant. *)
Definition dueTodayPatient : Patient.t :=
  Patient.mk "pat-1" "Amani" "Youssef" female "1988-02-14" 37
    (PatientContact.mk "0771234567" None None None None)
    [] [] None "2025-10-25T08:00:00.000Z" "2025-10-25T08:00:00.000Z".

Definition dueTodayVisit : Visit.t :=
  Visit.mk "visit-1" "pat-1" "2025-10-25" "Review" [] [] None None
    (Some "2025-11-01") VisitVitals.empty
    None "2025-10-25T08:00:00.000Z" "2025-10-25T08:00:00.000Z".

(** A world whose state holds that patient and that visit. *)
Definition dueTodayWorld : World :=
  mkWorld (ClinicState.mk [dueTodayPatient] [dueTodayVisit] []) None 0 0.

End ExampleRuntime.

(* ===================================================================== *)
(** ** Notions of the specification *)
(* ===================================================================== *)

(** The urgency buckets of a follow-up date. *)
Inductive UrgencyBucket : Type :=
  | Overdue | DueToday | DueSoon | NextSevenDays | InNDays.

(** The bucket of a day delta, in the words of the specification: overdue
    for a negative delta, due today for 0, due soon for 1 to 3 days, next 7
    days for 4 to 7 days, and the generic bucket otherwise. *)
Definition bucketOfDelta (d : Z) : UrgencyBucket :=
  if d <? 0 then Overdue
  else if d =? 0 then DueToday
  else if (1 <=? d) && (d <=? 3) then DueSoon
  else if (4 <=? d) && (d <=? 7) then NextSevenDays
  else InNDays.

(** The label and the tone a bucket is shown with, at the day delta [d]. *)
Definition bucketStatus (b : UrgencyBucket) (d : Z) : FollowUpStatus :=
  match b with
  | Overdue =>
      mkStatus
        (JSString.ofNumber (Z.abs d) ++ " day"
         ++ (if (d =? -1)%Z then "" else "s") ++ " overdue")%string
        destructive
  | DueToday => mkStatus "Due today" warning
  | DueSoon => mkStatus "Due soon" warning
  | NextSevenDays => mkStatus "Next 7 days" accent
  | InNDays => mkStatus ("In " ++ JSString.ofNumber d ++ " days")%string muted
  end.

(** The age at a day, computed on its own: the whole years from the date
    [(by, bm, bd)] to the date [(ty, tm, td)], that is the difference of the
    years, less one as long as the month and day of birth are still to come
    in the year. *)
Definition wholeYears (by_ bm bd ty tm td : Z) : Z :=
  ty - by_ - (if (tm <? bm) || ((tm =? bm) && (td <? bd)) then 1 else 0).

(** The age of someone born on [birthDate], at the instant [now]. *)
Definition ageAt {rt : JSRuntime} (now : Z) (birthDate : string) : Z :=
  let birth := dateParse birthDate in
  wholeYears (getFullYear birth) (getMonth birth) (getDate birth)
    (getFullYear now) (getMonth now) (getDate now).

(** An optional field that is empty or made of white space is unset; any
    other value is kept. *)
Definition unsetIfBlank (o : option string) : option string :=
  match o with
  | Some s => if JSString.isBlank s then None else Some s
  | None => None
  end.

(** A patient with another [updatedAt], every other field the same. *)
Definition withUpdatedAt (p : Patient.t) (timestamp : string) : Patient.t :=
  Patient.mk (Patient.id p) (Patient.firstName p) (Patient.lastName p)
    (Patient.gender p) (Patient.birthDate p) (Patient.age p)
    (Patient.contact p) (Patient.chronicConditions p) (Patient.allergies p)
    (Patient.notes p) (Patient.createdAt p) timestamp.

(** A patient with another age, every other field the same. *)
Definition withAge (p : Patient.t) (age : Z) : Patient.t :=
  Patient.mk (Patient.id p) (Patient.firstName p) (Patient.lastName p)
    (Patient.gender p) (Patient.birthDate p) age
    (Patient.contact p) (Patient.chronicConditions p) (Patient.allergies p)
    (Patient.notes p) (Patient.createdAt p) (Patient.updatedAt p).

(** A patient with another contact block, every other field the same. *)
Definition withContact (p : Patient.t) (c : PatientContact.t) : Patient.t :=
  Patient.mk (Patient.id p) (Patient.firstName p) (Patient.lastName p)
    (Patient.gender p) (Patient.birthDate p) (Patient.age p)
    c (Patient.chronicConditions p) (Patient.allergies p)
    (Patient.notes p) (Patient.createdAt p) (Patient.updatedAt p).

(** A patient as the load path gives it back: the age is the age at [now],
    the contact block is sanitized. *)
Definition reloadedPatient {rt : JSRuntime} (now : Z) (p : Patient.t)
  : Patient.t :=
  withAge (withContact p (sanitizeContact (Patient.contact p)))
    (ageAt now (Patient.birthDate p)).

(** No optional contact field of the state is blank. *)
Definition contactsSanitized (s : ClinicState.t) : Prop :=
  Forall (fun p => sanitizeContact (Patient.contact p) = Patient.contact p)
    (ClinicState.patients s).

(** The storage entry mirrors the state. *)
Definition persisted (w : World) : Prop :=
  storage w = Some (JSON.stringify (state w)).

(** The calls a page can make on the store. *)
Inductive StoreCall : Type :=
  | CallAddPatient (data : NewPatientInput.t)
  | CallUpdatePatient (id : string) (data : UpdatePatientInput.t)
  | CallAddVisit (data : NewVisitInput.t)
  | CallUpdateVisit (id : string) (data : UpdateVisitInput.t)
  | CallAddPayment (data : NewPaymentInput.t)
  | CallUpdatePayment (id : string) (data : UpdatePaymentInput.t).

Definition runCall {rt : JSRuntime} (c : StoreCall) (w : World) : World :=
  match c with
  | CallAddPatient data => snd (addPatient data w)
  | CallUpdatePatient id data => snd (updatePatient id data w)
  | CallAddVisit data => snd (addVisit data w)
  | CallUpdateVisit id data => snd (updateVisit id data w)
  | CallAddPayment data => snd (addPayment data w)
  | CallUpdatePayment id data => snd (updatePayment id data w)
  end.

(** The worlds of a session: the provider is mounted on the seed data, in a
    browser with no storage entry or with the document of a clinic state as
    its entry, and the pages call the store. *)
Inductive reachable {rt : JSRuntime} : World -> Prop :=
  | reachable_mount (w0 w : World) :
      ClinicProvider (fst (INITIAL_CLINIC_STATE w0))
        (snd (INITIAL_CLINIC_STATE w0)) = Some w ->
      reachable w
  | reachable_call (w : World) (c : StoreCall) :
      reachable w -> reachable (runCall c w).

(** The sum of [f] over a list. *)
Fixpoint sumOf {A} (f : A -> Z) (l : list A) : Z :=
  match l with
  | [] => 0
  | x :: r => f x + sumOf f r
  end.

(** The number of elements of a list that pass a test. *)
Definition countOf {A} (f : A -> bool) (l : list A) : Z :=
  Z.of_nat (length (List.filter f l)).

(** The payment has the status [s]. *)
Definition hasStatus (s : PaymentStatus) (payment : Payment.t) : bool :=
  match s, AnalyticsPage.getPaymentStatus (Payment.amountDue payment)
             (Payment.amountPaid payment) with
  | paid, paid | partial, partial | pending, pending => true
  | _, _ => false
  end.

(** The patient has the gender [g]. *)
Definition hasGender (g : Gender) (patient : Patient.t) : bool :=
  match g, Patient.gender patient with
  | male, male | female, female => true
  | _, _ => false
  end.

(** The zone may change its offset (daylight saving), by less than half a
    day. *)
Definition offsetsWithinHalfDay {rt : JSRuntime} : Prop :=
  forall a b, 2 * Z.abs (localTZA a false - localTZA b false) < JSDate.msPerDay.

(* ===================================================================== *)
(** * Properties *)
(* ===================================================================== *)

(** Running the steps of an operation of the store: the lookup by id, then
    the timestamp, the id, and the dispatch. *)
Tactic Notation "run_lookup" reference(op) := unfold op, bind, getState.
Ltac run_steps := unfold bind, nowIso, newDate, createId, ret, dispatch.
Ltac run_update := unfold nowIso, bind, newDate, ret, dispatch.

(** ** Strings *)

Lemma isEmpty_trimEnd (s : string) :
  JSString.isEmpty (JSString.trimEnd s) = JSString.isBlank s.
Proof.
  induction s as [|c r IH]; simpl; [reflexivity|].
  rewrite IH. destruct (JSString.isWhiteSpace c); simpl; [|reflexivity].
  destruct (JSString.isBlank r); reflexivity.
Qed.

Lemma isBlank_trimStart (s : string) :
  JSString.isBlank (JSString.trimStart s) = JSString.isBlank s.
Proof.
  induction s as [|c r IH]; simpl; [reflexivity|].
  destruct (JSString.isWhiteSpace c) eqn:Hc; simpl; [exact IH|].
  rewrite Hc. reflexivity.
Qed.

(** [s.trim()] is truthy exactly when [s] is not blank. *)
Lemma truthy_trim (s : string) :
  JSString.truthy (JSString.trim s) = negb (JSString.isBlank s).
Proof.
  unfold JSString.truthy, JSString.trim.
  now rewrite isEmpty_trimEnd, isBlank_trimStart.
Qed.

Lemma truthy_not_empty (s : string) :
  JSString.truthy s = true <-> s <> "".
Proof.
  destruct s; cbn; split; intros H; congruence || reflexivity.
Qed.

(** ** Sorting keeps the elements *)

Lemma insertSorted_Permutation {A} (compareFn : A -> A -> Z) x (l : list A) :
  Permutation (insertSorted compareFn x l) (x :: l).
Proof.
  induction l as [|y r IH]; simpl; [reflexivity|].
  destruct (compareFn x y <=? 0); [reflexivity|].
  rewrite IH. apply perm_swap.
Qed.

Lemma sortBy_Permutation {A} (compareFn : A -> A -> Z) (l : list A) :
  Permutation (sortBy compareFn l) l.
Proof.
  induction l as [|x r IH]; simpl; [reflexivity|].
  rewrite insertSorted_Permutation. now constructor.
Qed.

Lemma In_sortBy {A} (compareFn : A -> A -> Z) (l : list A) x :
  In x (sortBy compareFn l) <-> In x l.
Proof.
  split; apply Permutation_in;
    [apply sortBy_Permutation | symmetry; apply sortBy_Permutation].
Qed.

(** ** C1: balance and status of a payment *)

Section PaymentStatus.
Context {rt : JSRuntime}.

(** The status of the payments page, case by case. *)
Lemma getPaymentStatus_cases (p : Payment.t) :
  let due := Payment.amountDue p in
  let paidAmount := Payment.amountPaid p in
  (due - paidAmount <= 0 /\ PaymentsPage.getPaymentStatus p = paid)
  \/ (0 < due - paidAmount /\ paidAmount = 0
      /\ PaymentsPage.getPaymentStatus p = pending)
  \/ (0 < due - paidAmount /\ paidAmount <> 0
      /\ PaymentsPage.getPaymentStatus p = partial).
Proof.
  unfold PaymentsPage.getPaymentStatus; simpl.
  destruct (Z.leb_spec (Payment.amountDue p - Payment.amountPaid p) 0);
    [left; auto|].
  destruct (Z.eqb_spec (Payment.amountPaid p) 0); [right; left | right; right];
    auto.
Qed.

(** The two pages compute the same status. *)
Lemma getPaymentStatus_agree (p : Payment.t) :
  AnalyticsPage.getPaymentStatus (Payment.amountDue p) (Payment.amountPaid p)
  = PaymentsPage.getPaymentStatus p.
Proof. reflexivity. Qed.

(** Every row of the payments table is the row of a payment of the store. *)
Lemma paymentRows_In patients visits payments row :
  In row (PaymentsPage.paymentRows patients visits payments) <->
  exists p, In p payments /\ row = PaymentsPage.toRow patients visits p.
Proof.
  unfold PaymentsPage.paymentRows. rewrite In_sortBy, in_map_iff.
  split; intros (p & H1 & H2); exists p; auto.
Qed.

(** C1. For every payment record: the payments table has a row for the
    payment; in that row the derived outstanding balance is
    [max (amountDue - amountPaid) 0] and the derived status is [paid] if
    [amountDue - amountPaid <= 0], else [pending] if [amountPaid = 0], else
    [partial] (so it is exactly one of the three); the status is [paid]
    exactly when the clamped balance is [0]; and the analytics page derives
    the same status.  The table has no other rows: it holds one row for each
    payment, and every row is the row of a payment of the state, with that
    balance and that status.  [amountDue = 1200], [amountPaid = 800] gives
    the balance [400] and the status [partial]. *)
Theorem C1_payment_balance_and_status :
  (forall (p : Payment.t) patients visits payments,
      let due := Payment.amountDue p in
      let paidAmount := Payment.amountPaid p in
      In p payments ->
      exists row,
        In row (PaymentsPage.paymentRows patients visits payments)
        /\ PaymentsPage.payment row = p
        /\ PaymentsPage.balance row = Z.max (due - paidAmount) 0
        /\ PaymentsPage.status row = PaymentsPage.getPaymentStatus p
        /\ PaymentsPage.status row
           = AnalyticsPage.getPaymentStatus due paidAmount
        /\ ((due - paidAmount <= 0 /\ PaymentsPage.status row = paid)
            \/ (0 < due - paidAmount /\ paidAmount = 0
                /\ PaymentsPage.status row = pending)
            \/ (0 < due - paidAmount /\ paidAmount <> 0
                /\ PaymentsPage.status row = partial))
        /\ (PaymentsPage.status row = paid <-> PaymentsPage.balance row = 0))
  /\ (forall patients visits payments,
         Permutation
           (map PaymentsPage.payment
              (PaymentsPage.paymentRows patients visits payments))
           payments)
  /\ (forall patients visits payments,
         Forall
           (fun row =>
              let due := Payment.amountDue (PaymentsPage.payment row) in
              let paidAmount :=
                Payment.amountPaid (PaymentsPage.payment row) in
              In (PaymentsPage.payment row) payments
              /\ PaymentsPage.balance row = Z.max (due - paidAmount) 0
              /\ PaymentsPage.status row
                 = PaymentsPage.getPaymentStatus (PaymentsPage.payment row)
              /\ PaymentsPage.status row
                 = AnalyticsPage.getPaymentStatus due paidAmount
              /\ ((due - paidAmount <= 0 /\ PaymentsPage.status row = paid)
                  \/ (0 < due - paidAmount /\ paidAmount = 0
                      /\ PaymentsPage.status row = pending)
                  \/ (0 < due - paidAmount /\ paidAmount <> 0
                      /\ PaymentsPage.status row = partial))
              /\ (PaymentsPage.status row = paid
                  <-> PaymentsPage.balance row = 0))
           (PaymentsPage.paymentRows patients visits payments))
  /\ (forall p,
         Payment.amountDue p = 1200 -> Payment.amountPaid p = 800 ->
         forall patients visits,
           PaymentsPage.balance (PaymentsPage.toRow patients visits p) = 400
           /\ PaymentsPage.status (PaymentsPage.toRow patients visits p)
              = partial).
Proof.
  assert (Hrow : forall patients visits p,
             let row := PaymentsPage.toRow patients visits p in
             let due := Payment.amountDue p in
             let paidAmount := Payment.amountPaid p in
             PaymentsPage.balance row = Z.max (due - paidAmount) 0
             /\ PaymentsPage.status row = PaymentsPage.getPaymentStatus p
             /\ PaymentsPage.status row
                = AnalyticsPage.getPaymentStatus due paidAmount
             /\ ((due - paidAmount <= 0 /\ PaymentsPage.status row = paid)
                 \/ (0 < due - paidAmount /\ paidAmount = 0
                     /\ PaymentsPage.status row = pending)
                 \/ (0 < due - paidAmount /\ paidAmount <> 0
                     /\ PaymentsPage.status row = partial))
             /\ (PaymentsPage.status row = paid
                 <-> PaymentsPage.balance row = 0)).
  { intros patients visits p. cbv zeta.
    cbn [PaymentsPage.toRow PaymentsPage.balance PaymentsPage.status
         PaymentsPage.payment].
    pose proof (getPaymentStatus_cases p) as Hc. cbv zeta in Hc.
    repeat split; auto.
    - intros Hp. destruct Hc as [[? _]|[(? & _ & Hs)|(? & _ & Hs)]];
        [lia | congruence | congruence].
    - intros Hb. destruct Hc as [[_ ?]|[(? & _ & _)|(? & _ & _)]];
        [assumption | lia | lia]. }
  split; [|split; [|split]].
  - intros p patients visits payments due paidAmount Hin.
    exists (PaymentsPage.toRow patients visits p).
    split; [apply paymentRows_In; now exists p|].
    split; [reflexivity|]. apply Hrow.
  - intros patients visits payments. unfold PaymentsPage.paymentRows.
    rewrite sortBy_Permutation, map_map.
    cbn [PaymentsPage.toRow PaymentsPage.payment]. now rewrite map_id.
  - intros patients visits payments. apply List.Forall_forall.
    intros row Hr. apply paymentRows_In in Hr as (p & Hin & ->).
    split; [exact Hin|]. apply Hrow.
  - intros p Hd Hp patients visits.
    unfold PaymentsPage.toRow, PaymentsPage.getPaymentStatus; simpl.
    rewrite Hd, Hp. split; reflexivity.
Qed.

End PaymentStatus.

(** ** C2: the urgency of a follow-up date *)

Lemma roundDiv_near (k delta m : Z) :
  0 < m -> 2 * Z.abs delta < m -> JSDate.roundDiv (k * m + delta) m = k.
Proof.
  intros Hm Hd. unfold JSDate.roundDiv. symmetry.
  apply Z.div_unique with (r := 2 * delta + m); lia.
Qed.

Lemma msPerDay_pos : 0 < JSDate.msPerDay.
Proof. reflexivity. Qed.

(** The status of a bucket tells the bucket. *)
Lemma bucketStatus_inj b b' d d' :
  bucketStatus b d = bucketStatus b' d' -> b = b'.
Proof.
  destruct b, b'; cbn; intros H; try reflexivity; congruence.
Qed.

Section FollowUp.
Context {rt : JSRuntime}.

(** With the time of day set to zero on both dates, the rounded quotient is
    the difference of the two local day numbers. *)
Lemma diffDays_localDay (today target : Z) :
  offsetsWithinHalfDay ->
  PatientsPage.diffDays today target = localDay target - localDay today.
Proof.
  intros Htz. unfold PatientsPage.diffDays, setHoursZero, UTC, localDay.
  set (dT := JSDate.Day (LocalTime target)).
  set (dN := JSDate.Day (LocalTime today)).
  specialize (Htz (dN * JSDate.msPerDay) (dT * JSDate.msPerDay)).
  replace (dT * JSDate.msPerDay - localTZA (dT * JSDate.msPerDay) false
           - (dN * JSDate.msPerDay - localTZA (dN * JSDate.msPerDay) false))
    with ((dT - dN) * JSDate.msPerDay
          + (localTZA (dN * JSDate.msPerDay) false
             - localTZA (dT * JSDate.msPerDay) false)) by lia.
  apply roundDiv_near; [apply msPerDay_pos | exact Htz].
Qed.

(** The status in terms of the delta the code computes. *)
Lemma getFollowUpStatus_dated (iso : string) (w : World) :
  iso <> "" ->
  let d := PatientsPage.diffDays (clock (clockReads w)) (dateParse iso) in
  fst (PatientsPage.getFollowUpStatus (Some iso) w)
  = bucketStatus (bucketOfDelta d) d.
Proof.
  intros Hne d. apply truthy_not_empty in Hne.
  unfold PatientsPage.getFollowUpStatus. rewrite Hne. cbn.
  fold d. unfold bucketOfDelta.
  destruct (Z.ltb_spec d 0); [reflexivity|].
  destruct (Z.eqb_spec d 0); [reflexivity|].
  destruct (Z.leb_spec d 3).
  - replace (1 <=? d) with true by (symmetry; apply Z.leb_le; lia).
    reflexivity.
  - replace (1 <=? d) with true by (symmetry; apply Z.leb_le; lia).
    cbn. destruct (Z.leb_spec d 7).
    + replace (4 <=? d) with true by (symmetry; apply Z.leb_le; lia).
      reflexivity.
    + replace (4 <=? d) with true by (symmetry; apply Z.leb_le; lia).
      reflexivity.
Qed.

(** C2. For every visit that has a follow-up date [iso], the status computed
    (relative to today, the time of day set to zero on both dates) is the one
    of the bucket of the day delta [d], the difference of the two local day
    numbers: overdue for [d < 0], due today for [d = 0], due soon for
    [1 <= d <= 3], next 7 days for [4 <= d <= 7] and the generic "In N days"
    otherwise; the status belongs to no other bucket; and a follow-up 9 days
    away is shown as "In 9 days", in the generic bucket and not in next 7
    days. *)
Theorem C2_follow_up_bucket_by_day_delta (iso : string) (w : World) :
  offsetsWithinHalfDay ->
  iso <> "" ->
  let d := localDay (dateParse iso) - localDay (clock (clockReads w)) in
  let status := fst (PatientsPage.getFollowUpStatus (Some iso) w) in
  status = bucketStatus (bucketOfDelta d) d
  /\ (forall b, status = bucketStatus b d -> b = bucketOfDelta d)
  /\ (d < 0 <-> bucketOfDelta d = Overdue)
  /\ (d = 0 <-> bucketOfDelta d = DueToday)
  /\ (1 <= d <= 3 <-> bucketOfDelta d = DueSoon)
  /\ (4 <= d <= 7 <-> bucketOfDelta d = NextSevenDays)
  /\ (7 < d <-> bucketOfDelta d = InNDays)
  /\ (d = 9 -> status = mkStatus "In 9 days" muted
               /\ bucketOfDelta d <> NextSevenDays).
Proof.
  intros Htz Hne d status.
  assert (Hs : status = bucketStatus (bucketOfDelta d) d).
  { unfold status. rewrite (getFollowUpStatus_dated iso w Hne).
    cbv zeta. rewrite (diffDays_localDay _ _ Htz). reflexivity. }
  assert (Hcases :
            (d < 0 /\ bucketOfDelta d = Overdue)
            \/ (d = 0 /\ bucketOfDelta d = DueToday)
            \/ (1 <= d <= 3 /\ bucketOfDelta d = DueSoon)
            \/ (4 <= d <= 7 /\ bucketOfDelta d = NextSevenDays)
            \/ (7 < d /\ bucketOfDelta d = InNDays)).
  { unfold bucketOfDelta.
    destruct (Z.ltb_spec d 0); [left; auto|].
    destruct (Z.eqb_spec d 0); [right; left; auto|].
    destruct (Z.leb_spec 1 d); [|lia].
    destruct (Z.leb_spec d 3); cbn; [right; right; left; split; [lia|auto]|].
    destruct (Z.leb_spec 4 d); [|lia].
    destruct (Z.leb_spec d 7); cbn;
      [right; right; right; left | right; right; right; right];
      (split; [lia | reflexivity]). }
  split; [exact Hs|].
  split.
  { intros b Hb. rewrite Hs in Hb. symmetry.
    exact (bucketStatus_inj _ _ _ _ Hb). }
  assert (Hiff : forall (P : Prop) b,
             (P -> bucketOfDelta d = b) ->
             (bucketOfDelta d = b -> P) -> (P <-> bucketOfDelta d = b))
    by (intros P b H1 H2; split; assumption).
  repeat (split;
    [apply Hiff; intros Hi;
     destruct Hcases as [[Hd E]|[[Hd E]|[[Hd E]|[[Hd E]|[Hd E]]]]];
     first [ exact E | lia | congruence ]|]).
  intros H9. split.
  - rewrite Hs, H9. reflexivity.
  - rewrite H9. discriminate.
Qed.

End FollowUp.

(** C2 at the seed data: on 2025-11-01 the follow-up of 2025-11-10 is 9
    days away and is shown as "In 9 days". *)
Lemma C2_follow_up_in_9_days :
  fst (PatientsPage.getFollowUpStatus (rt := ExampleRuntime.amman)
         (Some "2025-11-10") ExampleRuntime.seedWorld)
  = mkStatus "In 9 days" muted
  /\ bucketOfDelta 9 = InNDays.
Proof.
  assert (Htz : offsetsWithinHalfDay (rt := ExampleRuntime.amman))
    by (intros a b; vm_compute; reflexivity).
  assert (Hne : "2025-11-10" <> "") by discriminate.
  destruct (C2_follow_up_bucket_by_day_delta (rt := ExampleRuntime.amman)
              "2025-11-10" ExampleRuntime.seedWorld Htz Hne)
    as (_ & _ & _ & _ & _ & _ & _ & H9).
  split; [|reflexivity].
  apply H9. vm_compute. reflexivity.
Defined.

(** ** Looking a record up by its id *)

Lemma find_id_None {A} (getId : A -> string) (id : string) (l : list A) :
  ~ In id (map getId l) ->
  List.find (fun x => String.eqb (getId x) id) l = None.
Proof.
  induction l as [|x r IH]; cbn; [reflexivity|].
  intros Hn. destruct (String.eqb_spec (getId x) id) as [E|_].
  - exfalso. apply Hn. left. exact E.
  - apply IH. intros Hin. apply Hn. right. exact Hin.
Qed.

Lemma find_id_Some {A} (getId : A -> string) (id : string) (l : list A) x :
  List.find (fun y => String.eqb (getId y) id) l = Some x ->
  In x l /\ getId x = id.
Proof.
  intros H. apply List.find_some in H as [Hin He].
  split; [exact Hin | now apply String.eqb_eq].
Qed.

(** After [UPDATE_*], the id is found and gives the payload. *)
Lemma find_id_replace {A} (getId : A -> string) (payload : A) (l : list A) x :
  List.find (fun y => String.eqb (getId y) (getId payload)) l = Some x ->
  List.find (fun y => String.eqb (getId y) (getId payload))
    (map (fun y => if String.eqb (getId y) (getId payload) then payload else y)
       l)
  = Some payload.
Proof.
  induction l as [|y r IH]; cbn; [discriminate|].
  destruct (String.eqb (getId y) (getId payload)) eqn:E.
  - intros _. now rewrite String.eqb_refl.
  - intros H. rewrite E. apply IH, H.
Qed.

(** After [UPDATE_*], a record that has the id of the payload is the
    payload. *)
Lemma In_replace_id {A} (getId : A -> string) (payload : A) (l : list A) x :
  In x (map (fun y => if String.eqb (getId y) (getId payload)
                      then payload else y) l) ->
  getId x = getId payload -> x = payload.
Proof.
  rewrite in_map_iff. intros (y & Hy & _) Hid.
  destruct (String.eqb_spec (getId y) (getId payload)) as [_|Hne];
    [now symmetry|].
  subst x. contradiction.
Qed.

(** ** C6: an update of an id that is not there *)

Section NotFound.
Context {rt : JSRuntime}.

(** C6. For every id that is not in the collection and every partial input,
    [updatePatient], [updateVisit] and [updatePayment] return [undefined]
    and leave the world as it was: the three collections of the state (and
    the stored entry, the clock and the random source) are untouched. *)
Theorem C6_update_of_missing_id_returns_undefined (w : World) (id : string) :
  (~ In id (map Patient.id (ClinicState.patients (state w))) ->
   forall data, updatePatient id data w = (None, w))
  /\ (~ In id (map Visit.id (ClinicState.visits (state w))) ->
      forall data, updateVisit id data w = (None, w))
  /\ (~ In id (map Payment.id (ClinicState.payments (state w))) ->
      forall data, updatePayment id data w = (None, w)).
Proof.
  repeat split; intros Hn data.
  - run_lookup updatePatient.
    now rewrite (find_id_None Patient.id id _ Hn).
  - run_lookup updateVisit.
    now rewrite (find_id_None Visit.id id _ Hn).
  - run_lookup updatePayment.
    now rewrite (find_id_None Payment.id id _ Hn).
Qed.

End NotFound.

(** C6 at the seed data: no record has the id ["pat-unknown"]. *)
Lemma C6_missing_id_at_seed :
  updatePatient (rt := ExampleRuntime.amman) "pat-unknown"
    UpdatePatientInput.empty ExampleRuntime.seedWorld
  = (None, ExampleRuntime.seedWorld).
Proof.
  apply (C6_update_of_missing_id_returns_undefined
           (rt := ExampleRuntime.amman) ExampleRuntime.seedWorld "pat-unknown").
  vm_compute. intuition discriminate.
Defined.

(** ** C10: what an action of the reducer changes *)

Lemma map_replace_lookup {A} (getId : A -> string) (payload : A) (l : list A)
  (i : nat) :
  map (fun y => if String.eqb (getId y) (getId payload) then payload else y) l
    !! i
  = (fun y => if String.eqb (getId y) (getId payload) then payload else y)
      <$> l !! i.
Proof. apply list_lookup_fmap. Qed.

Lemma map_replace_ids {A} (getId : A -> string) (payload : A) (l : list A) :
  map getId
    (map (fun y => if String.eqb (getId y) (getId payload) then payload else y)
       l)
  = map getId l.
Proof.
  induction l as [|y r IH]; cbn; [reflexivity|]. rewrite IH. f_equal.
  destruct (String.eqb_spec (getId y) (getId payload)); congruence.
Qed.

(** C10. Every action changes at most its target collection: an [ADD_*] or
    [UPDATE_*] on patients, visits or payments leaves the other two
    collections as they were.  In the target collection an [ADD_*] appends
    the payload at the end; an [UPDATE_*] keeps the length, keeps at every
    position the record that was there or puts the payload in the place of a
    record of the same id, and keeps the sequence of ids. *)
Theorem C10_reducer_frame_and_order (st : ClinicState.t)
  (action : ClinicAction) :
  let st' := clinicReducer st action in
  match action with
  | ADD_PATIENT payload =>
      ClinicState.patients st' = (ClinicState.patients st ++ [payload])%list
      /\ ClinicState.visits st' = ClinicState.visits st
      /\ ClinicState.payments st' = ClinicState.payments st
  | ADD_VISIT payload =>
      ClinicState.visits st' = (ClinicState.visits st ++ [payload])%list
      /\ ClinicState.patients st' = ClinicState.patients st
      /\ ClinicState.payments st' = ClinicState.payments st
  | ADD_PAYMENT payload =>
      ClinicState.payments st' = (ClinicState.payments st ++ [payload])%list
      /\ ClinicState.patients st' = ClinicState.patients st
      /\ ClinicState.visits st' = ClinicState.visits st
  | UPDATE_PATIENT payload =>
      ClinicState.visits st' = ClinicState.visits st
      /\ ClinicState.payments st' = ClinicState.payments st
      /\ length (ClinicState.patients st') = length (ClinicState.patients st)
      /\ (forall i,
             ClinicState.patients st' !! i
             = (fun old =>
                  if String.eqb (Patient.id old) (Patient.id payload)
                  then payload else old)
                 <$> ClinicState.patients st !! i)
      /\ map Patient.id (ClinicState.patients st')
         = map Patient.id (ClinicState.patients st)
  | UPDATE_VISIT payload =>
      ClinicState.patients st' = ClinicState.patients st
      /\ ClinicState.payments st' = ClinicState.payments st
      /\ length (ClinicState.visits st') = length (ClinicState.visits st)
      /\ (forall i,
             ClinicState.visits st' !! i
             = (fun old =>
                  if String.eqb (Visit.id old) (Visit.id payload)
                  then payload else old)
                 <$> ClinicState.visits st !! i)
      /\ map Visit.id (ClinicState.visits st')
         = map Visit.id (ClinicState.visits st)
  | UPDATE_PAYMENT payload =>
      ClinicState.patients st' = ClinicState.patients st
      /\ ClinicState.visits st' = ClinicState.visits st
      /\ length (ClinicState.payments st') = length (ClinicState.payments st)
      /\ (forall i,
             ClinicState.payments st' !! i
             = (fun old =>
                  if String.eqb (Payment.id old) (Payment.id payload)
                  then payload else old)
                 <$> ClinicState.payments st !! i)
      /\ map Payment.id (ClinicState.payments st')
         = map Payment.id (ClinicState.payments st)
  end.
Proof.
  destruct action as [p|p|v|v|y|y]; cbn; repeat split;
    try reflexivity;
    try apply length_map;
    try (intros i; apply list_lookup_fmap).
  - apply (map_replace_ids Patient.id).
  - apply (map_replace_ids Visit.id).
  - apply (map_replace_ids Payment.id).
Qed.

(** ** C3: a payment above the amount due *)

Section PaymentUpdate.
Context {rt : JSRuntime}.

(** What [updatePayment] does for an id that is found. *)
Lemma updatePayment_found (w : World) (id : string)
  (data : UpdatePaymentInput.t) (existing : Payment.t) :
  List.find (fun payment => String.eqb (Payment.id payment) id)
    (ClinicState.payments (state w)) = Some existing ->
  let updated :=
    Payment.mk
      (Payment.id existing)
      (Payment.patientId existing)
      (spread (Payment.visitId existing) (UpdatePaymentInput.visitId data))
      (nullish (UpdatePaymentInput.amountDue data) (Payment.amountDue existing))
      (nullish (UpdatePaymentInput.amountPaid data)
         (Payment.amountPaid existing))
      (nullish (UpdatePaymentInput.method data) (Payment.method existing))
      (match UpdatePaymentInput.invoiceNumber data with
       | Some s => Some s
       | None => Payment.invoiceNumber existing
       end)
      (Payment.recordedAt existing)
      (toISOString (clock (clockReads w)))
      (match UpdatePaymentInput.notes data with
       | Some s => Some s
       | None => Payment.notes existing
       end) in
  let st' := clinicReducer (state w) (UPDATE_PAYMENT updated) in
  updatePayment id data w
  = (Some updated,
     mkWorld st' (Some (JSON.stringify st')) (S (clockReads w)) (tokensDrawn w)).
Proof.
  intros Hf. run_lookup updatePayment. rewrite Hf. reflexivity.
Qed.

(** C3. For every existing payment id, [updatePayment] with an [amountPaid]
    above the amount due succeeds: it returns the payment with the amounts
    as given, nothing is rejected, and the payment is in the state under its
    id.  The balance then derived for that payment in the payments table is
    0, and no balance of the table is negative. *)
Theorem C3_overpayment_accepted_balance_clamped (w : World) (id : string)
  (data : UpdatePaymentInput.t) (existing : Payment.t) (paidNew : Z) :
  List.find (fun payment => String.eqb (Payment.id payment) id)
    (ClinicState.payments (state w)) = Some existing ->
  UpdatePaymentInput.amountPaid data = Some paidNew ->
  nullish (UpdatePaymentInput.amountDue data) (Payment.amountDue existing)
  < paidNew ->
  exists updated w',
    updatePayment id data w = (Some updated, w')
    /\ Payment.id updated = id
    /\ Payment.amountPaid updated = paidNew
    /\ Payment.amountDue updated
       = nullish (UpdatePaymentInput.amountDue data) (Payment.amountDue existing)
    /\ List.find (fun payment => String.eqb (Payment.id payment) id)
         (ClinicState.payments (state w')) = Some updated
    /\ (let rows :=
          PaymentsPage.paymentRows (ClinicState.patients (state w'))
            (ClinicState.visits (state w')) (ClinicState.payments (state w')) in
        (exists row, In row rows /\ PaymentsPage.payment row = updated)
        /\ (forall row,
               In row rows -> Payment.id (PaymentsPage.payment row) = id ->
               PaymentsPage.payment row = updated
               /\ PaymentsPage.balance row = 0)
        /\ Forall (fun row => 0 <= PaymentsPage.balance row) rows).
Proof.
  intros Hf Hp Hgt.
  destruct (find_id_Some Payment.id id _ _ Hf) as [Hin Hid].
  pose proof (updatePayment_found w id data existing Hf) as Hu.
  cbv zeta in Hu.
  set (updated := Payment.mk _ _ _ _ _ _ _ _ _ _) in Hu.
  assert (Hidu : Payment.id updated = id) by exact Hid.
  assert (Hpaid : Payment.amountPaid updated = paidNew)
    by (cbn; now rewrite Hp).
  exists updated. eexists. split; [exact Hu|].
  split; [exact Hidu|]. split; [exact Hpaid|]. split; [reflexivity|].
  cbn [state clinicReducer ClinicState.payments ClinicState.patients
       ClinicState.visits].
  assert (Hfind :
            List.find (fun payment => String.eqb (Payment.id payment) id)
              (map (fun payment =>
                      if String.eqb (Payment.id payment) (Payment.id updated)
                      then updated else payment)
                 (ClinicState.payments (state w))) = Some updated).
  { rewrite <- Hidu.
    apply (find_id_replace Payment.id updated _ existing).
    rewrite Hidu. exact Hf. }
  split; [exact Hfind|].
  cbv zeta. split; [|split].
  - exists (PaymentsPage.toRow (ClinicState.patients (state w))
              (ClinicState.visits (state w)) updated).
    split; [|reflexivity].
    apply paymentRows_In. exists updated. split; [|reflexivity].
    apply (find_id_Some Payment.id id _ _ Hfind).
  - intros row Hrow Hrid.
    apply paymentRows_In in Hrow as (p & Hp' & ->).
    cbn [PaymentsPage.toRow PaymentsPage.payment PaymentsPage.balance] in *.
    assert (p = updated) as ->.
    { apply (In_replace_id Payment.id updated _ p Hp'). congruence. }
    split; [reflexivity|]. rewrite Hpaid.
    change (Payment.amountDue updated)
      with (nullish (UpdatePaymentInput.amountDue data)
              (Payment.amountDue existing)).
    lia.
  - apply List.Forall_forall. intros row Hrow.
    apply paymentRows_In in Hrow as (p & _ & ->).
    cbn [PaymentsPage.toRow PaymentsPage.balance]. lia.
Qed.

End PaymentUpdate.

(** C3 at the seed data: 2000 paid on the payment of 1200. *)
Lemma C3_overpayment_at_seed :
  exists updated w',
    updatePayment (rt := ExampleRuntime.amman) "pay-amani-1"
      (UpdatePaymentInput.mk Absent None (Some 2000) None None None None)
      ExampleRuntime.seedWorld = (Some updated, w')
    /\ Payment.amountDue updated = 1200
    /\ Payment.amountPaid updated = 2000
    /\ PaymentsPage.balance (PaymentsPage.toRow [] [] updated) = 0.
Proof.
  destruct (C3_overpayment_accepted_balance_clamped
              (rt := ExampleRuntime.amman) ExampleRuntime.seedWorld
              "pay-amani-1"
              (UpdatePaymentInput.mk Absent None (Some 2000) None None None None)
              (nth 0 paymentsSeed
                 (Payment.mk "" "" None 0 0 cash None "" "" None))
              2000 eq_refl eq_refl eq_refl)
    as (updated & w' & Hu & _ & Hp & Hd & _).
  exists updated, w'. split; [exact Hu|].
  cbn in Hd. split; [exact Hd|]. split; [exact Hp|].
  cbn. rewrite Hd, Hp. reflexivity.
Defined.

(** ** C4: adding a patient *)

Section PatientOperations.
Context {rt : JSRuntime}.

(** [calculateAge] reads the clock once and gives the age at that reading. *)
Lemma calculateAge_ageAt (birthDate : string) (w : World) :
  calculateAge birthDate w
  = (ageAt (clock (clockReads w)) birthDate,
     mkWorld (state w) (storage w) (S (clockReads w)) (tokensDrawn w)).
Proof.
  unfold calculateAge, bind, newDate, ret, ageAt, wholeYears. f_equal.
  set (tm := getMonth (clock (clockReads w))).
  set (bm := getMonth (dateParse birthDate)).
  replace (tm - bm <? 0) with (tm <? bm)
    by (destruct (Z.ltb_spec tm bm), (Z.ltb_spec (tm - bm) 0); lia).
  replace (tm - bm =? 0) with (tm =? bm)
    by (destruct (Z.eqb_spec tm bm), (Z.eqb_spec (tm - bm) 0); lia).
  destruct ((tm <? bm) || (tm =? bm) && _); lia.
Qed.

Lemma keepIfNotBlank_unsetIfBlank (o : option string) :
  keepIfNotBlank o = unsetIfBlank o.
Proof.
  destruct o as [s|]; cbn; [|reflexivity]. rewrite truthy_trim.
  destruct (JSString.isBlank s); reflexivity.
Qed.

(** The age of the record [addPatient] returns. *)
Lemma addPatient_age (data : NewPatientInput.t) (w : World) :
  Patient.age (fst (addPatient data w))
  = ageAt (clock (S (clockReads w))) (NewPatientInput.birthDate data).
Proof.
  unfold addPatient; run_steps.
  cbn -[calculateAge clinicReducer JSON.stringify].
  rewrite calculateAge_ageAt. reflexivity.
Qed.

(** C4. For every patient input, [addPatient] returns a record whose age is
    the age computed on its own from the birth date of the input at the
    current date (the reading of the clock that the age function takes);
    whose [createdAt] equals [updatedAt]; whose optional contact fields are
    unset where the input had them empty or made of white space, and kept
    otherwise (the phone is kept as it is); and the record is appended at
    the end of the patients, the visits and payments staying as they were.
    The other fields are those of the input. *)
Theorem C4_addPatient_record (data : NewPatientInput.t) (w : World) :
  let patient := fst (addPatient data w) in
  let w' := snd (addPatient data w) in
  Patient.age patient
  = ageAt (clock (S (clockReads w))) (NewPatientInput.birthDate data)
  /\ Patient.createdAt patient = Patient.updatedAt patient
  /\ Patient.createdAt patient = toISOString (clock (clockReads w))
  /\ PatientContact.phone (Patient.contact patient)
     = PatientContact.phone (NewPatientInput.contact data)
  /\ PatientContact.email (Patient.contact patient)
     = unsetIfBlank (PatientContact.email (NewPatientInput.contact data))
  /\ PatientContact.address (Patient.contact patient)
     = unsetIfBlank (PatientContact.address (NewPatientInput.contact data))
  /\ PatientContact.emergencyContactName (Patient.contact patient)
     = unsetIfBlank
         (PatientContact.emergencyContactName (NewPatientInput.contact data))
  /\ PatientContact.emergencyContactPhone (Patient.contact patient)
     = unsetIfBlank
         (PatientContact.emergencyContactPhone (NewPatientInput.contact data))
  /\ ClinicState.patients (state w')
     = (ClinicState.patients (state w) ++ [patient])%list
  /\ ClinicState.visits (state w') = ClinicState.visits (state w)
  /\ ClinicState.payments (state w') = ClinicState.payments (state w)
  /\ (Patient.firstName patient, Patient.lastName patient,
      Patient.gender patient, Patient.birthDate patient,
      Patient.chronicConditions patient, Patient.allergies patient,
      Patient.notes patient)
     = (NewPatientInput.firstName data, NewPatientInput.lastName data,
        NewPatientInput.gender data, NewPatientInput.birthDate data,
        NewPatientInput.chronicConditions data, NewPatientInput.allergies data,
        NewPatientInput.notes data).
Proof.
  unfold addPatient; run_steps.
  cbn -[calculateAge clinicReducer JSON.stringify].
  rewrite calculateAge_ageAt.
  cbn -[JSON.stringify].
  rewrite <- !keepIfNotBlank_unsetIfBlank.
  repeat split; reflexivity.
Qed.

(** The scenario of the specification: Amani Youssef, born 1988-02-14, added
    on 2025-11-01, is 37. *)
Example addPatient_Amani_is_37 :
  Patient.age
    (fst (addPatient (rt := ExampleRuntime.amman)
            (NewPatientInput.mk "Amani" "Youssef" female "1988-02-14"
               (PatientContact.mk "0771234567" (Some "  ") None
                  (Some "Karim Youssef") (Some ""))
               ["Hypertension"] [] None)
            ExampleRuntime.emptyWorld)) = 37
  /\ Patient.contact
       (fst (addPatient (rt := ExampleRuntime.amman)
               (NewPatientInput.mk "Amani" "Youssef" female "1988-02-14"
                  (PatientContact.mk "0771234567" (Some "  ") None
                     (Some "Karim Youssef") (Some ""))
                  ["Hypertension"] [] None)
               ExampleRuntime.emptyWorld))
     = PatientContact.mk "0771234567" None None (Some "Karim Youssef") None.
Proof. split; vm_compute; reflexivity. Qed.

End PatientOperations.

(** ** C5: updating a patient *)

Section PatientUpdate.
Context {rt : JSRuntime}.

(** [updatePatient] with the empty partial, for an id that is found. *)
Lemma updatePatient_empty_found (w : World) (id : string)
  (existing : Patient.t) :
  List.find (fun patient => String.eqb (Patient.id patient) id)
    (ClinicState.patients (state w)) = Some existing ->
  let updated := withUpdatedAt existing (toISOString (clock (clockReads w))) in
  let st' := clinicReducer (state w) (UPDATE_PATIENT updated) in
  updatePatient id UpdatePatientInput.empty w
  = (Some updated,
     mkWorld st' (Some (JSON.stringify st')) (S (clockReads w)) (tokensDrawn w)).
Proof.
  intros Hf. run_lookup updatePatient. rewrite Hf. reflexivity.
Qed.

(** C5. For every existing patient id, [updatePatient] recomputes the age,
    with the age function of [addPatient], when the partial holds a birth
    date (a date string, so not the empty string): the clock is read a
    second time, for the age function, and the age is the one of the new
    birth date at that reading.  When the partial holds no birth date the
    age function is not run (the clock is read once, for the timestamp) and
    the age and the birth date stay.  [updatePatient id {}] changes no field
    of the patient but [updatedAt]; called twice in succession, the second
    call gives the fields of the first, [updatedAt] apart. *)
Theorem C5_updatePatient_age_and_idempotence (w : World) (id : string)
  (existing : Patient.t) :
  List.find (fun patient => String.eqb (Patient.id patient) id)
    (ClinicState.patients (state w)) = Some existing ->
  (forall data, exists updated,
      fst (updatePatient id data w) = Some updated
      /\ (forall b,
             UpdatePatientInput.birthDate data = Some b -> b <> "" ->
             Patient.age updated = ageAt (clock (S (clockReads w))) b
             /\ Patient.age updated
                = Patient.age
                    (fst (addPatient
                            (NewPatientInput.mk "" "" male b
                               (PatientContact.mk "" None None None None)
                               [] [] None)
                            w))
             /\ Patient.birthDate updated = b
             /\ clockReads (snd (updatePatient id data w))
                = S (S (clockReads w)))
      /\ (UpdatePatientInput.birthDate data = None ->
          Patient.age updated = Patient.age existing
          /\ Patient.birthDate updated = Patient.birthDate existing
          /\ clockReads (snd (updatePatient id data w)) = S (clockReads w)))
  /\ (let first := updatePatient id UpdatePatientInput.empty w in
      let second := updatePatient id UpdatePatientInput.empty (snd first) in
      fst first
      = Some (withUpdatedAt existing (toISOString (clock (clockReads w))))
      /\ fst second
         = Some (withUpdatedAt existing
                   (toISOString (clock (S (clockReads w)))))
      /\ (forall p q,
             fst first = Some p -> fst second = Some q ->
             q = withUpdatedAt p (Patient.updatedAt q))).
Proof.
  intros Hf. split.
  - intros data. run_lookup updatePatient. rewrite Hf.
    run_update.
    destruct (UpdatePatientInput.birthDate data) as [b|] eqn:Hb.
    + destruct (JSString.truthy b) eqn:Ht.
      * cbn -[calculateAge JSON.stringify clinicReducer addPatient].
        rewrite calculateAge_ageAt. cbn -[JSON.stringify addPatient].
        eexists. split; [reflexivity|]. cbn -[JSON.stringify addPatient].
        split.
        -- intros b' [= <-] _.
           split; [reflexivity|]. split; [|split; reflexivity].
           now rewrite addPatient_age.
        -- discriminate.
      * cbn -[JSON.stringify].
        eexists. split; [reflexivity|]. cbn -[JSON.stringify]. split.
        -- intros b' [= <-] Hne. apply truthy_not_empty in Hne. congruence.
        -- discriminate.
    + cbn -[JSON.stringify].
      eexists. split; [reflexivity|]. cbn -[JSON.stringify]. split.
      * intros b' [=].
      * intros _. repeat split; reflexivity.
  - cbv zeta.
    rewrite (updatePatient_empty_found w id existing Hf). cbn [fst snd].
    set (updated := withUpdatedAt existing (toISOString (clock (clockReads w)))).
    assert (Hid : Patient.id updated = id)
      by apply (find_id_Some Patient.id id _ _ Hf).
    match goal with
    | |- context [updatePatient id UpdatePatientInput.empty ?w1] =>
        assert (Hf' :
                  List.find
                    (fun patient => String.eqb (Patient.id patient) id)
                    (ClinicState.patients (state w1)) = Some updated)
    end.
    { cbn [state clinicReducer ClinicState.patients]. rewrite <- Hid.
      apply (find_id_replace Patient.id updated _ existing).
      rewrite Hid. exact Hf. }
    rewrite (updatePatient_empty_found _ id updated Hf'). cbn [fst clockReads].
    repeat split.
    intros p q [= <-] [= <-]. reflexivity.
Qed.

End PatientUpdate.

(** C5 at the seed data: a new birth date gives a new age, no birth date
    leaves the age. *)
Lemma C5_update_at_seed :
  (exists updated,
      fst (updatePatient (rt := ExampleRuntime.amman) "pat-amani-youssef"
             (UpdatePatientInput.mk None None None (Some "2000-12-31") None
                None None Absent)
             ExampleRuntime.seedWorld) = Some updated
      /\ Patient.age updated = 24)
  /\ fst (updatePatient (rt := ExampleRuntime.amman) "pat-amani-youssef"
            UpdatePatientInput.empty ExampleRuntime.seedWorld)
     = Some (withUpdatedAt
               (nth 0 (ClinicState.patients (state ExampleRuntime.seedWorld))
                  (Patient.mk "" "" "" male "" 0
                     (PatientContact.mk "" None None None None) [] [] None
                     "" ""))
               (toISOString (JSRuntime := ExampleRuntime.amman)
                  ExampleRuntime.referenceInstant)).
Proof.
  destruct (C5_updatePatient_age_and_idempotence (rt := ExampleRuntime.amman)
              ExampleRuntime.seedWorld "pat-amani-youssef"
              (nth 0 (ClinicState.patients (state ExampleRuntime.seedWorld))
                 (Patient.mk "" "" "" male "" 0
                    (PatientContact.mk "" None None None None) [] [] None
                    "" ""))
              eq_refl) as [Hage [Hfirst _]].
  split.
  - destruct (Hage (UpdatePatientInput.mk None None None (Some "2000-12-31")
                      None None None Absent)) as (updated & Hu & Hb & _).
    exists updated. split; [exact Hu|].
    destruct (Hb "2000-12-31" eq_refl) as (Ha & _); [discriminate|].
    rewrite Ha. vm_compute. reflexivity.
  - exact Hfirst.
Defined.

(** ** C8: the patients of the analytics page *)

Lemma includes_In (l : list string) (x : string) :
  includes l x = true <-> In x l.
Proof.
  unfold includes. rewrite existsb_exists. split.
  - intros (y & Hy & E). apply String.eqb_eq in E. now subst.
  - intros H. exists x. split; [exact H | apply String.eqb_refl].
Qed.

Lemma nonEmpty_true {A} (l : list A) : nonEmpty l = true <-> l <> [].
Proof. destruct l; cbn; split; congruence. Qed.

(** One visit more in the map: it goes at the end of the visits of its
    patient, the other entries read as before. *)
Lemma groupVisit_lookup (grouped : gmap string (list Visit.t))
  (visit : Visit.t) (k : string) :
  default [] (AnalyticsPage.groupVisit grouped visit !! k)
  = (default [] (grouped !! k)
     ++ if String.eqb (Visit.patientId visit) k then [visit] else [])%list.
Proof.
  unfold AnalyticsPage.groupVisit. cbv zeta.
  destruct (String.eqb_spec (Visit.patientId visit) k) as [->|Hne].
  - destruct (grouped !! k) as [l|] eqn:E.
    + rewrite E. now rewrite lookup_insert_eq.
    + rewrite lookup_insert_eq. now rewrite lookup_insert_eq.
  - destruct (grouped !! Visit.patientId visit) as [l|] eqn:E.
    + rewrite E. rewrite lookup_insert_ne by exact Hne.
      now rewrite app_nil_r.
    + rewrite lookup_insert_eq.
      rewrite !lookup_insert_ne by exact Hne. now rewrite app_nil_r.
Qed.

Lemma fold_groupVisit_lookup (visits : list Visit.t)
  (grouped : gmap string (list Visit.t)) (k : string) :
  default [] (fold_left AnalyticsPage.groupVisit visits grouped !! k)
  = (default [] (grouped !! k)
     ++ List.filter (fun v => String.eqb (Visit.patientId v) k) visits)%list.
Proof.
  revert grouped. induction visits as [|v r IH]; intros grouped; cbn.
  - now rewrite app_nil_r.
  - rewrite IH, groupVisit_lookup, <- app_assoc. f_equal.
    destruct (String.eqb (Visit.patientId v) k); reflexivity.
Qed.

(** The entry of a patient in the map: the visits that reference the
    patient, in the order of the visits. *)
Lemma visitsGroupedByPatient_lookup (visits : list Visit.t) (k : string) :
  default [] (AnalyticsPage.visitsGroupedByPatient visits !! k)
  = List.filter (fun v => String.eqb (Visit.patientId v) k) visits.
Proof.
  unfold AnalyticsPage.visitsGroupedByPatient.
  rewrite fold_groupVisit_lookup. now rewrite lookup_empty.
Qed.

Lemma keepPatient_true (grouped : gmap string (list Visit.t))
  (selectedGenders : list string) (safeMin safeMax : Z)
  (selectedChronicConditions selectedDiseases : list string)
  (patient : Patient.t) :
  AnalyticsPage.keepPatient grouped selectedGenders safeMin safeMax
    selectedChronicConditions selectedDiseases patient = true
  <->
  (nonEmpty selectedGenders = true ->
   includes selectedGenders (genderString (Patient.gender patient)) = true)
  /\ safeMin <= Patient.age patient <= safeMax
  /\ (nonEmpty selectedChronicConditions = true ->
      forallb (fun condition =>
                 includes (Patient.chronicConditions patient) condition)
        selectedChronicConditions = true)
  /\ (nonEmpty selectedDiseases = true ->
      existsb (fun visit =>
                 existsb (fun diagnosis => includes selectedDiseases diagnosis)
                   (Visit.diagnoses visit))
        (default [] (grouped !! Patient.id patient)) = true).
Proof.
  unfold AnalyticsPage.keepPatient. rewrite Z.gtb_ltb.
  destruct (nonEmpty selectedGenders);
    destruct (includes selectedGenders _);
    destruct (Z.ltb_spec (Patient.age patient) safeMin) as [Hlo|Hlo];
    destruct (Z.ltb_spec safeMax (Patient.age patient)) as [Hhi|Hhi];
    destruct (nonEmpty selectedChronicConditions);
    destruct (forallb _ selectedChronicConditions);
    destruct (nonEmpty selectedDiseases);
    destruct (existsb _ (default [] _));
    cbn; split; intros Hk; try discriminate; try reflexivity;
    try (repeat split; solve [ auto | lia ]);
    destruct Hk as (K1 & K2 & K3 & K4);
    first [ lia
          | specialize (K1 eq_refl); discriminate
          | specialize (K3 eq_refl); discriminate
          | specialize (K4 eq_refl); discriminate ].
Qed.

(** C8. For every list of patients and every selection of filters, a
    patient is in the filtered subset exactly when it is one of the patients
    and passes every selected facet: its gender is among the selected
    genders, when any is selected; its age is within
    [max 0 ageMin .. max (max 0 ageMin) ageMax], bounds included; its chronic
    conditions contain all the selected chronic conditions; and, when
    diagnoses are selected, some visit that references the patient has some
    selected diagnosis. *)
Theorem C8_filteredPatients_membership (patients : list Patient.t)
  (visits : list Visit.t) (selectedGenders : list string) (ageMin ageMax : Z)
  (selectedChronicConditions selectedDiseases : list string)
  (patient : Patient.t) :
  In patient
    (AnalyticsPage.filteredPatients patients visits selectedGenders ageMin
       ageMax selectedChronicConditions selectedDiseases)
  <->
  In patient patients
  /\ (selectedGenders <> [] ->
      In (genderString (Patient.gender patient)) selectedGenders)
  /\ Z.max 0 ageMin <= Patient.age patient <= Z.max (Z.max 0 ageMin) ageMax
  /\ (forall condition,
         In condition selectedChronicConditions ->
         In condition (Patient.chronicConditions patient))
  /\ (selectedDiseases <> [] ->
      exists visit diagnosis,
        In visit visits
        /\ Visit.patientId visit = Patient.id patient
        /\ In diagnosis (Visit.diagnoses visit)
        /\ In diagnosis selectedDiseases).
Proof.
  unfold AnalyticsPage.filteredPatients. cbv zeta.
  rewrite filter_In, keepPatient_true, visitsGroupedByPatient_lookup.
  rewrite !nonEmpty_true, includes_In.
  assert (Hcc :
            (selectedChronicConditions <> [] ->
             forallb (fun condition =>
                        includes (Patient.chronicConditions patient) condition)
               selectedChronicConditions = true)
            <-> (forall condition,
                    In condition selectedChronicConditions ->
                    In condition (Patient.chronicConditions patient))).
  { rewrite forallb_forall. split.
    - intros H c Hc. apply includes_In, H; [|exact Hc].
      intros ->. destruct Hc.
    - intros H _ c Hc. apply includes_In, H, Hc. }
  assert (Hd :
            existsb (fun visit =>
                       existsb
                         (fun diagnosis => includes selectedDiseases diagnosis)
                         (Visit.diagnoses visit))
              (List.filter
                 (fun v => String.eqb (Visit.patientId v) (Patient.id patient))
                 visits) = true
            <-> exists visit diagnosis,
                In visit visits
                /\ Visit.patientId visit = Patient.id patient
                /\ In diagnosis (Visit.diagnoses visit)
                /\ In diagnosis selectedDiseases).
  { rewrite existsb_exists. split.
    - intros (v & Hv & He). apply filter_In in Hv as [Hv Hid].
      apply existsb_exists in He as (d & Hd1 & Hd2).
      exists v, d. repeat split; auto.
      + now apply String.eqb_eq.
      + now apply includes_In.
    - intros (v & d & Hv & Hid & Hd1 & Hd2). exists v. split.
      + apply filter_In. split; [exact Hv | now apply String.eqb_eq].
      + apply existsb_exists. exists d. split; [exact Hd1|].
        now apply includes_In. }
  rewrite Hcc, Hd. reflexivity.
Qed.

(** ** C9: visits without a follow-up date *)

Lemma hd_error_In {A} (l : list A) x : hd_error l = Some x -> In x l.
Proof. destruct l; cbn; [discriminate|]. intros [= ->]. now left. Qed.

Lemma In_firstn {A} (n : nat) (l : list A) x : In x (firstn n l) -> In x l.
Proof.
  revert l. induction n as [|n IH]; intros [|y r]; cbn; try tauto.
  intros [H|H]; [left; exact H | right; apply IH, H].
Qed.

Lemma fst_bind_ret {A B} (m : Eff A) (g : A -> B) (w : World) :
  fst (bind m (fun x => ret (g x)) w) = g (fst (m w)).
Proof. unfold bind, ret. now destruct (m w). Qed.

(** What a filter with effects keeps was in the list and passed the test in
    some world. *)
Lemma filterM_In {A} (f : A -> Eff bool) (l : list A) (w : World) x :
  In x (fst (filterM f l w)) -> In x l /\ exists w0, fst (f x w0) = true.
Proof.
  revert w. induction l as [|y r IH]; intros w; cbn; [tauto|].
  unfold bind, ret. destruct (f y w) as [b w1] eqn:Ey.
  specialize (IH w1). destruct (filterM f r w1) as [ys w2]. cbn in *.
  destruct b; cbn.
  - intros [<-|H].
    + split; [now left|]. exists w. now rewrite Ey.
    + destruct (IH H) as [H1 H2]. split; [now right | exact H2].
  - intros H. destruct (IH H) as [H1 H2]. split; [now right | exact H2].
Qed.

(** Each result of a map with effects is the result for some element, in
    some world. *)
Lemma mapM_In {A B} (f : A -> Eff B) (l : list A) (w : World) y :
  In y (fst (mapM f l w)) -> exists x w0, In x l /\ y = fst (f x w0).
Proof.
  revert w. induction l as [|x r IH]; intros w; cbn; [tauto|].
  unfold bind, ret. destruct (f x w) as [b w1] eqn:Ex.
  specialize (IH w1). destruct (mapM f r w1) as [ys w2]. cbn in *.
  intros [<-|H].
  - exists x, w. split; [now left | now rewrite Ex].
  - destruct (IH H) as (x' & w0 & H1 & H2). exists x', w0.
    split; [now right | exact H2].
Qed.

(** The status of a visit without a date is the status of no bucket. *)
Lemma no_date_is_no_bucket b d :
  bucketStatus b d <> mkStatus "No date set" muted.
Proof. destruct b; cbn; intros H; discriminate. Qed.

Section NoFollowUpDate.
Context {rt : JSRuntime}.

(** The entries of the follow-up tab are made from visits that have a date,
    and carry that date. *)
Lemma upcomingFollowUps_dated patients visits (w : World) entry :
  In entry (fst (PatientsPage.upcomingFollowUps patients visits w)) ->
  In (PatientsPage.visit entry) visits
  /\ Visit.followUpDate (PatientsPage.visit entry)
     = Some (PatientsPage.followUpDate entry)
  /\ PatientsPage.followUpDate entry <> "".
Proof.
  unfold PatientsPage.upcomingFollowUps, bind, newDate, ret. cbn [fst].
  rewrite In_sortBy, filter_In, in_map_iff.
  intros [(v & <- & Hv) _]. apply filter_In in Hv as [Hin Ht].
  cbn [PatientsPage.visit PatientsPage.followUpDate].
  destruct (Visit.followUpDate v) as [d|]; [|discriminate].
  cbn in *. repeat split; auto. now apply truthy_not_empty.
Qed.

Lemma home_upcomingFollowUps_dated visits (w : World) v :
  In v (fst (HomePage.upcomingFollowUps visits w)) ->
  In v visits /\ JSString.truthyOpt (Visit.followUpDate v) = true.
Proof.
  unfold HomePage.upcomingFollowUps. rewrite fst_bind_ret.
  intros H. apply In_firstn, In_sortBy in H.
  apply filterM_In in H as [Hin (w0 & Hw0)]. split; [exact Hin|].
  destruct (Visit.followUpDate v) as [d|]; cbn in *; [|discriminate].
  destruct (JSString.truthy d); [reflexivity | discriminate].
Qed.

Lemma detail_upcomingFollowUp_dated patientVisits (w : World) entry :
  fst (PatientDetailPage.upcomingFollowUp patientVisits w) = Some entry ->
  JSString.truthyOpt (Visit.followUpDate (PatientDetailPage.visit entry))
  = true.
Proof.
  unfold PatientDetailPage.upcomingFollowUp, bind, newDate, ret. cbn [fst].
  intros H. apply hd_error_In in H.
  apply In_sortBy, filter_In in H as [H _].
  apply in_map_iff in H as (v & <- & Hv). apply filter_In in Hv as [_ Ht].
  exact Ht.
Qed.

(** C9. A visit with no follow-up date (the field is unset, or empty) is in
    no follow-up view: it is not among the visits of the follow-up tab of the
    patients page, nor among the upcoming follow-ups of the home page, nor
    the upcoming follow-up of the page of its patient.  It is
    given no urgency: for its date the status function returns "No date set"
    without looking at the clock, which is the status of no bucket, and every
    status that the follow-up tab computes is the one of a visit that has a
    date, and is the status of a bucket. *)
Theorem C9_visit_without_follow_up_date_is_excluded
  (patients : list Patient.t) (visits : list Visit.t) (w : World)
  (v : Visit.t) :
  JSString.truthyOpt (Visit.followUpDate v) = false ->
  ~ In v (map PatientsPage.visit
            (fst (PatientsPage.upcomingFollowUps patients visits w)))
  /\ ~ In v (fst (HomePage.upcomingFollowUps visits w))
  /\ (forall patientId entry,
         fst (PatientDetailPage.upcomingFollowUp
                (PatientDetailPage.patientVisits visits patientId) w)
         = Some entry ->
         PatientDetailPage.visit entry <> v)
  /\ PatientsPage.getFollowUpStatus (Visit.followUpDate v) w
     = (mkStatus "No date set" muted, w)
  /\ (forall b d, bucketStatus b d <> mkStatus "No date set" muted)
  /\ (forall w1 entry status,
         In (entry, status)
           (fst (PatientsPage.followUpStatuses
                   (fst (PatientsPage.upcomingFollowUps patients visits w))
                   w1)) ->
         PatientsPage.visit entry <> v
         /\ exists b d, status = bucketStatus b d).
Proof.
  intros Hno. split; [|split; [|split; [|split; [|split]]]].
  - rewrite in_map_iff. intros (entry & <- & He).
    apply upcomingFollowUps_dated in He as (_ & Hd & Hne).
    rewrite Hd in Hno. cbn in Hno. apply truthy_not_empty in Hne. congruence.
  - intros Hv. apply home_upcomingFollowUps_dated in Hv as [_ Ht]. congruence.
  - intros patientId entry He Hv.
    apply detail_upcomingFollowUp_dated in He. rewrite Hv in He. congruence.
  - unfold PatientsPage.getFollowUpStatus.
    destruct (Visit.followUpDate v) as [d|]; [|reflexivity].
    cbn in Hno. now rewrite Hno.
  - exact no_date_is_no_bucket.
  - intros w1 entry status Hin. unfold PatientsPage.followUpStatuses in Hin.
    apply mapM_In in Hin as (e & w0 & He & Heq).
    apply upcomingFollowUps_dated in He as (_ & Hd & Hne).
    unfold bind, ret in Heq.
    pose proof (getFollowUpStatus_dated (PatientsPage.followUpDate e) w0 Hne)
      as Hs. cbv zeta in Hs.
    destruct (PatientsPage.getFollowUpStatus _ w0) as [s w2].
    cbn in Hs, Heq. injection Heq as -> ->. split.
    + intros Hv. rewrite Hv in Hd. rewrite Hd in Hno. cbn in Hno.
      apply truthy_not_empty in Hne. congruence.
    + rewrite Hs. eauto.
Qed.

End NoFollowUpDate.

(** C9 at the seed data, with one more visit that has no follow-up date. *)
Lemma C9_dateless_visit_at_seed :
  ~ In (Visit.mk "visit-x" "pat-omar-salem" "2025-10-30" "Check" [] [] None
          None None VisitVitals.empty None "" "")
      (fst (HomePage.upcomingFollowUps (rt := ExampleRuntime.amman)
              (Visit.mk "visit-x" "pat-omar-salem" "2025-10-30" "Check" [] []
                 None None None VisitVitals.empty None "" ""
               :: ClinicState.visits (state ExampleRuntime.seedWorld))
              ExampleRuntime.seedWorld)).
Proof.
  apply (C9_visit_without_follow_up_date_is_excluded
           (rt := ExampleRuntime.amman)
           (ClinicState.patients (state ExampleRuntime.seedWorld))
           (Visit.mk "visit-x" "pat-omar-salem" "2025-10-30" "Check" [] []
              None None None VisitVitals.empty None "" ""
            :: ClinicState.visits (state ExampleRuntime.seedWorld))
           ExampleRuntime.seedWorld
           (Visit.mk "visit-x" "pat-omar-salem" "2025-10-30" "Check" [] [] None
              None None VisitVitals.empty None "" "")).
  reflexivity.
Defined.

(** ** C7: the stored document and the load path *)

(** *** Reading back what was written *)

Lemma traverse_map {A B} (f : B -> option A) (g : A -> B) (l : list A) :
  (forall x, f (g x) = Some x) -> JSON.traverse f (map g l) = Some l.
Proof.
  intros H. induction l as [|x r IH]; cbn; [reflexivity|].
  now rewrite H, IH.
Qed.

Lemma strs_strings (l : list string) :
  JSON.traverse JSON.asString (map JStr l) = Some l.
Proof. now apply traverse_map. Qed.

Lemma toGender_genderString (g : Gender) :
  JSON.toGender (genderString g) = Some g.
Proof. now destruct g. Qed.

Lemma toMethod_methodString (m : PaymentMethod) :
  JSON.toMethod (methodString m) = Some m.
Proof. now destruct m. Qed.

Lemma toContact_ofContact (c : PatientContact.t) :
  JSON.toContact (JSON.ofContact c) = Some c.
Proof. destruct c as [ph [e|] [a|] [n|] [p|]]; reflexivity. Qed.

Lemma toVitals_ofVitals (v : VisitVitals.t) :
  JSON.toVitals (JSON.ofVitals v) = Some v.
Proof. destruct v as [[b|] [h|] [t|] [o|]]; reflexivity. Qed.

Lemma toPatient_ofPatient (p : Patient.t) :
  JSON.toPatient (JSON.ofPatient p) = Some p.
Proof.
  destruct p as [id fn ln g bd age c cc al [n|] ca ua];
    unfold JSON.toPatient, JSON.ofPatient, JSON.strs, JSON.strings;
    cbn -[JSON.toContact JSON.ofContact JSON.traverse JSON.toGender
          genderString];
    rewrite toGender_genderString; cbn -[JSON.toContact JSON.ofContact
                                         JSON.traverse];
    rewrite toContact_ofContact; cbn -[JSON.traverse];
    rewrite !strs_strings; reflexivity.
Qed.

Lemma toVisit_ofVisit (v : Visit.t) :
  JSON.toVisit (JSON.ofVisit v) = Some v.
Proof.
  destruct v as [id pid vd r co di [n|] [tp|] [fu|] vi [ap|] ca ua];
    unfold JSON.toVisit, JSON.ofVisit, JSON.strs, JSON.strings;
    cbn -[JSON.toVitals JSON.ofVitals JSON.traverse];
    rewrite !strs_strings; cbn -[JSON.toVitals JSON.ofVitals];
    rewrite toVitals_ofVitals; reflexivity.
Qed.

Lemma toPayment_ofPayment (p : Payment.t) :
  JSON.toPayment (JSON.ofPayment p) = Some p.
Proof.
  destruct p as [id pid [vid|] due pd m [inv|] ra ua [n|]];
    unfold JSON.toPayment, JSON.ofPayment;
    cbn -[JSON.toMethod methodString];
    rewrite toMethod_methodString; reflexivity.
Qed.

(** [JSON.parse (JSON.stringify state)] gives the state back. *)
Lemma parse_stringify (s : ClinicState.t) :
  JSON.parse (JSON.stringify s) = Some s.
Proof.
  destruct s as [ps vs ys]. unfold JSON.parse, JSON.stringify.
  cbn -[JSON.traverse].
  rewrite (traverse_map _ _ ps toPatient_ofPatient).
  rewrite (traverse_map _ _ vs toVisit_ofVisit).
  rewrite (traverse_map _ _ ys toPayment_ofPayment).
  reflexivity.
Qed.

(** *** The load path *)

Section Reload.
Context {rt : JSRuntime}.

(** The pass of [loadInitialState] over the parsed patients: the [i]-th
    patient is rebuilt at the [i]-th next reading of the clock. *)
Lemma reload_patients (l : list Patient.t) (w : World) :
  mapM (fun patient =>
          age <- calculateAge (Patient.birthDate patient) ;;
          ret (Patient.mk
                 (Patient.id patient) (Patient.firstName patient)
                 (Patient.lastName patient) (Patient.gender patient)
                 (Patient.birthDate patient) age
                 (sanitizeContact (Patient.contact patient))
                 (Patient.chronicConditions patient)
                 (Patient.allergies patient) (Patient.notes patient)
                 (Patient.createdAt patient) (Patient.updatedAt patient)))
    l w
  = (imap (fun i p => reloadedPatient (clock (clockReads w + i)%nat) p) l,
     mkWorld (state w) (storage w) (clockReads w + length l)%nat
       (tokensDrawn w)).
Proof.
  revert w. induction l as [|p r IH]; intros w.
  - cbn. unfold ret. destruct w. cbn. now rewrite Nat.add_0_r.
  - cbn [mapM]. unfold bind at 1. unfold bind at 1.
    rewrite calculateAge_ageAt. unfold ret at 1. unfold bind at 1.
    rewrite IH. unfold ret. cbn [clockReads state storage tokensDrawn length].
    f_equal.
    + cbn [imap]. rewrite Nat.add_0_r. f_equal.
      apply imap_ext. intros i x _. cbn. now rewrite Nat.add_succ_r.
    + f_equal. lia.
Qed.

(** What [loadInitialState] ends with for the document of a state. *)
Lemma loadInitialState_stored (seed s : ClinicState.t) (w : World) :
  storage w = Some (JSON.stringify s) ->
  loadInitialState seed w
  = Loaded
      (ClinicState.mk
         (imap (fun i p => reloadedPatient (clock (clockReads w + i)%nat) p)
            (ClinicState.patients s))
         (ClinicState.visits s) (ClinicState.payments s))
      (mkWorld (state w) (storage w)
         (clockReads w + length (ClinicState.patients s))%nat (tokensDrawn w)).
Proof.
  intros Hs. unfold loadInitialState. rewrite Hs, parse_stringify.
  unfold bind at 1. rewrite reload_patients. unfold ret.
  cbn [state storage clockReads tokensDrawn]. now rewrite Hs.
Qed.

Lemma keepIfNotBlank_idem (o : option string) :
  keepIfNotBlank (keepIfNotBlank o) = keepIfNotBlank o.
Proof.
  destruct o as [s|]; cbn; [|reflexivity].
  destruct (JSString.truthy (JSString.trim s)) eqn:E; cbn; [|reflexivity].
  now rewrite E.
Qed.

Lemma sanitizeContact_idem (c : PatientContact.t) :
  sanitizeContact (sanitizeContact c) = sanitizeContact c.
Proof.
  unfold sanitizeContact. cbn. now rewrite !keepIfNotBlank_idem.
Qed.

End Reload.

(** *** The states of the store *)

Section Sessions.
Context {rt : JSRuntime}.

Lemma contactsSanitized_reducer (st : ClinicState.t) (action : ClinicAction) :
  contactsSanitized st ->
  match action with
  | ADD_PATIENT p | UPDATE_PATIENT p =>
      sanitizeContact (Patient.contact p) = Patient.contact p
  | _ => True
  end ->
  contactsSanitized (clinicReducer st action).
Proof.
  unfold contactsSanitized. intros Hst Hp.
  destruct action as [p|p|v|v|y|y]; cbn; try exact Hst.
  - apply Forall_app. split; [exact Hst | now constructor].
  - rewrite List.Forall_forall in *. intros q Hq.
    apply in_map_iff in Hq as (q0 & <- & Hq0).
    destruct (String.eqb (Patient.id q0) (Patient.id p)); auto.
Qed.

(** A call leaves the storage entry in step with the state, and no blank
    optional contact field comes into the state. *)
Lemma runCall_invariant (c : StoreCall) (w : World) :
  persisted w /\ contactsSanitized (state w) ->
  persisted (runCall c w) /\ contactsSanitized (state (runCall c w)).
Proof.
  intros [Hp Hc]. destruct c as [data|id data|data|id data|data|id data];
    cbn [runCall].
  - unfold addPatient; run_steps.
    cbn -[calculateAge clinicReducer JSON.stringify].
    rewrite calculateAge_ageAt. cbn -[clinicReducer JSON.stringify].
    split; [reflexivity|].
    apply contactsSanitized_reducer; [exact Hc|].
    apply sanitizeContact_idem.
  - run_lookup updatePatient.
    destruct (List.find _ (ClinicState.patients (state w))) as [existing|]
      eqn:Hf; [|now split].
    assert (Hex : sanitizeContact (Patient.contact existing)
                  = Patient.contact existing).
    { unfold contactsSanitized in Hc. rewrite List.Forall_forall in Hc.
      apply Hc. eapply List.find_some. exact Hf. }
    run_update.
    destruct (UpdatePatientInput.birthDate data) as [b|];
      [destruct (JSString.truthy b)|];
      cbn -[calculateAge clinicReducer JSON.stringify];
      try rewrite calculateAge_ageAt;
      cbn -[clinicReducer JSON.stringify];
      (split; [reflexivity|]);
      (apply contactsSanitized_reducer; [exact Hc|]);
      cbn [Patient.contact];
      (destruct (UpdatePatientInput.contact data);
       [apply sanitizeContact_idem | exact Hex]).
  - unfold addVisit; run_steps.
    cbn -[clinicReducer JSON.stringify]. split; [reflexivity|].
    now apply contactsSanitized_reducer.
  - run_lookup updateVisit.
    destruct (List.find _ (ClinicState.visits (state w))); [|now split].
    run_update.
    cbn -[clinicReducer JSON.stringify]. split; [reflexivity|].
    now apply contactsSanitized_reducer.
  - unfold addPayment; run_steps.
    cbn -[clinicReducer JSON.stringify]. split; [reflexivity|].
    now apply contactsSanitized_reducer.
  - run_lookup updatePayment.
    destruct (List.find _ (ClinicState.payments (state w))); [|now split].
    run_update.
    cbn -[clinicReducer JSON.stringify]. split; [reflexivity|].
    now apply contactsSanitized_reducer.
Qed.

Lemma contactsSanitized_seed (w0 : World) :
  contactsSanitized (fst (INITIAL_CLINIC_STATE w0)).
Proof.
  unfold INITIAL_CLINIC_STATE, patientsSeed, bind at 1.
  unfold bind at 1. rewrite calculateAge_ageAt.
  unfold nowIso, bind, newDate, ret.
  cbn -[calculateAge ageAt]. rewrite calculateAge_ageAt.
  cbn -[calculateAge ageAt]. rewrite calculateAge_ageAt.
  cbn -[calculateAge ageAt].
  repeat constructor.
Qed.

Lemma contactsSanitized_load (seed st : ClinicState.t) (w w' : World) :
  contactsSanitized seed ->
  loadInitialState seed w = Loaded st w' ->
  contactsSanitized st.
Proof.
  intros Hseed. unfold loadInitialState.
  destruct (storage w) as [stored|]; [|intros [= <- _]; exact Hseed].
  destruct (JSON.parse stored) as [parsed|]; [|discriminate].
  unfold bind at 1. rewrite reload_patients. unfold ret.
  intros [= <- _].
  unfold contactsSanitized. cbn [ClinicState.patients].
  apply List.Forall_forall. intros p Hp.
  apply list_elem_of_In, list_elem_of_lookup in Hp as (i & Hi).
  rewrite list_lookup_imap in Hi.
  destruct (ClinicState.patients parsed !! i) as [q|]; [|discriminate].
  cbn in Hi. injection Hi as <-. cbn. apply sanitizeContact_idem.
Qed.

(** In every world of a session the storage entry is the document of the
    state, and no optional contact field of the state is blank. *)
Lemma reachable_invariant (w : World) :
  reachable w -> persisted w /\ contactsSanitized (state w).
Proof.
  induction 1 as [w0 w Hm|w c _ IH].
  - unfold ClinicProvider in Hm.
    destruct (loadInitialState _ _) as [st w1|] eqn:El; [|discriminate].
    injection Hm as <-. split; [reflexivity|]. cbn [state].
    eapply contactsSanitized_load; [apply contactsSanitized_seed | exact El].
  - now apply runCall_invariant.
Qed.

(** So, in a session, loading the stored document gives the state back,
    the ages apart. *)
Lemma reachable_reload (seed : ClinicState.t) (w : World) :
  reachable w ->
  loadInitialState seed w
  = Loaded
      (ClinicState.mk
         (imap (fun i p =>
                  withAge p
                    (ageAt (clock (clockReads w + i)%nat)
                       (Patient.birthDate p)))
            (ClinicState.patients (state w)))
         (ClinicState.visits (state w)) (ClinicState.payments (state w)))
      (mkWorld (state w) (storage w)
         (clockReads w + length (ClinicState.patients (state w)))%nat
         (tokensDrawn w)).
Proof.
  intros Hr. destruct (reachable_invariant w Hr) as [Hp Hc].
  rewrite (loadInitialState_stored seed (state w) w Hp). f_equal. f_equal.
  apply imap_ext. intros i p Hi. unfold reloadedPatient.
  assert (Hin : In p (ClinicState.patients (state w))).
  { apply list_elem_of_In. eapply list_elem_of_lookup_2. exact Hi. }
  unfold contactsSanitized in Hc. rewrite List.Forall_forall in Hc.
  rewrite (Hc p Hin). now destruct p.
Qed.

(** C7. For every clinic state that the store holds (the state of any world
    of a session: the provider mounted on the seed data, then any calls of
    the store), the storage entry is the document of the state, reading the
    document gives the state back, and loading the entry gives an equivalent
    state: the same visits and payments, and the same patients in the same
    order, each with its age computed anew from its birth date by the age
    function (at the reading of the clock taken for it) and with every other
    field equal to the one that was written. *)
Theorem C7_stored_state_reloads (seed : ClinicState.t) (w : World) :
  reachable w ->
  let s := state w in
  storage w = Some (JSON.stringify s)
  /\ JSON.parse (JSON.stringify s) = Some s
  /\ exists s' w',
       loadInitialState seed w = Loaded s' w'
       /\ ClinicState.visits s' = ClinicState.visits s
       /\ ClinicState.payments s' = ClinicState.payments s
       /\ ClinicState.patients s'
          = imap (fun i p =>
                    withAge p
                      (ageAt (clock (clockReads w + i)%nat)
                         (Patient.birthDate p)))
              (ClinicState.patients s)
       /\ length (ClinicState.patients s') = length (ClinicState.patients s)
       /\ forall i p,
            ClinicState.patients s !! i = Some p ->
            exists p',
              ClinicState.patients s' !! i = Some p'
              /\ Patient.age p'
                 = fst (calculateAge (Patient.birthDate p)
                          (mkWorld (state w) (storage w)
                             (clockReads w + i)%nat (tokensDrawn w)))
              /\ withAge p' (Patient.age p) = p.
Proof.
  intros Hr s. subst s.
  destruct (reachable_invariant w Hr) as [Hp _].
  split; [exact Hp|]. split; [apply parse_stringify|].
  eexists. eexists. split; [apply (reachable_reload seed w Hr)|].
  cbn [ClinicState.patients ClinicState.visits ClinicState.payments].
  split; [reflexivity|]. split; [reflexivity|]. split; [reflexivity|].
  split; [apply length_imap|].
  intros i p Hi.
  exists (withAge p
            (ageAt (clock (clockReads w + i)%nat) (Patient.birthDate p))).
  split; [now rewrite list_lookup_imap, Hi|].
  rewrite calculateAge_ageAt. cbn [fst clockReads].
  split; [reflexivity | now destruct p].
Qed.

End Sessions.

(** C7 at the seed data: the stored document of the mounted provider loads
    back to the seed visits and payments, and to the ages 37, 50 and 30. *)
Lemma C7_reload_at_seed :
  exists s' w',
    loadInitialState (rt := ExampleRuntime.amman) ExampleRuntime.emptyState
      ExampleRuntime.seedWorld = Loaded s' w'
    /\ ClinicState.visits s' = ClinicState.visits (state ExampleRuntime.seedWorld)
    /\ map Patient.age (ClinicState.patients s') = [37; 50; 30].
Proof.
  assert (Hm : ClinicProvider (rt := ExampleRuntime.amman)
                 (fst (INITIAL_CLINIC_STATE (rt := ExampleRuntime.amman)
                         ExampleRuntime.emptyWorld))
                 (snd (INITIAL_CLINIC_STATE (rt := ExampleRuntime.amman)
                         ExampleRuntime.emptyWorld))
               = Some ExampleRuntime.seedWorld)
    by (vm_compute; reflexivity).
  destruct (C7_stored_state_reloads (rt := ExampleRuntime.amman)
              ExampleRuntime.emptyState ExampleRuntime.seedWorld
              (reachable_mount _ _ Hm))
    as (_ & _ & s' & w' & Hl & Hv & _ & Hps & _).
  exists s', w'. split; [exact Hl|]. split; [exact Hv|].
  rewrite Hps. vm_compute. reflexivity.
Defined.

(** ** The scenarios of the specification, evaluated *)

(** The seed payments: 1200 due and 800 paid is partial with 400 left; 3500
    due and paid is paid with nothing left. *)
Example seed_payment_rows :
  map (fun row => (Payment.id (PaymentsPage.payment row),
                   PaymentsPage.balance row, PaymentsPage.status row))
    (PaymentsPage.paymentRows (rt := ExampleRuntime.amman) [] [] paymentsSeed)
  = [("pay-amani-1", 400, partial); ("pay-omar-1", 0, paid);
     ("pay-laila-1", 250, partial)].
Proof. vm_compute. reflexivity. Qed.

(** 650 due and nothing paid is pending, with 650 left. *)
Example pending_payment :
  AnalyticsPage.getPaymentStatus 650 0 = pending /\ Z.max (650 - 0) 0 = 650.
Proof. split; reflexivity. Qed.

(** On 2025-11-01 the seed follow-ups of 2025-11-10, 2025-12-01 and
    2025-12-20 are all upcoming, the nearest first, and are 9, 30 and 49 days
    away. *)
Example seed_follow_ups :
  map (fun entry_status =>
         (Visit.id (PatientsPage.visit (fst entry_status)),
          label (snd entry_status)))
    (fst (PatientsPage.followUpStatuses (rt := ExampleRuntime.amman)
            (fst (PatientsPage.upcomingFollowUps (rt := ExampleRuntime.amman)
                    (ClinicState.patients (state ExampleRuntime.seedWorld))
                    (ClinicState.visits (state ExampleRuntime.seedWorld))
                    ExampleRuntime.seedWorld))
            ExampleRuntime.seedWorld))
  = [("visit-amani-1", "In 9 days"); ("visit-omar-1", "In 30 days");
     ("visit-laila-1", "In 49 days")].
Proof. vm_compute. reflexivity. Qed.

(** The boundaries of the buckets. *)
Example bucket_boundaries :
  map bucketOfDelta [-1; 0; 1; 3; 4; 7; 8; 9]
  = [Overdue; DueToday; DueSoon; DueSoon; NextSevenDays; NextSevenDays;
     InNDays; InNDays].
Proof. reflexivity. Qed.

(** The analytics filter on the seed data: the women between 30 and 40 with
    hypertension among their chronic conditions and a visit diagnosed with
    hypertension. *)
Example seed_filtered_patients :
  map Patient.id
    (AnalyticsPage.filteredPatients
       (ClinicState.patients (state ExampleRuntime.seedWorld))
       (ClinicState.visits (state ExampleRuntime.seedWorld))
       ["female"] 30 40 ["Hypertension"] ["Hypertension"])
  = ["pat-amani-youssef"].
Proof. vm_compute. reflexivity. Qed.

(* ===================================================================== *)
(** * More properties of the store *)
(* ===================================================================== *)

(** ** What a call does to the state *)

Section CallEffects.
Context {rt : JSRuntime}.

Lemma addPatient_state (data : NewPatientInput.t) (w : World) :
  state (snd (addPatient data w))
  = clinicReducer (state w) (ADD_PATIENT (fst (addPatient data w))).
Proof.
  unfold addPatient; run_steps.
  cbn -[calculateAge clinicReducer JSON.stringify].
  rewrite calculateAge_ageAt. reflexivity.
Qed.

Lemma addVisit_state (data : NewVisitInput.t) (w : World) :
  state (snd (addVisit data w))
  = clinicReducer (state w) (ADD_VISIT (fst (addVisit data w))).
Proof. reflexivity. Qed.

Lemma addPayment_state (data : NewPaymentInput.t) (w : World) :
  state (snd (addPayment data w))
  = clinicReducer (state w) (ADD_PAYMENT (fst (addPayment data w))).
Proof. reflexivity. Qed.

(** An update of an id that is found dispatches the record it returns; the
    record keeps the id and the creation stamp of the one found. *)
Lemma updatePatient_found (w : World) (id : string)
  (data : UpdatePatientInput.t) (existing : Patient.t) :
  List.find (fun patient => String.eqb (Patient.id patient) id)
    (ClinicState.patients (state w)) = Some existing ->
  exists updated,
    fst (updatePatient id data w) = Some updated
    /\ state (snd (updatePatient id data w))
       = clinicReducer (state w) (UPDATE_PATIENT updated)
    /\ Patient.id updated = Patient.id existing
    /\ Patient.createdAt updated = Patient.createdAt existing
    /\ Patient.updatedAt updated = toISOString (clock (clockReads w)).
Proof.
  intros Hf. run_lookup updatePatient. rewrite Hf. run_update.
  destruct (UpdatePatientInput.birthDate data) as [b|];
    [destruct (JSString.truthy b)|];
    cbn -[calculateAge clinicReducer JSON.stringify];
    try rewrite calculateAge_ageAt;
    cbn -[clinicReducer JSON.stringify];
    eexists; repeat split.
Qed.

Lemma updateVisit_found (w : World) (id : string)
  (data : UpdateVisitInput.t) (existing : Visit.t) :
  List.find (fun visit => String.eqb (Visit.id visit) id)
    (ClinicState.visits (state w)) = Some existing ->
  let updated :=
    Visit.mk
      (Visit.id existing)
      (Visit.patientId existing)
      (nullish (UpdateVisitInput.visitDate data) (Visit.visitDate existing))
      (nullish (UpdateVisitInput.reason data) (Visit.reason existing))
      (match UpdateVisitInput.complaints data with
       | Some l => l
       | None => Visit.complaints existing
       end)
      (match UpdateVisitInput.diagnoses data with
       | Some l => l
       | None => Visit.diagnoses existing
       end)
      (spread (Visit.notes existing) (UpdateVisitInput.notes data))
      (spread (Visit.treatmentPlan existing)
         (UpdateVisitInput.treatmentPlan data))
      (spread (Visit.followUpDate existing)
         (UpdateVisitInput.followUpDate data))
      (match UpdateVisitInput.vitals data with
       | Some v => mergeVitals (Visit.vitals existing) v
       | None => Visit.vitals existing
       end)
      (spread (Visit.attendingPhysician existing)
         (UpdateVisitInput.attendingPhysician data))
      (Visit.createdAt existing)
      (toISOString (clock (clockReads w))) in
  let st' := clinicReducer (state w) (UPDATE_VISIT updated) in
  updateVisit id data w
  = (Some updated,
     mkWorld st' (Some (JSON.stringify st')) (S (clockReads w)) (tokensDrawn w)).
Proof.
  intros Hf. run_lookup updateVisit. rewrite Hf. reflexivity.
Qed.

End CallEffects.

(** ** Lists of records with distinct ids *)

Lemma same_id_same_record {A} (getId : A -> string) (l : list A) a b :
  List.NoDup (map getId l) -> In a l -> In b l -> getId a = getId b -> a = b.
Proof.
  induction l as [|x r IH]; cbn; [tauto|].
  intros Hnd [<-|Ha] [<-|Hb] He; try reflexivity.
  - inversion Hnd as [|? ? Hx _]; subst. exfalso. apply Hx.
    rewrite He. now apply in_map.
  - inversion Hnd as [|? ? Hx _]; subst. exfalso. apply Hx.
    rewrite <- He. now apply in_map.
  - inversion Hnd; subst. now apply IH.
Qed.

(** After [UPDATE_*] with a payload that has the id and the field [f] of a
    record of the list, every position keeps its id and its [f]. *)
Lemma replace_keeps_field {A B} (getId : A -> string) (f : A -> B)
  (payload existing : A) (l : list A) :
  List.NoDup (map getId l) -> In existing l ->
  getId payload = getId existing -> f payload = f existing ->
  forall i q, l !! i = Some q ->
    exists q',
      map (fun y => if String.eqb (getId y) (getId payload) then payload else y)
        l !! i = Some q'
      /\ getId q' = getId q /\ f q' = f q.
Proof.
  intros Hnd Hin Hid Hf i q Hq. rewrite list_lookup_fmap, Hq. cbn.
  eexists. split; [reflexivity|].
  destruct (String.eqb_spec (getId q) (getId payload)) as [E|_];
    [|now split].
  split; [now symmetry|].
  assert (q = existing) as ->; [|exact Hf].
  apply (same_id_same_record getId l); auto.
  - apply list_elem_of_In. eapply list_elem_of_lookup_2. exact Hq.
  - congruence.
Qed.

(** Another id is looked up as before an [UPDATE_*]. *)
Lemma find_other_replace {A} (getId : A -> string) (payload : A)
  (l : list A) (id' : string) :
  id' <> getId payload ->
  List.find (fun y => String.eqb (getId y) id')
    (map (fun y => if String.eqb (getId y) (getId payload) then payload else y)
       l)
  = List.find (fun y => String.eqb (getId y) id') l.
Proof.
  intros Hne. induction l as [|y r IH]; cbn; [reflexivity|].
  destruct (String.eqb_spec (getId y) (getId payload)) as [E|_].
  - destruct (String.eqb_spec (getId payload) id') as [E'|_];
      [now subst|].
    destruct (String.eqb_spec (getId y) id') as [E'|_];
      [congruence | exact IH].
  - now rewrite IH.
Qed.

(** A lookup after [ADD_*]: the earlier record of the id if there is one,
    else the new record if it has the id. *)
Lemma find_app_one {A} (getId : A -> string) (x : A) (l : list A)
  (id' : string) :
  List.find (fun y => String.eqb (getId y) id') (l ++ [x])
  = match List.find (fun y => String.eqb (getId y) id') l with
    | Some y => Some y
    | None => if String.eqb (getId x) id' then Some x else None
    end.
Proof.
  induction l as [|y r IH]; cbn; [reflexivity|].
  destruct (String.eqb (getId y) id'); [reflexivity | exact IH].
Qed.

Section StoreLookups.
Context {rt : JSRuntime}.

(** X1. An update is seen by the next lookup: when [updatePatient],
    [updateVisit] or [updatePayment] finds the id, the record it returns is
    the one the state then holds under that id, and the lookup of every
    other id gives what it gave before. *)
Theorem X1_update_then_lookup (w : World) (id : string) :
  (forall data existing,
      List.find (fun p => String.eqb (Patient.id p) id)
        (ClinicState.patients (state w)) = Some existing ->
      exists updated,
        fst (updatePatient id data w) = Some updated
        /\ List.find (fun p => String.eqb (Patient.id p) id)
             (ClinicState.patients (state (snd (updatePatient id data w))))
           = Some updated
        /\ forall id', id' <> id ->
             List.find (fun p => String.eqb (Patient.id p) id')
               (ClinicState.patients (state (snd (updatePatient id data w))))
             = List.find (fun p => String.eqb (Patient.id p) id')
                 (ClinicState.patients (state w)))
  /\ (forall data existing,
         List.find (fun v => String.eqb (Visit.id v) id)
           (ClinicState.visits (state w)) = Some existing ->
         exists updated,
           fst (updateVisit id data w) = Some updated
           /\ List.find (fun v => String.eqb (Visit.id v) id)
                (ClinicState.visits (state (snd (updateVisit id data w))))
              = Some updated
           /\ forall id', id' <> id ->
                List.find (fun v => String.eqb (Visit.id v) id')
                  (ClinicState.visits (state (snd (updateVisit id data w))))
                = List.find (fun v => String.eqb (Visit.id v) id')
                    (ClinicState.visits (state w)))
  /\ (forall data existing,
         List.find (fun y => String.eqb (Payment.id y) id)
           (ClinicState.payments (state w)) = Some existing ->
         exists updated,
           fst (updatePayment id data w) = Some updated
           /\ List.find (fun y => String.eqb (Payment.id y) id)
                (ClinicState.payments (state (snd (updatePayment id data w))))
              = Some updated
           /\ forall id', id' <> id ->
                List.find (fun y => String.eqb (Payment.id y) id')
                  (ClinicState.payments (state (snd (updatePayment id data w))))
                = List.find (fun y => String.eqb (Payment.id y) id')
                    (ClinicState.payments (state w))).
Proof.
  split; [|split]; intros data existing Hf.
  - destruct (updatePatient_found w id data existing Hf)
      as (updated & Hu & Hst & Hid & _).
    destruct (find_id_Some Patient.id id _ _ Hf) as [_ Hid'].
    exists updated. split; [exact Hu|]. rewrite Hst.
    cbn [clinicReducer ClinicState.patients].
    assert (Hidu : Patient.id updated = id) by congruence.
    split.
    + rewrite <- Hidu. apply (find_id_replace Patient.id updated _ existing).
      now rewrite Hidu.
    + intros id' Hne. apply (find_other_replace Patient.id). congruence.
  - pose proof (updateVisit_found w id data existing Hf) as Hu.
    cbv zeta in Hu. rewrite Hu. cbn [fst snd state].
    destruct (find_id_Some Visit.id id _ _ Hf) as [_ Hid'].
    set (updated := Visit.mk _ _ _ _ _ _ _ _ _ _ _ _ _).
    exists updated. split; [reflexivity|].
    cbn [clinicReducer ClinicState.visits].
    assert (Hidu : Visit.id updated = id) by exact Hid'.
    split.
    + rewrite <- Hidu. apply (find_id_replace Visit.id updated _ existing).
      now rewrite Hidu.
    + intros id' Hne. apply (find_other_replace Visit.id). congruence.
  - pose proof (updatePayment_found w id data existing Hf) as Hu.
    cbv zeta in Hu. rewrite Hu. cbn [fst snd state].
    destruct (find_id_Some Payment.id id _ _ Hf) as [_ Hid'].
    set (updated := Payment.mk _ _ _ _ _ _ _ _ _ _).
    exists updated. split; [reflexivity|].
    cbn [clinicReducer ClinicState.payments].
    assert (Hidu : Payment.id updated = id) by exact Hid'.
    split.
    + rewrite <- Hidu. apply (find_id_replace Payment.id updated _ existing).
      now rewrite Hidu.
    + intros id' Hne. apply (find_other_replace Payment.id). congruence.
Qed.

(** X2. A record that is added never hides an earlier one: after
    [addPatient], [addVisit] or [addPayment] the lookup of an id gives the
    earlier record of that id when there is one, and otherwise the new
    record when the id is the one it was given (the prefix, a dash and the
    random token). *)
Theorem X2_add_then_lookup (w : World) (id' : string) :
  (forall data,
      let added := fst (addPatient data w) in
      Patient.id added = ("pat-" ++ randomToken (tokensDrawn w))%string
      /\ List.find (fun p => String.eqb (Patient.id p) id')
           (ClinicState.patients (state (snd (addPatient data w))))
         = match List.find (fun p => String.eqb (Patient.id p) id')
                   (ClinicState.patients (state w)) with
           | Some p => Some p
           | None => if String.eqb (Patient.id added) id' then Some added
                     else None
           end)
  /\ (forall data,
         let added := fst (addVisit data w) in
         Visit.id added = ("visit-" ++ randomToken (tokensDrawn w))%string
         /\ List.find (fun v => String.eqb (Visit.id v) id')
              (ClinicState.visits (state (snd (addVisit data w))))
            = match List.find (fun v => String.eqb (Visit.id v) id')
                      (ClinicState.visits (state w)) with
              | Some v => Some v
              | None => if String.eqb (Visit.id added) id' then Some added
                        else None
              end)
  /\ (forall data,
         let added := fst (addPayment data w) in
         Payment.id added = ("pay-" ++ randomToken (tokensDrawn w))%string
         /\ List.find (fun y => String.eqb (Payment.id y) id')
              (ClinicState.payments (state (snd (addPayment data w))))
            = match List.find (fun y => String.eqb (Payment.id y) id')
                      (ClinicState.payments (state w)) with
              | Some y => Some y
              | None => if String.eqb (Payment.id added) id' then Some added
                        else None
              end).
Proof.
  split; [|split]; intros data added; (split; [|]).
  - unfold added, addPatient; run_steps.
    cbn -[calculateAge clinicReducer JSON.stringify].
    now rewrite calculateAge_ageAt.
  - rewrite addPatient_state. apply (find_app_one Patient.id).
  - reflexivity.
  - rewrite addVisit_state. apply (find_app_one Visit.id).
  - reflexivity.
  - rewrite addPayment_state. apply (find_app_one Payment.id).
Qed.

End StoreLookups.

Section RecordsKept.
Context {rt : JSRuntime}.

(** A call dispatches at most one action; the payload of an update has the
    id and the fixed fields of a record of the state. *)
Lemma runCall_effect (c : StoreCall) (w : World) :
  exists action : option ClinicAction,
    state (runCall c w)
    = match action with
      | Some a => clinicReducer (state w) a
      | None => state w
      end
    /\ match action with
       | Some (UPDATE_PATIENT u) =>
           exists e, In e (ClinicState.patients (state w))
                     /\ Patient.id u = Patient.id e
                     /\ Patient.createdAt u = Patient.createdAt e
       | Some (UPDATE_VISIT u) =>
           exists e, In e (ClinicState.visits (state w))
                     /\ Visit.id u = Visit.id e
                     /\ Visit.patientId u = Visit.patientId e
                     /\ Visit.createdAt u = Visit.createdAt e
       | Some (UPDATE_PAYMENT u) =>
           exists e, In e (ClinicState.payments (state w))
                     /\ Payment.id u = Payment.id e
                     /\ Payment.patientId u = Payment.patientId e
                     /\ Payment.recordedAt u = Payment.recordedAt e
       | _ => True
       end.
Proof.
  destruct c as [data|id data|data|id data|data|id data]; cbn [runCall].
  - exists (Some (ADD_PATIENT (fst (addPatient data w)))).
    split; [apply addPatient_state | exact I].
  - destruct (List.find (fun p => String.eqb (Patient.id p) id)
                (ClinicState.patients (state w))) as [e|] eqn:Hf.
    + destruct (updatePatient_found w id data e Hf)
        as (u & _ & Hst & Hid & Hc & _).
      exists (Some (UPDATE_PATIENT u)). split; [exact Hst|].
      exists e. split; [|now split]. eapply List.find_some. exact Hf.
    + exists None. split; [|exact I].
      run_lookup updatePatient. now rewrite Hf.
  - exists (Some (ADD_VISIT (fst (addVisit data w)))). now split.
  - destruct (List.find (fun v => String.eqb (Visit.id v) id)
                (ClinicState.visits (state w))) as [e|] eqn:Hf.
    + pose proof (updateVisit_found w id data e Hf) as Hu. cbv zeta in Hu.
      rewrite Hu. cbn [snd state].
      eexists (Some (UPDATE_VISIT _)). split; [reflexivity|].
      exists e. split; [|now repeat split]. eapply List.find_some. exact Hf.
    + exists None. split; [|exact I].
      run_lookup updateVisit. now rewrite Hf.
  - exists (Some (ADD_PAYMENT (fst (addPayment data w)))). now split.
  - destruct (List.find (fun y => String.eqb (Payment.id y) id)
                (ClinicState.payments (state w))) as [e|] eqn:Hf.
    + pose proof (updatePayment_found w id data e Hf) as Hu. cbv zeta in Hu.
      rewrite Hu. cbn [snd state].
      eexists (Some (UPDATE_PAYMENT _)). split; [reflexivity|].
      exists e. split; [|now repeat split]. eapply List.find_some. exact Hf.
    + exists None. split; [|exact I].
      run_lookup updatePayment. now rewrite Hf.
Qed.

(** X3. No call of the store removes or moves a record.  In a state whose
    ids are distinct within each collection, after any call every position
    of every collection still holds a record of the same id; a patient keeps
    its [createdAt], a visit its [patientId] and [createdAt], a payment its
    [patientId] and [recordedAt]; and each collection has its former length
    or one record more. *)
Theorem X3_call_keeps_records (c : StoreCall) (w : World) :
  List.NoDup (map Patient.id (ClinicState.patients (state w))) ->
  List.NoDup (map Visit.id (ClinicState.visits (state w))) ->
  List.NoDup (map Payment.id (ClinicState.payments (state w))) ->
  let st' := state (runCall c w) in
  (forall i p,
      ClinicState.patients (state w) !! i = Some p ->
      exists p',
        ClinicState.patients st' !! i = Some p'
        /\ Patient.id p' = Patient.id p
        /\ Patient.createdAt p' = Patient.createdAt p)
  /\ (forall i v,
         ClinicState.visits (state w) !! i = Some v ->
         exists v',
           ClinicState.visits st' !! i = Some v'
           /\ Visit.id v' = Visit.id v
           /\ (Visit.patientId v', Visit.createdAt v')
              = (Visit.patientId v, Visit.createdAt v))
  /\ (forall i y,
         ClinicState.payments (state w) !! i = Some y ->
         exists y',
           ClinicState.payments st' !! i = Some y'
           /\ Payment.id y' = Payment.id y
           /\ (Payment.patientId y', Payment.recordedAt y')
              = (Payment.patientId y, Payment.recordedAt y))
  /\ (length (ClinicState.patients (state w))
      <= length (ClinicState.patients st')
      <= S (length (ClinicState.patients (state w))))%nat
  /\ (length (ClinicState.visits (state w))
      <= length (ClinicState.visits st')
      <= S (length (ClinicState.visits (state w))))%nat
  /\ (length (ClinicState.payments (state w))
      <= length (ClinicState.payments st')
      <= S (length (ClinicState.payments (state w))))%nat.
Proof.
  intros Hp Hv Hy st'. unfold st'.
  destruct (runCall_effect c w) as (action & -> & Hok).
  assert (Hsame :
            (forall i p, ClinicState.patients (state w) !! i = Some p ->
               exists p', ClinicState.patients (state w) !! i = Some p'
                          /\ Patient.id p' = Patient.id p
                          /\ Patient.createdAt p' = Patient.createdAt p)
            /\ (forall i v, ClinicState.visits (state w) !! i = Some v ->
                  exists v', ClinicState.visits (state w) !! i = Some v'
                             /\ Visit.id v' = Visit.id v
                             /\ (Visit.patientId v', Visit.createdAt v')
                                = (Visit.patientId v, Visit.createdAt v))
            /\ (forall i y, ClinicState.payments (state w) !! i = Some y ->
                  exists y', ClinicState.payments (state w) !! i = Some y'
                             /\ Payment.id y' = Payment.id y
                             /\ (Payment.patientId y', Payment.recordedAt y')
                                = (Payment.patientId y, Payment.recordedAt y)))
    by (repeat split; intros i q Hq; exists q; auto).
  destruct Hsame as (Sp & Sv & Sy).
  destruct action as [[p|u|v|u|y|u]|]; cbn [clinicReducer ClinicState.patients
    ClinicState.visits ClinicState.payments];
    rewrite ?length_app, ?length_map; cbn [length];
    (split; [|split; [|split; [|repeat split; lia]]]);
    try exact Sp; try exact Sv; try exact Sy.
  - intros i q Hq. exists q. split; [|now split].
    now apply lookup_app_l_Some.
  - destruct Hok as (e & Hin & Hid & Hc). intros i q Hq.
    destruct (replace_keeps_field Patient.id Patient.createdAt u e _ Hp Hin
                Hid Hc i q Hq) as (q' & H1 & H2 & H3).
    exists q'. auto.
  - intros i q Hq. exists q. split; [|now split].
    now apply lookup_app_l_Some.
  - destruct Hok as (e & Hin & Hid & Hpid & Hc). intros i q Hq.
    destruct (replace_keeps_field Visit.id
                (fun x => (Visit.patientId x, Visit.createdAt x)) u e _ Hv Hin
                Hid ltac:(cbn; congruence) i q Hq) as (q' & H1 & H2 & H3).
    exists q'. auto.
  - intros i q Hq. exists q. split; [|now split].
    now apply lookup_app_l_Some.
  - destruct Hok as (e & Hin & Hid & Hpid & Hc). intros i q Hq.
    destruct (replace_keeps_field Payment.id
                (fun x => (Payment.patientId x, Payment.recordedAt x)) u e _ Hy
                Hin Hid ltac:(cbn; congruence) i q Hq) as (q' & H1 & H2 & H3).
    exists q'. auto.
Qed.

End RecordsKept.

(** X3 at the seed data, for an update of the first payment. *)
Lemma X3_keeps_records_at_seed :
  exists y',
    ClinicState.payments
      (state (runCall (rt := ExampleRuntime.amman)
                (CallUpdatePayment "pay-amani-1"
                   (UpdatePaymentInput.mk Absent None (Some 1200) None None
                      None None))
                ExampleRuntime.seedWorld)) !! 0%nat = Some y'
    /\ Payment.id y' = "pay-amani-1"
    /\ (Payment.patientId y', Payment.recordedAt y')
       = ("pat-amani-youssef", "2025-10-12T14:10:00.000Z").
Proof.
  assert (Hp : List.NoDup
                 (map Patient.id
                    (ClinicState.patients (state ExampleRuntime.seedWorld))))
    by (vm_compute; repeat (constructor; [cbn; intuition discriminate|]);
        constructor).
  assert (Hv : List.NoDup
                 (map Visit.id
                    (ClinicState.visits (state ExampleRuntime.seedWorld))))
    by (vm_compute; repeat (constructor; [cbn; intuition discriminate|]);
        constructor).
  assert (Hy : List.NoDup
                 (map Payment.id
                    (ClinicState.payments (state ExampleRuntime.seedWorld))))
    by (vm_compute; repeat (constructor; [cbn; intuition discriminate|]);
        constructor).
  destruct (X3_call_keeps_records (rt := ExampleRuntime.amman)
              (CallUpdatePayment "pay-amani-1"
                 (UpdatePaymentInput.mk Absent None (Some 1200) None None
                    None None))
              ExampleRuntime.seedWorld Hp Hv Hy)
    as (_ & _ & Hk & _).
  exact (Hk 0%nat _ eq_refl).
Defined.

(* ===================================================================== *)
(** * More properties of the views *)
(* ===================================================================== *)

(** ** Sums over the payments *)

Lemma fold_left_sumOf {A} (f : A -> Z) (l : list A) (a : Z) :
  fold_left (fun acc x => acc + f x) l a = a + sumOf f l.
Proof.
  revert a. induction l as [|x r IH]; intros a; cbn; [lia|].
  rewrite IH. lia.
Qed.








Section Revenue.
Context {rt : JSRuntime}.



End Revenue.

Section ListBalance.
Context {rt : JSRuntime}.


End ListBalance.


(** ** The cohort of the analytics page *)




(** X8. The bounds of the age filter at their edges.  When the upper bound
    given is below the lower bound in force ([max 0 ageMin]), the subset
    keeps only patients whose age is that lower bound.  With nothing
    selected and the bounds 0 and 100 of a reset, the subset is the patients
    aged 0 to 100 in their order: a patient older than 100 is left out
    although no filter is set.  A negative lower bound reads as 0. *)
Theorem X8_age_filter_edges (patients : list Patient.t)
  (visits : list Visit.t) :
  (forall selectedGenders ageMin ageMax selectedChronicConditions
          selectedDiseases patient,
      ageMax < Z.max 0 ageMin ->
      In patient
        (AnalyticsPage.filteredPatients patients visits selectedGenders ageMin
           ageMax selectedChronicConditions selectedDiseases) ->
      Patient.age patient = Z.max 0 ageMin)
  /\ AnalyticsPage.filteredPatients patients visits [] 0 100 [] []
     = List.filter
         (fun p => (0 <=? Patient.age p) && (Patient.age p <=? 100)) patients
  /\ (forall selectedGenders ageMin ageMax selectedChronicConditions
             selectedDiseases,
         ageMin <= 0 ->
         AnalyticsPage.filteredPatients patients visits selectedGenders ageMin
           ageMax selectedChronicConditions selectedDiseases
         = AnalyticsPage.filteredPatients patients visits selectedGenders 0
             ageMax selectedChronicConditions selectedDiseases).
Proof.
  split; [|split].
  - intros sg ageMin ageMax scc sd patient Hlt.
    unfold AnalyticsPage.filteredPatients. cbv zeta.
    rewrite filter_In, keepPatient_true. intros (_ & _ & Hage & _). lia.
  - unfold AnalyticsPage.filteredPatients. cbv zeta.
    apply filter_ext. intros p. unfold AnalyticsPage.keepPatient.
    cbn [nonEmpty andb]. rewrite Z.gtb_ltb.
    change (Z.max 0 0) with 0. change (Z.max 0 100) with 100.
    destruct (Z.ltb_spec (Patient.age p) 0), (Z.ltb_spec 100 (Patient.age p)),
      (Z.leb_spec 0 (Patient.age p)), (Z.leb_spec (Patient.age p) 100);
      cbn; try reflexivity; lia.
  - intros sg ageMin ageMax scc sd Hle.
    unfold AnalyticsPage.filteredPatients. cbv zeta.
    now replace (Z.max 0 ageMin) with (Z.max 0 0) by lia.
Qed.

(** ** Ages and counts of the analytics page *)

Lemma ageBounds_fold (l : list Patient.t) (acc : AnalyticsPage.AgeBounds) :
  let b :=
    fold_left
      (fun acc patient =>
         AnalyticsPage.mkBounds
           (Z.min (AnalyticsPage.min acc) (Patient.age patient))
           (Z.max (AnalyticsPage.max acc) (Patient.age patient)))
      l acc in
  AnalyticsPage.min b <= AnalyticsPage.min acc
  /\ AnalyticsPage.max acc <= AnalyticsPage.max b
  /\ (forall p, In p l ->
        AnalyticsPage.min b <= Patient.age p <= AnalyticsPage.max b)
  /\ (AnalyticsPage.min b = AnalyticsPage.min acc
      \/ exists p, In p l /\ Patient.age p = AnalyticsPage.min b)
  /\ (AnalyticsPage.max b = AnalyticsPage.max acc
      \/ exists p, In p l /\ Patient.age p = AnalyticsPage.max b).
Proof.
  revert acc. induction l as [|x r IH]; intros acc; cbn [fold_left].
  - cbv zeta. split; [lia|]. split; [lia|]. split; [intros q []|].
    split; now left.
  - cbv zeta in *.
    specialize (IH (AnalyticsPage.mkBounds
                      (Z.min (AnalyticsPage.min acc) (Patient.age x))
                      (Z.max (AnalyticsPage.max acc) (Patient.age x)))).
    cbn [AnalyticsPage.min AnalyticsPage.max] in IH.
    destruct IH as (H1 & H2 & H3 & H4 & H5).
    split; [lia|]. split; [lia|]. split; [|split].
    + intros p [<-|Hp]; [lia | now apply H3].
    + destruct H4 as [E|(p & Hp & E)].
      * destruct (Z.min_spec (AnalyticsPage.min acc) (Patient.age x))
          as [[_ M]|[_ M]].
        -- left. lia.
        -- right. exists x. split; [now left | lia].
      * right. exists p. split; [now right | exact E].
    + destruct H5 as [E|(p & Hp & E)].
      * destruct (Z.max_spec (AnalyticsPage.max acc) (Patient.age x))
          as [[_ M]|[_ M]].
        -- right. exists x. split; [now left | lia].
        -- left. lia.
      * right. exists p. split; [now right | exact E].
Qed.

(** The rounded quotient is a nearest integer, and lies between any bounds
    of the terms of the sum. *)
Lemma roundDiv_nearest (s n : Z) :
  0 < n -> - n < 2 * (JSDate.roundDiv s n * n - s) <= n.
Proof.
  intros Hn. unfold JSDate.roundDiv.
  pose proof (Z.div_mod (2 * s + n) (2 * n) ltac:(lia)).
  pose proof (Z.mod_pos_bound (2 * s + n) (2 * n) ltac:(lia)). nia.
Qed.

Lemma roundDiv_between (s n lo hi : Z) :
  0 < n -> n * lo <= s <= n * hi -> lo <= JSDate.roundDiv s n <= hi.
Proof.
  intros Hn [H1 H2]. pose proof (roundDiv_nearest s n Hn). nia.
Qed.

Lemma sumOf_bounds {A} (f : A -> Z) (l : list A) (lo hi : Z) :
  (forall x, In x l -> lo <= f x <= hi) ->
  Z.of_nat (length l) * lo <= sumOf f l <= Z.of_nat (length l) * hi.
Proof.
  induction l as [|x r IH]; intros H; [cbn; lia|].
  cbn [sumOf length]. pose proof (H x (or_introl eq_refl)).
  assert (Z.of_nat (length r) * lo <= sumOf f r <= Z.of_nat (length r) * hi)
    by (apply IH; intros; apply H; now right).
  lia.
Qed.

(** X9. The age figures of the analytics page.  For no patient the average,
    the minimum and the maximum are 0.  Otherwise the minimum and the
    maximum are ages of patients of the subset and bound the age of every
    patient of it; the average is a nearest integer to the mean of the ages
    (a half rounds up) and lies between the minimum and the maximum; and the
    patients page computes the same average. *)
Theorem X9_age_figures :
  (AnalyticsPage.averageAge [] = 0 /\ AnalyticsPage.minAge [] = 0
   /\ AnalyticsPage.maxAge [] = 0)
  /\ forall l : list Patient.t,
       l <> [] ->
       let n := Z.of_nat (length l) in
       (forall p, In p l ->
          AnalyticsPage.minAge l <= Patient.age p <= AnalyticsPage.maxAge l)
       /\ (exists p, In p l /\ Patient.age p = AnalyticsPage.minAge l)
       /\ (exists p, In p l /\ Patient.age p = AnalyticsPage.maxAge l)
       /\ AnalyticsPage.minAge l <= AnalyticsPage.averageAge l
          <= AnalyticsPage.maxAge l
       /\ - n < 2 * (AnalyticsPage.averageAge l * n - sumOf Patient.age l) <= n
       /\ PatientsPage.averageAge l = AnalyticsPage.averageAge l.
Proof.
  split; [repeat split|].
  intros l Hne n.
  destruct l as [|p0 r]; [contradiction|]. clear Hne.
  set (l := p0 :: r) in *.
  assert (Hn : 0 < n) by (unfold n, l; cbn [length]; lia).
  unfold AnalyticsPage.minAge, AnalyticsPage.maxAge, AnalyticsPage.averageAge,
    PatientsPage.averageAge.
  replace (nonEmpty l) with true by reflexivity. cbn [negb].
  unfold AnalyticsPage.ageBounds.
  pose proof (ageBounds_fold l
                (AnalyticsPage.mkBounds (Patient.age p0) (Patient.age p0)))
    as Hb. cbv zeta in Hb.
  cbn [AnalyticsPage.min AnalyticsPage.max] in Hb.
  change (match l with p :: _ => Patient.age p | [] => 0 end)
    with (Patient.age p0).
  destruct Hb as (H1 & H2 & H3 & H4 & H5).
  rewrite fold_left_sumOf, Z.add_0_l. fold n.
  split; [exact H3|]. split; [|split; [|split; [|split]]].
  - destruct H4 as [E|H4]; [|exact H4].
    exists p0. split; [now left | now symmetry].
  - destruct H5 as [E|H5]; [|exact H5].
    exists p0. split; [now left | now symmetry].
  - apply roundDiv_between; [exact Hn|]. now apply sumOf_bounds.
  - now apply roundDiv_nearest.
  - reflexivity.
Qed.

Lemma paymentStatusCounts_fold (l : list Payment.t)
  (acc : AnalyticsPage.StatusCounts) :
  fold_left
    (fun acc payment =>
       match AnalyticsPage.getPaymentStatus (Payment.amountDue payment)
               (Payment.amountPaid payment) with
       | paid =>
           AnalyticsPage.mkCounts (AnalyticsPage.paidCount acc + 1)
             (AnalyticsPage.partialCount acc) (AnalyticsPage.pendingCount acc)
       | partial =>
           AnalyticsPage.mkCounts (AnalyticsPage.paidCount acc)
             (AnalyticsPage.partialCount acc + 1)
             (AnalyticsPage.pendingCount acc)
       | pending =>
           AnalyticsPage.mkCounts (AnalyticsPage.paidCount acc)
             (AnalyticsPage.partialCount acc)
             (AnalyticsPage.pendingCount acc + 1)
       end)
    l acc
  = AnalyticsPage.mkCounts
      (AnalyticsPage.paidCount acc + countOf (hasStatus paid) l)
      (AnalyticsPage.partialCount acc + countOf (hasStatus partial) l)
      (AnalyticsPage.pendingCount acc + countOf (hasStatus pending) l).
Proof.
  revert acc. induction l as [|x r IH]; intros acc; cbn [fold_left].
  - destruct acc; unfold countOf; cbn; f_equal; lia.
  - rewrite IH. unfold countOf, hasStatus. cbn [List.filter].
    destruct (AnalyticsPage.getPaymentStatus _ _); cbn [length
      AnalyticsPage.paidCount AnalyticsPage.partialCount
      AnalyticsPage.pendingCount]; f_equal; lia.
Qed.

Lemma genderDistribution_fold (l : list Patient.t) (acc : gmap string Z)
  (k : string) :
  default 0
    (fold_left
       (fun (acc : gmap string Z) patient =>
          let g := genderString (Patient.gender patient) in
          <[g := default 0 (acc !! g) + 1]> acc)
       l acc !! k)
  = default 0 (acc !! k)
    + countOf (fun p => String.eqb (genderString (Patient.gender p)) k) l.
Proof.
  revert acc. induction l as [|x r IH]; intros acc; cbn [fold_left].
  - unfold countOf. cbn. lia.
  - rewrite IH. unfold countOf. cbn [List.filter]. cbv zeta.
    destruct (String.eqb_spec (genderString (Patient.gender x)) k) as [->|Hne].
    + rewrite lookup_insert_eq. cbn [from_option id length]. lia.
    + rewrite lookup_insert_ne by exact Hne. lia.
Qed.

(** X10. The counts of the analytics page add up.  The three counts by
    payment status are the numbers of kept payments that are paid, partial
    and pending, and their sum is the number of kept payments.  The counts
    by gender are the numbers of men and of women of the subset, their sum
    is the number of patients, and a gender without a patient has no entry
    (it does not read as 0). *)
Theorem X10_counts_add_up :
  (forall payments : list Payment.t,
      let c := AnalyticsPage.paymentStatusCounts payments in
      AnalyticsPage.paidCount c = countOf (hasStatus paid) payments
      /\ AnalyticsPage.partialCount c = countOf (hasStatus partial) payments
      /\ AnalyticsPage.pendingCount c = countOf (hasStatus pending) payments
      /\ AnalyticsPage.paidCount c + AnalyticsPage.partialCount c
         + AnalyticsPage.pendingCount c
         = Z.of_nat (length payments))
  /\ (forall patients : list Patient.t,
         let d := AnalyticsPage.genderDistribution patients in
         default 0 (d !! "male") = countOf (hasGender male) patients
         /\ default 0 (d !! "female") = countOf (hasGender female) patients
         /\ default 0 (d !! "male") + default 0 (d !! "female")
            = Z.of_nat (length patients)
         /\ (forall g, d !! genderString g = None
                       <-> forall p, In p patients -> Patient.gender p <> g)).
Proof.
  split.
  - intros payments c. subst c. unfold AnalyticsPage.paymentStatusCounts.
    rewrite paymentStatusCounts_fold.
    cbn [AnalyticsPage.paidCount AnalyticsPage.partialCount
         AnalyticsPage.pendingCount].
    repeat split; try lia.
    unfold countOf, hasStatus.
    induction payments as [|x r IH]; [reflexivity|].
    cbn [List.filter length].
    destruct (AnalyticsPage.getPaymentStatus _ _); cbn [length]; lia.
  - intros patients d.
    assert (Hm : default 0 (d !! "male") = countOf (hasGender male) patients).
    { unfold d, AnalyticsPage.genderDistribution.
      rewrite genderDistribution_fold, lookup_empty. cbn [from_option id].
      unfold countOf. rewrite Z.add_0_l. f_equal. f_equal. apply filter_ext.
      intros p. unfold hasGender. now destruct (Patient.gender p). }
    assert (Hf : default 0 (d !! "female")
                 = countOf (hasGender female) patients).
    { unfold d, AnalyticsPage.genderDistribution.
      rewrite genderDistribution_fold, lookup_empty. cbn [from_option id].
      unfold countOf. rewrite Z.add_0_l. f_equal. f_equal. apply filter_ext.
      intros p. unfold hasGender. now destruct (Patient.gender p). }
    split; [exact Hm|]. split; [exact Hf|]. split.
    + rewrite Hm, Hf. unfold countOf, hasGender. clear.
      induction patients as [|x r IH]; [reflexivity|].
      cbn [List.filter length]. destruct (Patient.gender x); cbn [length]; lia.
    + intros g. unfold d, AnalyticsPage.genderDistribution. clear.
      assert (G : forall l (acc : gmap string Z),
                 fold_left
                   (fun (acc : gmap string Z) patient =>
                      let g := genderString (Patient.gender patient) in
                      <[g := default 0 (acc !! g) + 1]> acc)
                   l acc !! genderString g = None
                 <-> acc !! genderString g = None
                     /\ forall p, In p l -> Patient.gender p <> g).
      { induction l as [|x r IH]; intros acc; cbn [fold_left].
        - split; [intros H; split; [exact H | intros p []] | tauto].
        - rewrite IH. cbv zeta.
          assert (Hdec : Patient.gender x = g \/ Patient.gender x <> g)
            by (destruct (Patient.gender x), g;
                (now left) || (right; discriminate)).
          destruct Hdec as [E|Hne].
          + rewrite E, lookup_insert_eq.
            split; [intros [H _]; discriminate|].
            intros [_ H]. exfalso. apply (H x); [now left | exact E].
          + rewrite lookup_insert_ne
              by (destruct (Patient.gender x), g; cbn; congruence).
            split.
            * intros [H1 H2]. split; [exact H1|].
              intros p [<-|Hp]; [exact Hne | now apply H2].
            * intros [H1 H2]. split; [exact H1|].
              intros p Hp. apply H2. now right. }
      rewrite G, lookup_empty. tauto.
Qed.

(* ===================================================================== *)
(** ** The order of the sorted lists *)
(* ===================================================================== *)

Lemma In_skipn {A} (n : nat) (l : list A) x : In x (skipn n l) -> In x l.
Proof.
  revert l. induction n as [|n IH]; intros [|y r]; cbn; try tauto.
  intros H. right. now apply IH.
Qed.

Section Sorting.
Context {A : Type} (compareFn : A -> A -> Z) (R : A -> A -> Prop).
Hypothesis R_trans : forall a b c, R a b -> R b c -> R a c.

Lemma insertSorted_sorted (x : A) (s : list A) :
  (forall y, In y s -> compareFn x y <= 0 -> R x y) ->
  (forall y, In y s -> ~ compareFn x y <= 0 -> R y x) ->
  StronglySorted R s -> StronglySorted R (insertSorted compareFn x s).
Proof.
  induction s as [|y r IH]; intros Hle Hgt Hs; cbn [insertSorted].
  - repeat constructor.
  - pose proof Hs as Hyr. apply StronglySorted_inv in Hs as [Hr Hy].
    rewrite List.Forall_forall in Hy.
    destruct (Z.leb_spec (compareFn x y) 0) as [H|H].
    + constructor; [exact Hyr|].
      constructor; [apply Hle; [now left | exact H]|].
      apply List.Forall_forall. intros z Hz.
      apply R_trans with y; [apply Hle; [now left | exact H] | now apply Hy].
    + constructor.
      * apply IH; [| | exact Hr].
        -- intros z Hz. apply Hle. now right.
        -- intros z Hz. apply Hgt. now right.
      * apply List.Forall_forall. intros z Hz.
        apply (Permutation_in _ (insertSorted_Permutation compareFn x r))
          in Hz.
        destruct Hz as [<-|Hz]; [apply Hgt; [now left | lia] | now apply Hy].
Qed.

(** A sort by a comparator that decides a transitive relation on the
    elements of the list leaves the list in the order of the relation. *)
Lemma sortBy_sorted (l : list A) :
  (forall a b, In a l -> In b l -> compareFn a b <= 0 -> R a b) ->
  (forall a b, In a l -> In b l -> ~ compareFn a b <= 0 -> R b a) ->
  StronglySorted R (sortBy compareFn l).
Proof.
  induction l as [|x r IH]; intros Hle Hgt; cbn; [constructor|].
  apply insertSorted_sorted.
  - intros y Hy. apply In_sortBy in Hy. apply Hle; [now left | now right].
  - intros y Hy. apply In_sortBy in Hy. apply Hgt; [now left | now right].
  - apply IH; intros a b Ha Hb; [apply Hle | apply Hgt]; now right.
Qed.

End Sorting.

Section SortedLists.
Context {A : Type} (R : A -> A -> Prop).

Lemma StronglySorted_firstn (n : nat) (l : list A) :
  StronglySorted R l -> StronglySorted R (firstn n l).
Proof.
  revert l. induction n as [|n IH]; intros [|x r] Hs; cbn; try constructor.
  - apply IH. now apply StronglySorted_inv in Hs.
  - apply StronglySorted_inv in Hs as [_ Hx].
    rewrite List.Forall_forall in *. intros y Hy. apply Hx.
    now apply In_firstn in Hy.
Qed.

(** In a sorted list every element of a prefix is before every element of
    the rest. *)
Lemma sorted_firstn_skipn (n : nat) (l : list A) x y :
  StronglySorted R l -> In x (firstn n l) -> In y (skipn n l) -> R x y.
Proof.
  revert l. induction n as [|n IH]; intros [|z r] Hs; cbn; try tauto.
  apply StronglySorted_inv in Hs as [Hr Hz].
  rewrite List.Forall_forall in Hz.
  intros [<-|Hx] Hy.
  - apply Hz. now apply In_skipn in Hy.
  - now apply IH with r.
Qed.

(** The head of a sorted list is before every other element. *)
Lemma sorted_hd (l : list A) x y :
  StronglySorted R l -> hd_error l = Some x -> In y l -> y = x \/ R x y.
Proof.
  destruct l as [|z r]; cbn; [discriminate|].
  intros Hs [= ->] [->|Hy]; [now left|]. right.
  apply StronglySorted_inv in Hs as [_ Hx].
  rewrite List.Forall_forall in Hx. now apply Hx.
Qed.

End SortedLists.

(* ===================================================================== *)
(** ** Lists shown the latest first *)
(* ===================================================================== *)

Section NewestFirst.
Context {rt : JSRuntime}.

(** A sort with the comparator [key b - key a] puts the larger keys first. *)
Lemma sortBy_descending {A} (key : A -> Z) (l : list A) :
  StronglySorted (fun a b => key b <= key a)
    (sortBy (fun a b => key b - key a) l).
Proof.
  apply sortBy_sorted; [intros a b c; lia | intros a b _ _; lia
                       | intros a b _ _; lia].
Qed.

(** A sort with the comparator [key a - key b] puts the smaller keys
    first. *)
Lemma sortBy_ascending {A} (key : A -> Z) (l : list A) :
  StronglySorted (fun a b => key a <= key b)
    (sortBy (fun a b => key a - key b) l).
Proof.
  apply sortBy_sorted; [intros a b c; lia | intros a b _ _; lia
                       | intros a b _ _; lia].
Qed.

Lemma In_firstn_skipn {A} (n : nat) (l : list A) x :
  In x l -> In x (firstn n l) \/ In x (skipn n l).
Proof.
  intros H. rewrite <- (firstn_skipn n l) in H. now apply in_app_or in H.
Qed.

(** X4. The lists that the pages show the latest first.  The rows of the
    payments page are the payments, one row each, by falling time of
    recording; the payments and the visits on the page of a patient are
    those of the patient, by falling time of recording and of the visit;
    the recent patients of the home page are five of the patients (all of
    them when there are fewer), by falling time of update, and no patient
    that is left out was updated later than one that is shown. *)
Theorem X4_latest_first :
  (forall patients visits payments,
      let rows := PaymentsPage.paymentRows patients visits payments in
      Permutation rows (map (PaymentsPage.toRow patients visits) payments)
      /\ map PaymentsPage.payment
           (map (PaymentsPage.toRow patients visits) payments) = payments
      /\ StronglySorted
           (fun a b =>
              dateParse (Payment.recordedAt (PaymentsPage.payment b))
              <= dateParse (Payment.recordedAt (PaymentsPage.payment a)))
           rows)
  /\ (forall payments patientId,
         let own := PatientDetailPage.patientPayments payments patientId in
         (forall p, In p own
                    <-> In p payments /\ Payment.patientId p = patientId)
         /\ StronglySorted
              (fun a b =>
                 dateParse (Payment.recordedAt b)
                 <= dateParse (Payment.recordedAt a))
              own)
  /\ (forall visits patientId,
         let own := PatientDetailPage.patientVisits visits patientId in
         (forall v, In v own <-> In v visits /\ Visit.patientId v = patientId)
         /\ StronglySorted
              (fun a b =>
                 dateParse (Visit.visitDate b) <= dateParse (Visit.visitDate a))
              own)
  /\ (forall patients,
         let recent := HomePage.recentPatients patients in
         length recent = Nat.min 5 (length patients)
         /\ (forall p, In p recent -> In p patients)
         /\ StronglySorted
              (fun a b =>
                 dateParse (Patient.updatedAt b)
                 <= dateParse (Patient.updatedAt a))
              recent
         /\ forall p q,
              In p patients -> ~ In p recent -> In q recent ->
              dateParse (Patient.updatedAt p)
              <= dateParse (Patient.updatedAt q)).
Proof.
  split; [|split; [|split]].
  - intros patients visits payments rows. subst rows.
    unfold PaymentsPage.paymentRows. split; [apply sortBy_Permutation|].
    split.
    + rewrite map_map. cbn [PaymentsPage.payment PaymentsPage.toRow].
      apply map_id.
    + apply (sortBy_descending
               (fun a => dateParse (Payment.recordedAt (PaymentsPage.payment a)))).
  - intros payments patientId own. subst own.
    unfold PatientDetailPage.patientPayments. split.
    + intros p. rewrite In_sortBy, filter_In, String.eqb_eq. tauto.
    + apply (sortBy_descending (fun a => dateParse (Payment.recordedAt a))).
  - intros visits patientId own. subst own.
    unfold PatientDetailPage.patientVisits. split.
    + intros v. rewrite In_sortBy, filter_In, String.eqb_eq. tauto.
    + apply (sortBy_descending (fun a => dateParse (Visit.visitDate a))).
  - intros patients recent. subst recent. unfold HomePage.recentPatients.
    set (sorted := sortBy _ patients).
    assert (Hs : StronglySorted
                   (fun a b =>
                      dateParse (Patient.updatedAt b)
                      <= dateParse (Patient.updatedAt a)) sorted)
      by apply (sortBy_descending (fun a => dateParse (Patient.updatedAt a))).
    split; [|split; [|split]].
    + rewrite List.length_firstn. unfold sorted.
      now rewrite (Permutation_length (sortBy_Permutation _ patients)).
    + intros p Hp. apply In_firstn in Hp. now apply In_sortBy in Hp.
    + apply StronglySorted_firstn, Hs.
    + intros p q Hp Hnot Hq.
      assert (Hp' : In p sorted) by now apply In_sortBy.
      destruct (In_firstn_skipn 5 sorted p Hp') as [H|H]; [contradiction|].
      apply (sorted_firstn_skipn
               (fun a b =>
                  dateParse (Patient.updatedAt b)
                  <= dateParse (Patient.updatedAt a)) 5 sorted q p Hs Hq H).
Qed.

End NewestFirst.

Section LastVisit.
Context {rt : JSRuntime}.

(** X11. The list of the patients page has one summary for each patient, in
    the order of the patients.  A summary has no last visit exactly when the
    patient has no visit; otherwise the date and the reason shown are those
    of one visit of the patient, and no visit of the patient is later. *)
Theorem X11_summary_shows_latest_visit (patients : list Patient.t)
  (visits : list Visit.t) (payments : list Payment.t) :
  let summaries := PatientSummaries.patientSummaries patients visits payments in
  map PatientSummaries.patient summaries = patients
  /\ forall summary,
       In summary summaries ->
       let id := Patient.id (PatientSummaries.patient summary) in
       (PatientSummaries.lastVisitDate summary = None
        <-> forall v, In v visits -> Visit.patientId v <> id)
       /\ (PatientSummaries.lastVisitReason summary = None
           <-> PatientSummaries.lastVisitDate summary = None)
       /\ forall d,
            PatientSummaries.lastVisitDate summary = Some d ->
            exists v,
              In v visits /\ Visit.patientId v = id
              /\ Visit.visitDate v = d
              /\ PatientSummaries.lastVisitReason summary
                 = Some (Visit.reason v)
              /\ forall v',
                   In v' visits -> Visit.patientId v' = id ->
                   dateParse (Visit.visitDate v') <= dateParse d.
Proof.
  intros summaries. subst summaries.
  unfold PatientSummaries.patientSummaries. split.
  - rewrite map_map. cbn [PatientSummaries.patient]. apply map_id.
  - intros summary Hs. apply in_map_iff in Hs as (p & <- & _).
    cbv zeta. cbn [PatientSummaries.patient PatientSummaries.lastVisitDate
                   PatientSummaries.lastVisitReason].
    set (own := List.filter _ visits).
    assert (Hown : forall v, In v own
                             <-> In v visits /\ Visit.patientId v = Patient.id p).
    { intros v. unfold own. rewrite filter_In, String.eqb_eq. tauto. }
    pose proof (sortBy_descending
                  (fun a => dateParse (Visit.visitDate a)) own) as Hsorted.
    set (sorted := sortBy _ own) in *.
    assert (Hin : forall v, In v sorted <-> In v own)
      by (intros v; apply In_sortBy).
    destruct sorted as [|v0 r] eqn:Es; cbn [hd_error fmap option_fmap option_map].
    + split; [|split; [tauto | discriminate]].
      split; [|reflexivity]. intros _ v Hv Hid.
      apply (proj2 (Hin v)), (proj2 (Hown v)). now split.
    + assert (H0 : In v0 own) by (apply Hin; now left).
      apply Hown in H0 as [H0 H0']. split; [|split].
      * split; [discriminate|]. intros H. now destruct (H v0 H0).
      * split; discriminate.
      * intros d [= <-]. exists v0. repeat split; try assumption.
        intros v' Hv' Hid'.
        assert (Hv : In v' (v0 :: r))
          by (apply Hin, Hown; now split).
        destruct (sorted_hd _ (v0 :: r) v0 v' Hsorted eq_refl Hv) as [->|H];
          [lia | exact H].
Qed.

End LastVisit.

(* ===================================================================== *)
(** ** The follow-ups that are shown *)
(* ===================================================================== *)

Lemma roundDiv_nonneg (n m : Z) : 0 <= n -> 0 < m -> 0 <= JSDate.roundDiv n m.
Proof.
  intros Hn Hm. unfold JSDate.roundDiv. apply Z.div_pos; lia.
Qed.

Lemma tone_not_overdue (d : Z) :
  0 <= d -> tone (bucketStatus (bucketOfDelta d) d) <> destructive.
Proof.
  intros Hd. unfold bucketOfDelta.
  destruct (Z.ltb_spec d 0); [lia|].
  destruct (d =? 0); [discriminate|].
  destruct ((1 <=? d) && (d <=? 3)); [discriminate|].
  destruct ((4 <=? d) && (d <=? 7)); discriminate.
Qed.

(** A filter with effects whose test fails everywhere keeps nothing. *)
Lemma filterM_none {A} (f : A -> Eff bool) (l : list A) (w : World) :
  (forall x w0, In x l -> fst (f x w0) = false) -> fst (filterM f l w) = [].
Proof.
  intros H. destruct (fst (filterM f l w)) as [|x r] eqn:E; [reflexivity|].
  assert (Hx : In x (fst (filterM f l w))) by (rewrite E; now left).
  apply filterM_In in Hx as [Hin (w0 & Hw0)].
  rewrite (H x w0 Hin) in Hw0. discriminate.
Qed.

Lemma length_filterM {A} (f : A -> Eff bool) (l : list A) (w : World) :
  (length (fst (filterM f l w)) <= length l)%nat.
Proof.
  revert w. induction l as [|y r IH]; intros w; cbn; [lia|].
  unfold bind, ret. destruct (f y w) as [b w1].
  specialize (IH w1). destruct (filterM f r w1) as [ys w2]. cbn in *.
  destruct b; cbn; lia.
Qed.

Section FollowUpLists.
Context {rt : JSRuntime}.

(** The entries of the follow-up tab. *)
Lemma upcomingFollowUps_In (patients : list Patient.t) (visits : list Visit.t)
  (w : World) (entry : PatientsPage.UpcomingFollowUp) :
  In entry (fst (PatientsPage.upcomingFollowUps patients visits w))
  <-> exists v d p,
        In v visits /\ Visit.followUpDate v = Some d /\ d <> ""
        /\ List.find
             (fun entry => String.eqb (Patient.id entry) (Visit.patientId v))
             patients = Some p
        /\ setHoursZero (clock (clockReads w)) <= setHoursZero (dateParse d)
        /\ entry = PatientsPage.mkUpcoming v (Some p) d.
Proof.
  unfold PatientsPage.upcomingFollowUps, bind, newDate, ret. cbn [fst].
  rewrite In_sortBy, filter_In, in_map_iff. split.
  - intros [(v & <- & Hv) Hk]. apply filter_In in Hv as [Hin Ht].
    cbn [PatientsPage.patient PatientsPage.followUpDate] in Hk.
    destruct (List.find _ patients) as [p|] eqn:Ef; [|discriminate].
    destruct (Visit.followUpDate v) as [d|] eqn:Ed; [|discriminate].
    cbn in Ht, Hk. exists v, d, p.
    repeat split; try assumption.
    + now apply truthy_not_empty.
    + now apply Z.geb_le.
  - intros (v & d & p & Hin & Ed & Hne & Ef & Hk & ->). split.
    + exists v. split; [now rewrite Ed, Ef|].
      apply filter_In. split; [exact Hin|]. rewrite Ed. cbn.
      now apply truthy_not_empty.
    + cbn. now apply Z.geb_le.
Qed.

(** The next follow-up of the page of a patient is one of today or later. *)
Lemma upcomingFollowUp_upcoming (patientVisits : list Visit.t) (w : World)
  (entry : PatientDetailPage.Entry) :
  fst (PatientDetailPage.upcomingFollowUp patientVisits w) = Some entry ->
  PatientDetailPage.followUpDate entry <> ""
  /\ setHoursZero (clock (clockReads w))
     <= setHoursZero (dateParse (PatientDetailPage.followUpDate entry)).
Proof.
  unfold PatientDetailPage.upcomingFollowUp, bind, newDate, ret. cbn [fst].
  intros H. apply hd_error_In, In_sortBy, filter_In in H as [H Hk].
  apply in_map_iff in H as (v & <- & Hv). apply filter_In in Hv as [_ Ht].
  cbn [PatientDetailPage.followUpDate] in *.
  destruct (Visit.followUpDate v) as [d|]; [|discriminate].
  cbn in Ht, Hk |- *. split; [now apply truthy_not_empty | now apply Z.geb_le].
Qed.

(** X12. The follow-up tab of the patients page lists exactly the visits
    that have a follow-up date, whose patient is in the state, and whose
    follow-up day is today or later (local days, by the clock at the time of
    listing); the entries come by rising time of the follow-up date. *)
Theorem X12_follow_up_tab (patients : list Patient.t) (visits : list Visit.t)
  (w : World) :
  let entries := fst (PatientsPage.upcomingFollowUps patients visits w) in
  let today := setHoursZero (clock (clockReads w)) in
  (forall entry,
      In entry entries
      <-> exists v d p,
            In v visits /\ Visit.followUpDate v = Some d /\ d <> ""
            /\ List.find
                 (fun entry => String.eqb (Patient.id entry) (Visit.patientId v))
                 patients = Some p
            /\ today <= setHoursZero (dateParse d)
            /\ entry = PatientsPage.mkUpcoming v (Some p) d)
  /\ StronglySorted
       (fun a b =>
          dateParse (PatientsPage.followUpDate a)
          <= dateParse (PatientsPage.followUpDate b))
       entries.
Proof.
  intros entries today. subst entries today.
  split; [intros entry; apply upcomingFollowUps_In|].
  unfold PatientsPage.upcomingFollowUps, bind, newDate, ret. cbn [fst].
  apply (sortBy_ascending (fun a => dateParse (PatientsPage.followUpDate a))).
Qed.

(** X13. The next follow-up on the page of a patient is the earliest of the
    follow-ups of the visits given whose day is today or later: it is one of
    them, no other one has an earlier time, and there is none exactly when
    no visit has such a follow-up. *)
Theorem X13_next_follow_up_is_the_earliest (patientVisits : list Visit.t)
  (w : World) :
  let next := fst (PatientDetailPage.upcomingFollowUp patientVisits w) in
  let today := setHoursZero (clock (clockReads w)) in
  let upcoming v d :=
    In v patientVisits /\ Visit.followUpDate v = Some d /\ d <> ""
    /\ today <= setHoursZero (dateParse d) in
  (forall entry,
      next = Some entry ->
      upcoming (PatientDetailPage.visit entry)
        (PatientDetailPage.followUpDate entry)
      /\ forall v d,
           upcoming v d ->
           dateParse (PatientDetailPage.followUpDate entry) <= dateParse d)
  /\ (next = None <-> forall v d, ~ upcoming v d).
Proof.
  intros next today upcoming. subst next.
  unfold PatientDetailPage.upcomingFollowUp, bind, newDate, ret. cbn [fst].
  fold today.
  set (kept := List.filter _ (map _ _)).
  assert (Hkept : forall entry,
             In entry kept
             <-> upcoming (PatientDetailPage.visit entry)
                   (PatientDetailPage.followUpDate entry)
                 /\ entry = PatientDetailPage.mkEntry
                              (PatientDetailPage.visit entry)
                              (PatientDetailPage.followUpDate entry)).
  { intros entry. unfold kept, upcoming.
    rewrite filter_In, in_map_iff. split.
    - intros [(v & <- & Hv) Hk]. apply filter_In in Hv as [Hin Ht].
      cbn [PatientDetailPage.visit PatientDetailPage.followUpDate] in *.
      destruct (Visit.followUpDate v) as [d|] eqn:Ed; [|discriminate].
      cbn in Ht, Hk |- *. repeat split; try assumption.
      + now apply truthy_not_empty.
      + now apply Z.geb_le.
    - intros [(Hin & Ed & Hne & Hk) _]. destruct entry as [v d].
      cbn [PatientDetailPage.visit PatientDetailPage.followUpDate] in *.
      split.
      + exists v. split; [now rewrite Ed|].
        apply filter_In. split; [exact Hin|]. rewrite Ed. cbn.
        now apply truthy_not_empty.
      + now apply Z.geb_le. }
  pose proof (sortBy_ascending
                (fun a => dateParse (PatientDetailPage.followUpDate a)) kept)
    as Hsorted.
  set (entries := sortBy _ kept) in *.
  assert (Hin : forall entry, In entry entries <-> In entry kept)
    by (intros entry; apply In_sortBy).
  split.
  - intros entry He.
    assert (H0 : In entry kept) by (apply Hin; now apply hd_error_In).
    split; [now apply Hkept in H0|].
    intros v d Hv.
    assert (H1 : In (PatientDetailPage.mkEntry v d) entries).
    { apply Hin, Hkept. cbn. now split. }
    destruct (sorted_hd _ entries entry _ Hsorted He H1) as [<-|H];
      [cbn; lia | exact H].
  - split.
    + intros He v d Hv.
      assert (H1 : In (PatientDetailPage.mkEntry v d) entries).
      { apply Hin, Hkept. cbn. now split. }
      destruct entries; [exact H1 | discriminate].
    + intros Hnone. destruct entries as [|e r] eqn:Ee; [reflexivity|].
      exfalso.
      assert (H0 : In e kept) by (apply Hin; now left).
      apply Hkept in H0 as [H0 _]. exact (Hnone _ _ H0).
Qed.

(** X14. Nothing that is listed as upcoming is shown as overdue while the
    clock stays on the local day of the listing: the count of overdue
    follow-ups of the patients page, which is taken over the entries of the
    follow-up tab, is 0, every entry of the tab has a status other than
    overdue, and so has the next follow-up on the page of a patient. *)
Theorem X14_upcoming_is_not_overdue (patients : list Patient.t)
  (visits : list Visit.t) (w : World) :
  (forall k, setHoursZero (clock k) = setHoursZero (clock (clockReads w))) ->
  fst ((entries <- PatientsPage.upcomingFollowUps patients visits ;;
        PatientsPage.overdueFollowUps entries) w) = 0%nat
  /\ (forall entry_status,
         In entry_status
           (fst ((entries <- PatientsPage.upcomingFollowUps patients visits ;;
                  PatientsPage.followUpStatuses entries) w)) ->
         tone (snd entry_status) <> destructive)
  /\ forall status,
       fst ((next <- PatientDetailPage.upcomingFollowUp visits ;;
             PatientDetailPage.upcomingFollowUpStatus next) w) = Some status ->
       tone status <> destructive.
Proof.
  intros Hday.
  assert (Hstatus : forall d w0,
             d <> "" ->
             setHoursZero (clock (clockReads w)) <= setHoursZero (dateParse d) ->
             tone (fst (PatientsPage.getFollowUpStatus (Some d) w0))
             <> destructive).
  { intros d w0 Hne Hd. rewrite (getFollowUpStatus_dated d w0 Hne).
    apply tone_not_overdue. unfold PatientsPage.diffDays.
    apply roundDiv_nonneg; [|reflexivity].
    rewrite (Hday (clockReads w0)). lia. }
  assert (Htab := fun entry => upcomingFollowUps_In patients visits w entry).
  split; [|split].
  - unfold bind at 1.
    destruct (PatientsPage.upcomingFollowUps patients visits w)
      as [entries w1] eqn:E.
    cbn [fst] in Htab.
    unfold PatientsPage.overdueFollowUps. rewrite fst_bind_ret.
    rewrite filterM_none; [reflexivity|].
    intros entry w0 Hin.
    apply Htab in Hin as (v & d & p & _ & _ & Hne & _ & Hd & ->).
    rewrite fst_bind_ret. cbn [PatientsPage.followUpDate].
    pose proof (Hstatus d w0 Hne Hd) as Ht.
    destruct (tone _); congruence.
  - intros [entry status]. unfold bind at 1.
    destruct (PatientsPage.upcomingFollowUps patients visits w)
      as [entries w1] eqn:E.
    cbn [fst] in Htab. unfold PatientsPage.followUpStatuses.
    intros Hin. apply mapM_In in Hin as (e & w0 & He & Heq).
    rewrite fst_bind_ret in Heq. injection Heq as -> ->. cbn [snd].
    apply Htab in He as (v & d & p & _ & _ & Hne & _ & Hd & ->).
    now apply Hstatus.
  - intros status. unfold bind at 1.
    assert (Hnext := upcomingFollowUp_upcoming visits w).
    destruct (PatientDetailPage.upcomingFollowUp visits w)
      as [next w1] eqn:E.
    cbn [fst] in Hnext.
    destruct next as [entry|]; cbn; [|discriminate].
    rewrite fst_bind_ret. intros [= <-].
    destruct (Hnext entry eq_refl) as (Hne & Hd).
    now apply Hstatus.
Qed.

End FollowUpLists.

(** X14 on the seed data, with the clock at 2025-11-01, 09:00. *)
Lemma X14_no_overdue_at_seed :
  fst ((entries <- PatientsPage.upcomingFollowUps (rt := ExampleRuntime.amman)
                     (ClinicState.patients (state ExampleRuntime.seedWorld))
                     (ClinicState.visits (state ExampleRuntime.seedWorld)) ;;
        PatientsPage.overdueFollowUps (rt := ExampleRuntime.amman) entries)
         ExampleRuntime.seedWorld)
  = 0%nat.
Proof.
  exact (proj1 (X14_upcoming_is_not_overdue (rt := ExampleRuntime.amman) _ _
                  ExampleRuntime.seedWorld (fun k => eq_refl))).
Defined.

Section HomeFollowUps.
Context {rt : JSRuntime}.

(** What the home page keeps has a follow-up date that was not before the
    clock when it was read. *)
Lemma home_kept_In (visits : list Visit.t) (w : World) (v : Visit.t) :
  In v (fst (filterM
               (fun visit =>
                  match Visit.followUpDate visit with
                  | Some d =>
                      if JSString.truthy d then
                        now <- newDate ;; ret (dateParse d >=? now)
                      else ret false
                  | None => ret false
                  end)
               visits w)) ->
  In v visits
  /\ exists d k,
       Visit.followUpDate v = Some d /\ d <> "" /\ clock k <= dateParse d
       /\ HomePage.followUpTime v = Some (dateParse d).
Proof.
  intros H. apply filterM_In in H as [Hin (w0 & Hw0)]. split; [exact Hin|].
  unfold HomePage.followUpTime.
  destruct (Visit.followUpDate v) as [d|]; [|discriminate].
  destruct (JSString.truthy d) eqn:Et; [|discriminate].
  exists d, (clockReads w0). repeat split.
  - now apply truthy_not_empty.
  - unfold bind, newDate, ret in Hw0. cbn in Hw0. now apply Z.geb_le.
Qed.

(** X15. The home page shows at most four follow-ups.  Each is a visit of
    the state with a follow-up date whose time was not before the clock when
    the visit was tested (the time, not the day); they come by rising time;
    and a visit whose follow-up time is before every reading of the clock is
    not shown. *)
Theorem X15_home_follow_ups (visits : list Visit.t) (w : World) :
  let shown := fst (HomePage.upcomingFollowUps visits w) in
  (length shown <= 4)%nat
  /\ (length shown <= length visits)%nat
  /\ (forall v,
         In v shown ->
         In v visits
         /\ exists d k,
              Visit.followUpDate v = Some d /\ d <> ""
              /\ clock k <= dateParse d)
  /\ StronglySorted
       (fun a b =>
          nullish (HomePage.followUpTime a) 0
          <= nullish (HomePage.followUpTime b) 0)
       shown
  /\ forall v d,
       Visit.followUpDate v = Some d ->
       (forall k, dateParse d < clock k) ->
       ~ In v shown.
Proof.
  intros shown. subst shown.
  unfold HomePage.upcomingFollowUps. rewrite fst_bind_ret.
  set (kept := fst (filterM _ visits w)).
  assert (Hkept := fun v => home_kept_In visits w v). fold kept in Hkept.
  split; [|split; [|split; [|split]]].
  - rewrite List.length_firstn. lia.
  - rewrite List.length_firstn.
    rewrite (Permutation_length (sortBy_Permutation _ kept)).
    pose proof (length_filterM
                  (fun visit =>
                     match Visit.followUpDate visit with
                     | Some d =>
                         if JSString.truthy d then
                           now <- newDate ;; ret (dateParse d >=? now)
                         else ret false
                     | None => ret false
                     end) visits w) as Hl.
    fold kept in Hl. lia.
  - intros v Hv. apply In_firstn, In_sortBy, Hkept in Hv
      as [Hin (d & k & Ed & Hne & Hk & _)].
    split; [exact Hin|]. now exists d, k.
  - apply StronglySorted_firstn.
    apply sortBy_sorted.
    + intros a b c. lia.
    + intros a b Ha Hb.
      apply Hkept in Ha as [_ (da & ka & _ & _ & _ & Ea)].
      apply Hkept in Hb as [_ (db & kb & _ & _ & _ & Eb)].
      unfold HomePage.compareFollowUp. rewrite Ea, Eb. cbn. lia.
    + intros a b Ha Hb.
      apply Hkept in Ha as [_ (da & ka & _ & _ & _ & Ea)].
      apply Hkept in Hb as [_ (db & kb & _ & _ & _ & Eb)].
      unfold HomePage.compareFollowUp. rewrite Ea, Eb. cbn. lia.
  - intros v d Ed Hpast Hv.
    apply In_firstn, In_sortBy, Hkept in Hv
      as [_ (d' & k & Ed' & _ & Hk & _)].
    rewrite Ed in Ed'. injection Ed' as <-. specialize (Hpast k). lia.
Qed.

(** X16. A follow-up that is due today, at a time of day that has passed, is
    left out of the home page and kept on the patients page: with the clock
    on the local day of the follow-up date and after its time, the visit is
    not among the follow-ups of the home page, while the follow-up tab lists
    it, with the status "Due today". *)
Theorem X16_due_today_is_not_on_the_home_page (patients : list Patient.t)
  (visits : list Visit.t) (w : World) (v : Visit.t) (d : string)
  (p : Patient.t) :
  In v visits ->
  Visit.followUpDate v = Some d -> d <> "" ->
  List.find (fun entry => String.eqb (Patient.id entry) (Visit.patientId v))
    patients = Some p ->
  (forall k, dateParse d < clock k) ->
  (forall k, setHoursZero (clock k) = setHoursZero (dateParse d)) ->
  ~ In v (fst (HomePage.upcomingFollowUps visits w))
  /\ In (PatientsPage.mkUpcoming v (Some p) d)
       (fst (PatientsPage.upcomingFollowUps patients visits w))
  /\ forall w0,
       fst (PatientsPage.getFollowUpStatus (Some d) w0)
       = mkStatus "Due today" warning.
Proof.
  intros Hin Ed Hne Ef Hpast Hday. split; [|split].
  - unfold HomePage.upcomingFollowUps. rewrite fst_bind_ret. intros Hv.
    apply In_firstn, In_sortBy, home_kept_In in Hv
      as [_ (d' & k & Ed' & _ & Hk & _)].
    rewrite Ed in Ed'. injection Ed' as <-. specialize (Hpast k). lia.
  - apply upcomingFollowUps_In. exists v, d, p.
    repeat split; try assumption. rewrite Hday. lia.
  - intros w0. rewrite (getFollowUpStatus_dated d w0 Hne).
    unfold PatientsPage.diffDays. rewrite Hday, Z.sub_diag. reflexivity.
Qed.

End HomeFollowUps.

(** X16 for a follow-up on 2025-11-01 (midnight UTC, 03:00 in the zone of
    the clinic) with the clock at 09:00 of that day. *)
Lemma X16_due_today_at_nine :
  ~ In ExampleRuntime.dueTodayVisit
      (fst (HomePage.upcomingFollowUps (rt := ExampleRuntime.amman)
              [ExampleRuntime.dueTodayVisit] ExampleRuntime.emptyWorld))
  /\ In (PatientsPage.mkUpcoming ExampleRuntime.dueTodayVisit
          (Some ExampleRuntime.dueTodayPatient) "2025-11-01")
       (fst (PatientsPage.upcomingFollowUps (rt := ExampleRuntime.amman)
               [ExampleRuntime.dueTodayPatient] [ExampleRuntime.dueTodayVisit]
               ExampleRuntime.emptyWorld)).
Proof.
  destruct (X16_due_today_is_not_on_the_home_page
              (rt := ExampleRuntime.amman) [ExampleRuntime.dueTodayPatient]
              [ExampleRuntime.dueTodayVisit] ExampleRuntime.emptyWorld
              ExampleRuntime.dueTodayVisit "2025-11-01"
              ExampleRuntime.dueTodayPatient)
    as (H1 & H2 & _).
  - now left.
  - reflexivity.
  - discriminate.
  - reflexivity.
  - intros k. vm_compute. reflexivity.
  - intros k. vm_compute. reflexivity.
  - split; [exact H1 | exact H2].
Defined.

(* ===================================================================== *)
(** ** The multi-select of the filters *)
(* ===================================================================== *)

Lemma filter_neq_notin (l : list string) (o : string) :
  ~ In o l -> List.filter (fun item => negb (String.eqb item o)) l = l.
Proof.
  induction l as [|x r IH]; cbn; [reflexivity|]. intros Hn.
  destruct (String.eqb_spec x o) as [->|_]; [exfalso; apply Hn; now left|].
  cbn. f_equal. apply IH. intros H. apply Hn. now right.
Qed.

(** X17. Toggling an option of a multi-select.  The new selection holds the
    option exactly when the old one did not, and every other value exactly
    when the old one did; a selection without repeats stays without repeats.
    Toggling an option that was not selected twice gives the selection back;
    toggling a selected one twice moves it to the end.  The labels shown
    depend on which values are selected only, not on their order: they
    follow the order of the options.  A search term that is blank filters
    no option out. *)
Theorem X17_toggle_option (value : list string) (optionValue : string) :
  let toggled := MultiSelect.toggleOption value optionValue in
  (forall x,
      In x toggled
      <-> (x = optionValue /\ ~ In optionValue value)
          \/ (x <> optionValue /\ In x value))
  /\ (List.NoDup value -> List.NoDup toggled)
  /\ (~ In optionValue value ->
      MultiSelect.toggleOption toggled optionValue = value)
  /\ (In optionValue value ->
      MultiSelect.toggleOption toggled optionValue
      = (List.filter (fun item => negb (String.eqb item optionValue)) value
         ++ [optionValue])%list)
  /\ (forall options value',
         (forall x, In x value <-> In x value') ->
         MultiSelect.selectedLabels options value
         = MultiSelect.selectedLabels options value')
  /\ (forall options searchTerm,
         JSString.isBlank searchTerm = true ->
         MultiSelect.filteredOptions options searchTerm = options).
Proof.
  intros toggled. subst toggled. unfold MultiSelect.toggleOption.
  assert (Hfilter : forall x,
             In x (List.filter
                     (fun item => negb (String.eqb item optionValue)) value)
             <-> x <> optionValue /\ In x value).
  { intros x. rewrite filter_In, negb_true_iff, String.eqb_neq. tauto. }
  destruct (includes value optionValue) eqn:E.
  - apply includes_In in E.
    split; [|split; [|split; [|split; [|split]]]].
    + intros x. rewrite Hfilter. tauto.
    + intros Hnd. apply List.NoDup_filter, Hnd.
    + intros Hn. contradiction.
    + intros _.
      replace (includes (List.filter _ value) optionValue) with false;
        [|symmetry; apply not_true_iff_false; rewrite includes_In, Hfilter;
          tauto].
      reflexivity.
    + intros options value' Hsame. unfold MultiSelect.selectedLabels.
      f_equal. apply List.filter_ext. intros o.
      apply eq_true_iff_eq. rewrite !includes_In. apply Hsame.
    + intros options searchTerm Hb. unfold MultiSelect.filteredOptions.
      now rewrite truthy_trim, Hb.
  - assert (Hn : ~ In optionValue value)
      by (rewrite <- includes_In, E; discriminate).
    split; [|split; [|split; [|split; [|split]]]].
    + intros x. rewrite in_app_iff. cbn. split.
      * intros [H|[<-|[]]]; [right; split; [|exact H] | left; now split].
        intros ->. contradiction.
      * intros [[-> _]|[_ H]]; [right; now left | now left].
    + intros Hnd. apply List.NoDup_app; [exact Hnd | repeat constructor; tauto|].
      intros x Hx [<-|[]]. contradiction.
    + intros _.
      replace (includes (value ++ [optionValue]) optionValue) with true;
        [|symmetry; apply includes_In, in_or_app; right; now left].
      rewrite List.filter_app, filter_neq_notin by exact Hn.
      cbn. rewrite String.eqb_refl. cbn. apply app_nil_r.
    + intros H. contradiction.
    + intros options value' Hsame. unfold MultiSelect.selectedLabels.
      f_equal. apply List.filter_ext. intros o.
      apply eq_true_iff_eq. rewrite !includes_In. apply Hsame.
    + intros options searchTerm Hb. unfold MultiSelect.filteredOptions.
      now rewrite truthy_trim, Hb.
Qed.

(* ===================================================================== *)
(** ** The forms that write to the store *)
(* ===================================================================== *)

Section Forms.
Context {rt : JSRuntime}.

Lemma truthyOpt_Some (id : string) :
  id <> "" -> JSString.truthyOpt (Some id) = true.
Proof. intros H. now apply truthy_not_empty. Qed.

(** X18. Saving the payment form for a payment under edit.  When the id is
    in the state, the payment of that id gets the amounts, the method and
    the visit of the form (a blank visit field unlinks the visit), and the
    invoice number and the notes of the form trimmed; a blank invoice number
    or notes field leaves the earlier value, so neither can be cleared.  The
    patient of the form is not read: the payment stays with its patient, and
    keeps its id and time of recording.  Saving the values the dialog was
    opened with keeps the amounts and the method, and changes the visit, the
    invoice number and the notes by that unlinking and trimming only.  The
    message is the one of a success, also when the id is not in the state,
    where nothing is changed. *)
Theorem X18_payment_form_edit (w : World) (id : string)
  (values : PaymentsPage.PaymentFormValues) :
  id <> "" ->
  let payments := ClinicState.payments (state w) in
  let result := PaymentsPage.handleSubmit (Some id) values w in
  let keep (field : option string) (earlier : option string) :=
    match JSString.trimmedOrUndefined field with
    | Some s => Some s
    | None => earlier
    end in
  fst result = "Payment updated successfully."
  /\ (List.find (fun p => String.eqb (Payment.id p) id) payments = None ->
      snd result = w)
  /\ forall entry,
       List.find (fun p => String.eqb (Payment.id p) id) payments
       = Some entry ->
       let updated :=
         Payment.mk (Payment.id entry) (Payment.patientId entry)
           (keepIfNotBlank (PaymentsPage.f_visitId values))
           (PaymentsPage.f_amountDue values)
           (PaymentsPage.f_amountPaid values)
           (PaymentsPage.f_method values)
           (keep (PaymentsPage.f_invoiceNumber values)
              (Payment.invoiceNumber entry))
           (Payment.recordedAt entry)
           (toISOString (clock (clockReads w)))
           (keep (PaymentsPage.f_notes values) (Payment.notes entry)) in
       List.find (fun p => String.eqb (Payment.id p) id)
         (ClinicState.payments (state (snd result))) = Some updated
       /\ ClinicState.patients (state (snd result))
          = ClinicState.patients (state w)
       /\ ClinicState.visits (state (snd result))
          = ClinicState.visits (state w)
       /\ (values = snd (PaymentsPage.openDialogForEdit entry) ->
           (Payment.amountDue updated, Payment.amountPaid updated,
            Payment.method updated)
           = (Payment.amountDue entry, Payment.amountPaid entry,
              Payment.method entry)
           /\ Payment.visitId updated = keepIfNotBlank (Payment.visitId entry)
           /\ Payment.invoiceNumber updated
              = keep (Payment.invoiceNumber entry) (Payment.invoiceNumber entry)
           /\ Payment.notes updated
              = keep (Payment.notes entry) (Payment.notes entry)).
Proof.
  intros Hid payments result keep. subst payments result.
  unfold PaymentsPage.handleSubmit. rewrite (truthyOpt_Some id Hid).
  cbn [nullish]. split; [|split].
  - unfold bind, ret. now destruct (updatePayment _ _ w).
  - intros Hf. unfold bind at 1. run_lookup updatePayment. now rewrite Hf.
  - intros entry Hf. cbv zeta. unfold bind.
    match goal with
    | |- context [updatePayment id ?data w] =>
        pose proof (updatePayment_found w id data entry Hf) as Hu
    end.
    cbv zeta in Hu. rewrite Hu. clear Hu.
    cbn [snd fst state ClinicState.payments ClinicState.patients
         ClinicState.visits clinicReducer ret UpdatePaymentInput.visitId
         UpdatePaymentInput.amountDue UpdatePaymentInput.amountPaid
         UpdatePaymentInput.method UpdatePaymentInput.invoiceNumber
         UpdatePaymentInput.notes spread nullish].
    destruct (find_id_Some Payment.id id _ entry Hf) as [_ Eid].
    split; [|split; [reflexivity|split; [reflexivity|]]].
    + subst id.
      match goal with
      | |- List.find _ (map (fun _ => if _ then ?u else _) _) = _ =>
          apply (find_id_replace Payment.id u _ entry)
      end.
      exact Hf.
    + intros ->. cbn. unfold keep. cbn.
      destruct (Payment.visitId entry), (Payment.invoiceNumber entry),
        (Payment.notes entry); repeat split; reflexivity.
Qed.


(** X19. Saving a follow-up date from the follow-up tab.  Without a visit
    under edit nothing happens.  A blank date gives an error message and
    changes nothing; so does an id that is not in the state.  Otherwise the
    visit of that id gets the trimmed date as its follow-up date and a new
    time of update, every other field of it, the patients and the payments
    stay as they are, the message is the one of a success, and the visit is
    then listed in the follow-up tab with the new date whenever its patient
    is in the state and the day of the date is not before today. *)
Theorem X19_save_follow_up_date (w : World) (id date : string) :
  id <> "" ->
  let visits := ClinicState.visits (state w) in
  let trimmed := JSString.trim date in
  let result := PatientsPage.saveFollowUpDate (Some id) date w in
  (forall date', PatientsPage.saveFollowUpDate None date' w = (None, w))
  /\ (JSString.isBlank date = true ->
      result
      = (Some (ToastError "Select a follow-up date before saving."), w))
  /\ (JSString.isBlank date = false ->
      List.find (fun v => String.eqb (Visit.id v) id) visits = None ->
      result = (Some (ToastError "Unable to update follow-up date."), w))
  /\ forall existing,
       JSString.isBlank date = false ->
       List.find (fun v => String.eqb (Visit.id v) id) visits = Some existing ->
       let updated :=
         Visit.mk (Visit.id existing) (Visit.patientId existing)
           (Visit.visitDate existing) (Visit.reason existing)
           (Visit.complaints existing) (Visit.diagnoses existing)
           (Visit.notes existing) (Visit.treatmentPlan existing)
           (Some trimmed) (Visit.vitals existing)
           (Visit.attendingPhysician existing) (Visit.createdAt existing)
           (toISOString (clock (clockReads w))) in
       let w' := snd result in
       fst result = Some (ToastSuccess "Follow-up date updated.")
       /\ trimmed <> ""
       /\ List.find (fun v => String.eqb (Visit.id v) id)
            (ClinicState.visits (state w')) = Some updated
       /\ ClinicState.patients (state w') = ClinicState.patients (state w)
       /\ ClinicState.payments (state w') = ClinicState.payments (state w)
       /\ forall p,
            List.find
              (fun entry =>
                 String.eqb (Patient.id entry) (Visit.patientId existing))
              (ClinicState.patients (state w)) = Some p ->
            setHoursZero (clock (clockReads w'))
            <= setHoursZero (dateParse trimmed) ->
            In (PatientsPage.mkUpcoming updated (Some p) trimmed)
              (fst (PatientsPage.upcomingFollowUps
                      (ClinicState.patients (state w'))
                      (ClinicState.visits (state w')) w')).
Proof.
  intros Hid visits trimmed result. subst visits trimmed result.
  unfold PatientsPage.saveFollowUpDate.
  split; [reflexivity|].
  rewrite (truthyOpt_Some id Hid). cbn [negb nullish].
  rewrite truthy_trim.
  split; [|split].
  - intros ->. reflexivity.
  - intros -> Hf. cbn [negb]. unfold bind. run_lookup updateVisit.
    now rewrite Hf.
  - intros existing Hb Hf. rewrite Hb. cbn [negb]. cbv zeta. unfold bind.
    match goal with
    | |- context [updateVisit id ?data w] =>
        pose proof (updateVisit_found w id data existing Hf) as Hu
    end.
    cbv zeta in Hu. rewrite Hu. clear Hu.
    cbn [snd fst state ClinicState.payments ClinicState.patients
         ClinicState.visits clinicReducer ret UpdateVisitInput.visitDate
         UpdateVisitInput.reason UpdateVisitInput.complaints
         UpdateVisitInput.diagnoses UpdateVisitInput.notes
         UpdateVisitInput.treatmentPlan UpdateVisitInput.followUpDate
         UpdateVisitInput.vitals UpdateVisitInput.attendingPhysician
         spread nullish clockReads].
    destruct (find_id_Some Visit.id id _ existing Hf) as [Hin Eid].
    set (updated := Visit.mk _ _ _ _ _ _ _ _ _ _ _ _ _).
    assert (Hne : JSString.trim date <> "").
    { apply truthy_not_empty. now rewrite truthy_trim, Hb. }
    assert (Hfound :
              List.find (fun v => String.eqb (Visit.id v) id)
                (map (fun visit =>
                        if String.eqb (Visit.id visit) (Visit.id updated)
                        then updated else visit)
                   (ClinicState.visits (state w))) = Some updated).
    { subst id. apply (find_id_replace Visit.id updated _ existing).
      exact Hf. }
    split; [reflexivity|]. split; [exact Hne|]. split; [exact Hfound|].
    split; [reflexivity|]. split; [reflexivity|].
    intros p Hp Hday. apply upcomingFollowUps_In.
    exists updated, (JSString.trim date), p.
    split; [now apply find_id_Some in Hfound|].
    repeat split; try assumption.
Qed.

End Forms.

(** X18 at the seed data: the first payment is saved with a form that names
    another patient and has blank notes. *)
Lemma X18_edit_at_seed :
  fst (PaymentsPage.handleSubmit (rt := ExampleRuntime.amman)
         (Some "pay-amani-1")
         (PaymentsPage.mkForm "pat-omar-haddad" (Some "") 1200 1200 cash
            (Some " INV-7 ") (Some "  "))
         ExampleRuntime.seedWorld)
  = "Payment updated successfully.".
Proof.
  refine (proj1 (X18_payment_form_edit (rt := ExampleRuntime.amman)
                   ExampleRuntime.seedWorld "pay-amani-1" _ _)).
  discriminate.
Defined.

(** X19 for a date with spaces around it, saved for the visit of a state
    with one patient and one visit. *)
Lemma X19_save_trimmed_date :
  fst (PatientsPage.saveFollowUpDate (rt := ExampleRuntime.amman)
         (Some "visit-1") " 2025-11-20 " ExampleRuntime.dueTodayWorld)
  = Some (ToastSuccess "Follow-up date updated.").
Proof.
  assert (Hid : "visit-1" <> "") by discriminate.
  pose proof (X19_save_follow_up_date (rt := ExampleRuntime.amman)
                ExampleRuntime.dueTodayWorld "visit-1" " 2025-11-20 " Hid)
    as H.
  cbv zeta in H. destruct H as (_ & _ & _ & H).
  specialize (H ExampleRuntime.dueTodayVisit eq_refl eq_refl).
  exact (proj1 H).
Defined.

(* ===================================================================== *)
(** ** The same totals on every page *)
(* ===================================================================== *)








Section SameTotals.
Context {rt : JSRuntime}.


End SameTotals.

(* ===================================================================== *)
(** ** The conditions tracked *)
(* ===================================================================== *)

Lemma conditions_fold (l : list string) (set : gset string) :
  fold_left (fun (set : gset string) condition => {[condition]} ∪ set) l set
  = list_to_set l ∪ set.
Proof.
  revert set. induction l as [|x r IH]; intros set; cbn [fold_left].
  - apply set_eq. intros y.
    rewrite elem_of_union, elem_of_list_to_set, list_elem_of_In. cbn. tauto.
  - rewrite IH. apply set_eq. intros y.
    rewrite !elem_of_union, !elem_of_list_to_set, !list_elem_of_In,
      elem_of_singleton.
    cbn. intuition congruence.
Qed.

Lemma patients_conditions_fold (patients : list Patient.t) (set : gset string) :
  fold_left
    (fun (set : gset string) patient =>
       fold_left (fun (set : gset string) condition => {[condition]} ∪ set)
         (Patient.chronicConditions patient) set)
    patients set
  = list_to_set (concat (map Patient.chronicConditions patients)) ∪ set.
Proof.
  revert set. induction patients as [|p r IH]; intros set; cbn [fold_left].
  - apply set_eq. intros y.
    rewrite elem_of_union, elem_of_list_to_set, list_elem_of_In. cbn. tauto.
  - rewrite IH, conditions_fold. cbn [map concat].
    apply set_eq. intros y.
    rewrite !elem_of_union, !elem_of_list_to_set, !list_elem_of_In, in_app_iff.
    tauto.
Qed.

Section Conditions.
Context {rt : JSRuntime}.

(** X21. The number of conditions tracked on the patients page is the number
    of distinct chronic conditions of the patients: a condition that several
    patients have, or that one patient has twice, counts once.  It is 0
    exactly when no patient has a chronic condition. *)
Theorem X21_conditions_tracked (patients : list Patient.t) :
  let conditions := concat (map Patient.chronicConditions patients) in
  PatientsPage.conditionsTracked patients = length (remove_dups conditions)
  /\ (forall c, In c (remove_dups conditions)
                <-> exists p, In p patients /\ In c (Patient.chronicConditions p))
  /\ List.NoDup (remove_dups conditions)
  /\ (PatientsPage.conditionsTracked patients = 0%nat
      <-> forall p, In p patients -> Patient.chronicConditions p = []).
Proof.
  intros conditions.
  assert (Hsize : PatientsPage.conditionsTracked patients
                  = length (remove_dups conditions)).
  { unfold PatientsPage.conditionsTracked.
    rewrite patients_conditions_fold. fold conditions.
    rewrite <- (size_list_to_set (C := gset string) (remove_dups conditions))
      by apply NoDup_remove_dups.
    f_equal. apply set_eq. intros x.
    rewrite elem_of_union, !elem_of_list_to_set, elem_of_remove_dups,
      elem_of_empty.
    tauto. }
  assert (Hin : forall c, In c (remove_dups conditions)
                          <-> exists p, In p patients
                                        /\ In c (Patient.chronicConditions p)).
  { intros c. rewrite <- list_elem_of_In, elem_of_remove_dups, list_elem_of_In.
    unfold conditions. rewrite in_concat. split.
    - intros (l & Hl & Hc). apply in_map_iff in Hl as (p & <- & Hp).
      now exists p.
    - intros (p & Hp & Hc). exists (Patient.chronicConditions p).
      split; [now apply in_map | exact Hc]. }
  split; [exact Hsize|]. split; [exact Hin|].
  split; [apply NoDup_ListNoDup, NoDup_remove_dups|].
  rewrite Hsize. split.
  - intros H0 p Hp. destruct (Patient.chronicConditions p) as [|c r] eqn:E;
      [reflexivity|]. exfalso.
    assert (Hc : In c (remove_dups conditions)).
    { apply Hin. exists p. split; [exact Hp|]. rewrite E. now left. }
    destruct (remove_dups conditions); [exact Hc | discriminate].
  - intros Hall. destruct (remove_dups conditions) as [|c r] eqn:E;
      [reflexivity|]. exfalso.
    destruct (proj1 (Hin c) (or_introl eq_refl)) as (p & Hp & Hc).
    now rewrite (Hall p Hp) in Hc.
Qed.

End Conditions.
